(** * ocr-to-training-data: the OCR page loop, the consolidation of the
      per-document texts and the character-level codec

    The three scripts of the repository are embedded shallowly:

    - [Prepare]  : [prepare.py], the vocabulary ([chars], [stoi], [itos]),
                   [encode] / [decode], the 90/10 split and the uint16 export;
    - [Combine]  : [combine_extracted_texts.py], the directory scan, the sort
                   by directory name, the consolidated file and its summary;
    - [Ocr]      : [ocr_google_vision.py], the per-page loop of
                   [GoogleVisionOCR.process_pdf].

    A Python [str] is the list of its code points, an exception is a value of
    [exn], and a call that may raise returns a [result]. *)

From Stdlib Require Import ZArith NArith List Lia Sorted Permutation.
From Stdlib Require Import Ascii String DecimalString SpecFloat.
From stdpp Require Import base decidable option list sorting gmap.

#[local] Open Scope Z_scope.

(** ** Python values shared by the three scripts *)

Module Py.

(** A character is its Unicode code point; a [str] is a sequence of them. *)
Abbreviation char := N.
Abbreviation str := (list N).

(** What a raised exception carries: the missing key of a [KeyError]
    (a character for [stoi], an integer for [itos]), the message of any other
    exception, as [str(e)] prints it. *)
Inductive exn : Type :=
  | KeyError_chr (c : char)
  | KeyError_int (i : Z)
  | OverflowError
  | ZeroDivisionError
  | Error (msg : str).

Inductive result (A : Type) : Type :=
  | Ok (a : A)
  | Raise (e : exn).
Arguments Ok {A} a.
Arguments Raise {A} e.

Definition bind {A B} (r : result A) (k : A -> result B) : result B :=
  match r with
  | Ok a => k a
  | Raise e => Raise e
  end.

#[global] Instance result_ret : MRet result := @Ok.
#[global] Instance result_bind : MBind result := fun A B k r => bind r k.

(** A list comprehension [[f(c) for c in s]] whose body may raise: the first
    exception, in iteration order, leaves the comprehension. *)
Fixpoint comprehension {A B} (f : A -> result B) (s : list A) : result (list B) :=
  match s with
  | [] => Ok []
  | c :: s' =>
      match f c with
      | Raise e => Raise e
      | Ok i =>
          match comprehension f s' with
          | Raise e => Raise e
          | Ok l => Ok (i :: l)
          end
      end
  end.

(** [len(s)] as a Python integer. *)
Definition len {A} (s : list A) : Z := Z.of_nat (length s).

(** [enumerate(l, start)]. *)
Definition enumerate {A} (start : Z) (l : list A) : list (Z * A) :=
  imap (fun i x => (start + Z.of_nat i, x)) l.

(** A literal of the source text, as a [str]. *)
Definition lit (s : string) : str :=
  List.map N_of_ascii (list_ascii_of_string s).

(** [str.isspace] on one character: the code points CPython's
    [_PyUnicode_IsWhitespace] accepts. *)
Definition isspace (c : char) : bool :=
  ((9 <=? c) && (c <=? 13) || (28 <=? c) && (c <=? 32)
   || (c =? 133) || (c =? 160) || (c =? 5760)
   || (8192 <=? c) && (c <=? 8202)
   || (c =? 8232) || (c =? 8233) || (c =? 8239) || (c =? 8287)
   || (c =? 12288))%N.

Fixpoint lstrip (s : str) : str :=
  match s with
  | [] => []
  | c :: s' => if isspace c then lstrip s' else s
  end.

Definition rstrip (s : str) : str := rev (lstrip (rev s)).

(** [s.strip()] *)
Definition strip (s : str) : str := rstrip (lstrip s).

(** Slices [s[:k]] and [s[k:]]: a negative bound counts from the end, and
    both bounds are clamped to the sequence. *)
Definition slice_index (n k : Z) : Z :=
  if k <? 0 then Z.max 0 (n + k) else Z.min k n.

Definition slice_to {A} (k : Z) (s : list A) : list A :=
  take (Z.to_nat (slice_index (len s) k)) s.

Definition slice_from {A} (k : Z) (s : list A) : list A :=
  drop (Z.to_nat (slice_index (len s) k)) s.

(** A dict comprehension [{k: v for ...}]: the pairs are stored in iteration
    order, a later pair replacing an earlier one with the same key. *)
Definition dict_of `{Countable K} {V} (l : list (K * V)) : gmap K V :=
  foldl (fun m kv => <[kv.1 := kv.2]> m) ∅ l.

(** [sorted(l, key=key)] and [l.sort(key=key)]: Python's sort is stable, and
    the stable sorted arrangement of a list is unique; it is computed here by
    insertion, an element going in front of the first one whose key is not
    smaller. *)
Section Sort.
Context {A K : Type} (key : A -> K) (leb : K -> K -> bool).

Fixpoint insert_by (x : A) (l : list A) : list A :=
  match l with
  | [] => [x]
  | y :: l' => if leb (key x) (key y) then x :: l else y :: insert_by x l'
  end.

Definition sort_by (l : list A) : list A := foldr insert_by [] l.

(** The order of the keys, on the elements. *)
Definition key_le (x y : A) : Prop := leb (key x) (key y) = true.
Definition key_lt (x y : A) : Prop := key_le x y /\ key x <> key y.

End Sort.

(** [sep.join(parts)] *)
Fixpoint join (sep : str) (parts : list str) : str :=
  match parts with
  | [] => []
  | [p] => p
  | p :: ps => p ++ sep ++ join sep ps
  end.

(** Code points are compared as numbers, strings lexicographically by code
    point. *)
Fixpoint str_leb (a b : str) : bool :=
  match a, b with
  | [], _ => true
  | _ :: _, [] => false
  | x :: a', y :: b' =>
      if (x <? y)%N then true
      else if (y <? x)%N then false
      else str_leb a' b'
  end.

(** Decimal digits of a non-negative integer, and [str(z)]. *)
Fixpoint digits_of_uint (d : Decimal.uint) : str :=
  match d with
  | Decimal.Nil => []
  | Decimal.D0 d => 48%N :: digits_of_uint d
  | Decimal.D1 d => 49%N :: digits_of_uint d
  | Decimal.D2 d => 50%N :: digits_of_uint d
  | Decimal.D3 d => 51%N :: digits_of_uint d
  | Decimal.D4 d => 52%N :: digits_of_uint d
  | Decimal.D5 d => 53%N :: digits_of_uint d
  | Decimal.D6 d => 54%N :: digits_of_uint d
  | Decimal.D7 d => 55%N :: digits_of_uint d
  | Decimal.D8 d => 56%N :: digits_of_uint d
  | Decimal.D9 d => 57%N :: digits_of_uint d
  end.

Definition digits (z : Z) : str := digits_of_uint (N.to_uint (Z.to_N z)).

(** [f"{z}"] *)
Definition format_int (z : Z) : str :=
  if z <? 0 then 45%N :: digits (- z) else digits z.

(** A comma after every third digit, on the reversed digits. *)
Fixpoint commas_rev (l : str) : str :=
  match l with
  | a :: b :: c :: rest =>
      match rest with
      | [] => l
      | _ :: _ => a :: b :: c :: 44%N :: commas_rev rest
      end
  | _ => l
  end.

(** [f"{z:,}"] *)
Definition format_commas (z : Z) : str :=
  if z <? 0 then 45%N :: rev (commas_rev (rev (digits (- z))))
  else rev (commas_rev (rev (digits z))).

(** [f"{z:2d}"] and [f"{z:03d}"]: padding on the left up to a width. *)
Definition pad_left (width : nat) (c : char) (s : str) : str :=
  replicate (width - length s) c ++ s.

(** [c * k] for a one-character string [c]. *)
Definition rule (c : string) (k : nat) : str :=
  mjoin (replicate k (lit c)).

(** [str(e)]. For a [KeyError] Python shows the [repr] of the key; for a
    character key this is the character between quotes only when it is
    printable and neither a quote nor a backslash, so the properties that
    depend on the text of an exception are stated for [Error msg], whose
    text is [msg]. *)
Definition str_of_exn (e : exn) : str :=
  match e with
  | KeyError_chr c => lit "'" ++ [c] ++ lit "'"
  | KeyError_int i => format_int i
  | OverflowError => lit "int too large to convert to float"
  | ZeroDivisionError => lit "division by zero"
  | Error msg => msg
  end.

(** [len(text.split())]: the number of maximal runs of non-space
    characters. *)
Fixpoint count_words (in_word : bool) (s : str) : Z :=
  match s with
  | [] => 0
  | c :: s' =>
      if isspace c then count_words false s'
      else (if in_word then 0 else 1) + count_words true s'
  end.

(** [os.path.join(a, b)] on POSIX paths. *)
Definition os_path_join (a b : str) : str :=
  match b with
  | 47%N :: _ => b
  | _ =>
      match last a with
      | None => b
      | Some 47%N => a ++ b
      | Some _ => a ++ [47%N] ++ b
      end
  end.

(** The newline character. *)
Definition nl : str := [10%N].

Definition str_le (a b : str) : Prop := str_leb a b = true.
Definition str_lt (a b : str) : Prop := str_leb a b = true /\ a <> b.

(** Whether [s.encode('utf-8')] succeeds, hence whether [s] can be written
    to a file opened with [encoding='utf-8'] or printed: a surrogate code
    point (U+D800 to U+DFFF) raises [UnicodeEncodeError]. *)
Definition utf8_encodable (s : str) : bool :=
  forallb (fun c => negb ((55296 <=? c) && (c <=? 57343))%N) s.

(** [s.startswith(prefix)] and [sub in s]. *)
Fixpoint startswith (s prefix : str) : bool :=
  match prefix, s with
  | [], _ => true
  | _ :: _, [] => false
  | p :: prefix', c :: s' => (p =? c)%N && startswith s' prefix'
  end.

Fixpoint contains (s sub : str) : bool :=
  startswith s sub
  || match s with
     | [] => false
     | _ :: s' => contains s' sub
     end.

End Py.

Import Py.

(** ** prepare.py: the character-level codec *)

Module Prepare.

(** *** Binary64 arithmetic of the split point

    [int(n*0.9)] converts the integer [n] to a double, multiplies it by the
    double nearest to 0.9 and truncates. The operations are those of the
    standard library's specification of IEEE 754 ([SpecFloat]) at precision
    53 and maximal exponent 1024. *)

Definition prec : Z := 53.
Definition emax : Z := 1024.

(** The literal [0.9]: 0x1.ccccccccccccdp-1, that is
    8106479329266893 * 2^-53. *)
Definition float_0_9 : spec_float := S754_finite false 8106479329266893 (-53).

(** [float(z)]: the nearest double, ties to even; an integer beyond the
    range of the doubles raises [OverflowError]. *)
Definition float_of_int (z : Z) : result spec_float :=
  match binary_normalize prec emax z 0 false with
  | S754_infinity _ => Raise OverflowError
  | f => Ok f
  end.

(** [int(f)]: truncation toward zero. *)
Definition int_of_float (f : spec_float) : result Z :=
  match f with
  | S754_zero _ => Ok 0
  | S754_finite s m e =>
      let a := match e with
               | Zneg p => Z.pos m / 2 ^ Z.pos p
               | _ => Z.pos m * 2 ^ e
               end in
      Ok (if s then - a else a)
  | S754_infinity _ => Raise OverflowError
  | S754_nan => Raise (Error (lit "cannot convert float NaN to integer"))
  end.

(** [int(n*0.9)] *)
Definition int_mul_0_9 (n : Z) : result Z :=
  x ← float_of_int n; int_of_float (SFmul prec emax x float_0_9).

(** The largest length a Python sequence can have ([sys.maxsize]). *)
Definition sys_maxsize : Z := 2 ^ 63 - 1.

(** *** uint16 arrays *)

(** [np.array(ids, dtype=np.uint16)]: each value is stored in 16 bits, a
    larger one keeping its low 16 bits (NumPy 2 raises [OverflowError]
    there instead; the two agree below [65536]). *)
Definition to_uint16 (x : Z) : Z := Z.land x 65535.

Definition np_array_uint16 (ids : list Z) : list Z := to_uint16 <$> ids.

(** [arr.tofile(f)]: the items in order, two bytes each, in the byte order
    of the machine, taken little-endian. *)
Definition tofile (arr : list Z) : list Z :=
  arr ≫= (fun x => [Z.land x 255; Z.land (Z.shiftr x 8) 255]).

(** Reading a [.bin] file back as uint16 items, as the training loop does. *)
Fixpoint fromfile (bytes : list Z) : list Z :=
  match bytes with
  | lo :: hi :: rest => Z.lor lo (Z.shiftl hi 8) :: fromfile rest
  | _ => []
  end.

(** *** The vocabulary and the codec, for the corpus [data] *)

Section Codec.
Variable data : str.

(** [chars = sorted(list(set(data)))] *)
Definition chars : list char :=
  sort_by id N.leb (elements (list_to_set data : gset N)).

Definition vocab_size : Z := len chars.

(** [stoi = { ch:i for i,ch in enumerate(chars) }] *)
Definition stoi : gmap N Z :=
  dict_of ((fun ich : Z * char => (ich.2, ich.1)) <$> enumerate 0 chars).

(** [itos = { i:ch for i,ch in enumerate(chars) }] *)
Definition itos : gmap Z N :=
  dict_of ((fun ich : Z * char => (ich.1, ich.2)) <$> enumerate 0 chars).

(** [stoi[c]] and [itos[i]]: a missing key raises [KeyError]. *)
Definition stoi_getitem (c : char) : result Z :=
  match stoi !! c with
  | Some i => Ok i
  | None => Raise (KeyError_chr c)
  end.

Definition itos_getitem (i : Z) : result char :=
  match itos !! i with
  | Some c => Ok c
  | None => Raise (KeyError_int i)
  end.

(** [encode(s) = [stoi[c] for c in s]] *)
Definition encode (s : str) : result (list Z) :=
  comprehension stoi_getitem s.

(** [decode(l) = ''.join([itos[i] for i in l])]; each [itos[i]] is a string
    of one character. *)
Definition decode (l : list Z) : result str :=
  cs ← comprehension itos_getitem l; Ok (join [] ((fun c => [c]) <$> cs)).

(** *** The split *)

Definition n : Z := len data.

(** [train_data = data[:int(n*0.9)]] and [val_data = data[int(n*0.9):]] *)
Definition train_data : result str :=
  k ← int_mul_0_9 n; Ok (slice_to k data).

Definition val_data : result str :=
  k ← int_mul_0_9 n; Ok (slice_from k data).

(** *** The sample encoding test of the summary *)

Record sample_test : Type := {
  test_text : str;
  test_encoded : list Z;
  test_decoded : str;
  test_match : bool
}.

Definition sample_encoding_test : result sample_test :=
  let text := strip (slice_to 100 data) in
  encoded ← encode text;
  decoded ← decode encoded;
  Ok {| test_text := text; test_encoded := encoded; test_decoded := decoded;
        test_match := bool_decide (text = decoded) |}.

(** *** The whole script: the two [.bin] files, the metadata and the test *)

(** The percentages printed after the split, [len(train_data)/n*100] and
    [len(val_data)/n*100]: only the [ZeroDivisionError] of the division on an
    empty corpus is kept of them. *)
Definition split_percentages : result unit :=
  if n =? 0 then Raise ZeroDivisionError else Ok ().

Record prepared : Type := {
  train_bin : list Z;
  val_bin : list Z;
  meta_vocab_size : Z;
  meta_itos : gmap Z N;
  meta_stoi : gmap N Z;
  meta_total_chars : Z;
  meta_train_chars : Z;
  meta_val_chars : Z;
  summary_test : sample_test
}.

Definition prepare : result prepared :=
  train ← train_data;
  val ← val_data;
  _ ← split_percentages;
  train_ids ← encode train;
  val_ids ← encode val;
  let train_arr := np_array_uint16 train_ids in
  let val_arr := np_array_uint16 val_ids in
  t ← sample_encoding_test;
  Ok {| train_bin := tofile train_arr;
        val_bin := tofile val_arr;
        meta_vocab_size := vocab_size;
        meta_itos := itos;
        meta_stoi := stoi;
        meta_total_chars := len data;
        meta_train_chars := len train;
        meta_val_chars := len val;
        summary_test := t |}.

End Codec.

End Prepare.

(** ** combine_extracted_texts.py: the consolidation *)

Module Combine.

(** *** The file system the script sees *)

(** A file as the script observes it: [stat().st_size], and what
    [open(path, 'r', encoding='utf-8').read()] gives, the text or the
    exception raised on the way (unreadable file, invalid UTF-8). *)
Record file : Type := {
  st_size : Z;
  read : result str
}.

(** An entry of [base_path.iterdir()]: its name, whether it is a directory,
    and the file [complete_extracted_text.txt] inside it when that exists. *)
Record dirent : Type := {
  name : str;
  is_dir : bool;
  text_file : option file
}.

(** A [Path] that exists: its text and the file found there. *)
Record path : Type := {
  path_str : str;
  target : file
}.

(** *** find_extracted_text_files *)

(** [item / "complete_extracted_text.txt"] for an item of [base_dir], as a
    string; [base_dir] is written without a trailing slash. *)
Definition text_file_path (base_dir : str) (item : dirent) : str :=
  base_dir ++ lit "/" ++ name item ++ lit "/complete_extracted_text.txt".

(** The body of the loop over [iterdir()]: the pair appended for [item],
    if any. *)
Definition scan_item (base_dir : str) (item : dirent) : option (str * path) :=
  if is_dir item then
    match text_file item with
    | Some f =>
        Some (name item,
              {| path_str := text_file_path base_dir item; target := f |})
    | None => None
    end
  else None.

(** The loop, in the order the file system enumerates. *)
Definition scan (base_dir : str) (iterdir : list dirent) : list (str * path) :=
  foldl (fun text_files item =>
           match scan_item base_dir item with
           | Some doc => text_files ++ [doc]
           | None => text_files
           end)
        [] iterdir.

(** [text_files.sort(key=lambda x: x[0])] after the scan. *)
Definition find_extracted_text_files (base_dir : str) (iterdir : list dirent)
  : list (str * path) :=
  sort_by fst str_leb (scan base_dir iterdir).

(** *** combine_text_files *)

(** What is written to the consolidated file, one value per group of
    [outfile.write] calls; [render] gives the text. *)
Inductive chunk : Type :=
  | Header (generated : str) (total_documents : Z)
  | Separator (i : Z) (dir_name : str) (file_path : str) (characters : Z)
  | Content (content : str)
  | Blank
  | ErrorMsg (dir_name : str) (e : exn)
  | Footer (processed : Z) (total_chars : Z) (generated : str).

Definition placeholder : str := lit "[No text content found]".

Definition render (c : chunk) : str :=
  match c with
  | Header now total =>
      nl ++ rule "=" 80 ++ nl
      ++ lit "CONSOLIDATED EXTRACTED TEXT" ++ nl
      ++ rule "=" 80 ++ nl
      ++ lit "Generated: " ++ now ++ nl
      ++ lit "Source: Google Cloud Vision OCR" ++ nl
      ++ lit "Total documents: " ++ format_int total ++ nl
      ++ rule "=" 80 ++ nl ++ nl
  | Separator i dir_name file_path characters =>
      nl ++ rule "=" 80 ++ nl
      ++ lit "DOCUMENT " ++ format_int i ++ lit ": " ++ dir_name ++ nl
      ++ rule "=" 80 ++ nl
      ++ lit "Source File: " ++ file_path ++ nl
      ++ lit "Characters: " ++ format_commas characters ++ nl
      ++ rule "=" 80 ++ nl ++ nl
  | Content content => content
  | Blank => nl ++ nl
  | ErrorMsg dir_name e =>
      [10060%N] ++ lit " Error processing " ++ dir_name ++ lit ": "
      ++ str_of_exn e ++ nl ++ nl
  | Footer processed total_chars now =>
      nl ++ rule "=" 80 ++ nl
      ++ lit "CONSOLIDATION COMPLETE" ++ nl
      ++ rule "=" 80 ++ nl
      ++ lit "Total documents processed: " ++ format_int processed ++ nl
      ++ lit "Total characters: " ++ format_commas total_chars ++ nl
      ++ lit "Generated: " ++ now ++ nl
      ++ rule "=" 80 ++ nl
  end.

(** The body of the loop for document [i]: the chunks written and the
    characters added to [total_chars]. A failing read leaves the [try] block
    before anything is written and the handler writes the error line. *)
Definition combine_one (i : Z) (dir_name : str) (file_path : path)
  : list chunk * Z :=
  match read (target file_path) with
  | Ok raw =>
      let content := strip raw in
      let content := match content with [] => placeholder | _ => content end in
      ([Separator i dir_name (path_str file_path) (len content);
        Content content; Blank],
       len content)
  | Raise e => ([ErrorMsg dir_name e], 0)
  end.

Definition combine_loop (text_files : list (str * path)) : list chunk * Z :=
  foldl (fun acc idoc =>
           let '(i, (dir_name, file_path)) := idoc in
           let '(chunks, n) := combine_one i dir_name file_path in
           (acc.1 ++ chunks, acc.2 + n))
        ([], 0) (enumerate 1 text_files).

(** The function returns a bare [False] on an empty list and the pair
    [(True, total_chars)] otherwise. *)
Inductive combine_ret : Type :=
  | RetFalse
  | RetTuple (success : bool) (total_chars : Z).

Record combined : Type := {
  outfile : option (list chunk);
  ret : combine_ret
}.

(** [t0] and [t1] are the two readings of the clock, for the header and the
    footer. *)
Definition combine_text_files (text_files : list (str * path)) (t0 t1 : str)
  : combined :=
  match text_files with
  | [] => {| outfile := None; ret := RetFalse |}
  | _ :: _ =>
      let '(chunks, total_chars) := combine_loop text_files in
      {| outfile :=
           Some ([Header t0 (len text_files)] ++ chunks
                 ++ [Footer (len text_files) total_chars t1]);
         ret := RetTuple true total_chars |}
  end.

(** The text of the consolidated file. *)
Definition file_text (chunks : list chunk) : str := mjoin (render <$> chunks).

(** *** generate_summary_report *)

Inductive summary_line : Type :=
  | SumTitle
  | SumGenerated (now : str)
  | SumOutputFile (output_file : str)
  | SumTotalDocuments (total : Z)
  | SumTotalCharacters (total_chars : Z)
  | SumProcessed
  | SumDocument (i : Z) (dir_name : str) (file_path : str)
                (file_size : Z) (char_count : Z)
  | SumDocumentError (i : Z) (dir_name : str) (e : exn).

Definition render_summary (l : summary_line) : str :=
  match l with
  | SumTitle => lit "CONSOLIDATION SUMMARY REPORT" ++ nl ++ rule "=" 50 ++ nl ++ nl
  | SumGenerated now => lit "Generated: " ++ now ++ nl
  | SumOutputFile f => lit "Output file: " ++ f ++ nl
  | SumTotalDocuments total => lit "Total documents: " ++ format_int total ++ nl
  | SumTotalCharacters c => lit "Total characters: " ++ format_commas c ++ nl ++ nl
  | SumProcessed => lit "PROCESSED DOCUMENTS:" ++ nl ++ rule "-" 30 ++ nl
  | SumDocument i dir_name file_path file_size char_count =>
      pad_left 2 32%N (format_int i) ++ lit ". " ++ dir_name ++ nl
      ++ lit "    File: " ++ file_path ++ nl
      ++ lit "    Size: " ++ format_commas file_size ++ lit " bytes" ++ nl
      ++ lit "    Characters: " ++ format_commas char_count ++ nl ++ nl
  | SumDocumentError i dir_name e =>
      pad_left 2 32%N (format_int i) ++ lit ". " ++ dir_name
      ++ lit " - ERROR: " ++ str_of_exn e ++ nl ++ nl
  end.

Definition summary_one (i : Z) (dir_name : str) (file_path : path)
  : summary_line :=
  let file_size := st_size (target file_path) in
  match read (target file_path) with
  | Ok raw => SumDocument i dir_name (path_str file_path) file_size (len raw)
  | Raise e => SumDocumentError i dir_name e
  end.

Definition generate_summary_report (text_files : list (str * path))
    (output_file : str) (total_chars : Z) (now : str) : list summary_line :=
  [SumTitle; SumGenerated now; SumOutputFile output_file;
   SumTotalDocuments (len text_files); SumTotalCharacters total_chars;
   SumProcessed]
  ++ ((fun idoc : Z * (str * path) =>
         summary_one idoc.1 idoc.2.1 idoc.2.2) <$> enumerate 1 text_files).

(** The text of the summary report. *)
Definition summary_text (lines : list summary_line) : str :=
  mjoin (render_summary <$> lines).

(** The documents for which every [write] and [print] of the two loops goes
    through: the name, the path and the text read hold no surrogate, and an
    exception of the read is given by its message, without surrogates
    either. A name with a surrogate (a directory name that is not UTF-8)
    makes the write of the separator raise inside the [try] and the write of
    the handler raise again, which is not modelled. *)
Definition writable_doc (doc : str * path) : bool :=
  utf8_encodable doc.1 && utf8_encodable (path_str doc.2)
  && match read (target doc.2) with
     | Ok raw => utf8_encodable raw
     | Raise (Error msg) => utf8_encodable msg
     | Raise _ => false
     end.

(** *** main *)

(** [response = input(...).strip().lower()] compared with ['y']. *)
Definition is_yes (answer : str) : bool :=
  match strip answer with
  | [c] => ((c =? 121) || (c =? 89))%N
  | _ => false
  end.

Record artifacts : Type := {
  consolidated : option (list chunk);
  summary : option (list summary_line)
}.

Definition base_dir : str := lit "ocr_google_vision_pdf".
Definition output_file : str :=
  lit "ocr_google_vision_pdf/consolidated_extracted_text.txt".

(** [auto] is the [--auto] flag; [answer] is what [input] returns, [None]
    when it raises [EOFError] or [KeyboardInterrupt]; [t0], [t1], [t2] are
    the successive readings of the clock. *)
Definition main (iterdir : list dirent) (auto : bool) (answer : option str)
    (t0 t1 t2 : str) : artifacts :=
  let nothing := {| consolidated := None; summary := None |} in
  let text_files := find_extracted_text_files base_dir iterdir in
  match text_files with
  | [] => nothing
  | _ :: _ =>
      let go :=
        if auto then true
        else match answer with
             | Some a => is_yes a
             | None => false
             end in
      if go then
        let r := combine_text_files text_files t0 t1 in
        match ret r with
        | RetTuple true total_chars =>
            {| consolidated := outfile r;
               summary := Some (generate_summary_report text_files output_file
                                  total_chars t2) |}
        | _ => {| consolidated := outfile r; summary := None |}
        end
      else nothing
  end.

(** *** What the two artifacts say about the documents *)

(** The chunks written and the characters counted for one element of
    [enumerate(text_files, 1)]. *)
Definition doc_chunks (idoc : Z * (str * path)) : list chunk :=
  (combine_one idoc.1 idoc.2.1 idoc.2.2).1.

Definition doc_chars (idoc : Z * (str * path)) : Z :=
  (combine_one idoc.1 idoc.2.1 idoc.2.2).2.

(** The name recorded in a header block. *)
Definition block_name (h : Z * str * Z) : str := h.1.2.

(** The entries the scan keeps: directories that hold the text file. *)
Definition discovered (item : dirent) : bool :=
  is_dir item && bool_decide (is_Some (text_file item)).

(** The documents whose text file can be read. *)
Definition readable (doc : str * path) : bool :=
  match read (target doc.2) with
  | Ok _ => true
  | Raise _ => false
  end.

(** The document header blocks of the consolidated file, in order: index,
    directory name and character count. *)
Definition header_blocks (chunks : list chunk) : list (Z * str * Z) :=
  chunks ≫= (fun c =>
    match c with
    | Separator i dir_name _ characters => [(i, dir_name, characters)]
    | _ => []
    end).

(** The directory names of all per-document blocks, header or error line. *)
Definition document_blocks (chunks : list chunk) : list str :=
  chunks ≫= (fun c =>
    match c with
    | Separator _ dir_name _ _ => [dir_name]
    | ErrorMsg dir_name _ => [dir_name]
    | _ => []
    end).

(** The per-document character counts of the summary report. *)
Definition summary_counts (lines : list summary_line) : list (Z * str * Z) :=
  lines ≫= (fun l =>
    match l with
    | SumDocument i dir_name _ _ char_count => [(i, dir_name, char_count)]
    | _ => []
    end).

(** *** A sample directory tree *)

Definition sample_file (content : str) : file :=
  {| st_size := len content; read := Ok content |}.

(** A file that is not valid UTF-8: reading it raises. *)
Definition undecodable_file : file :=
  {| st_size := 2;
     read := Raise (Error (lit "'utf-8' codec can't decode byte 0xff")) |}.

Definition sample_dir (dir_name : string) (f : option file) : dirent :=
  {| name := lit dir_name; is_dir := true; text_file := f |}.

Definition sample_iterdir : list dirent :=
  [ sample_dir "b_doc" (Some (sample_file (lit "  beta text" ++ nl)));
    sample_dir "a_doc" (Some (sample_file []));
    {| name := lit "notes.txt"; is_dir := false; text_file := None |};
    sample_dir "c_doc" (Some (sample_file (lit "gamma")));
    sample_dir "no_text" None ].

Definition sample_time : str := lit "2025-01-01 12:00:00".

Definition sample_text_files : list (str * path) :=
  find_extracted_text_files base_dir sample_iterdir.

(** The path of the empty text file of [a_doc]. *)
Definition sample_empty_path : path :=
  {| path_str := lit "ocr_google_vision_pdf/a_doc/complete_extracted_text.txt";
     target := sample_file [] |}.

End Combine.

(** ** ocr_google_vision.py: the page loop of the OCR extraction *)

Module Ocr.

Definition bytes : Type := list Z.

(** *** The Vision API, as the script observes it *)

(** The response of [text_detection]: [response.error.message] and the
    [description] of each of [response.text_annotations]. *)
Record text_response : Type := {
  error_message : str;
  text_annotations : list str
}.

(** A word of a document annotation is the list of its symbols' texts; a
    block is its paragraphs, a paragraph its words. The confidence scores
    only feed the statistics printed next to the text and are left out. *)
Definition word : Type := list str.
Definition paragraph : Type := list word.
Definition block : Type := list paragraph.
Definition page_annotation : Type := list block.

Record document : Type := {
  doc_text : str;
  doc_pages : list page_annotation
}.

(** The response of [document_text_detection]; the annotation is [None]
    when [response.full_text_annotation] is empty, hence false. *)
Record document_response : Type := {
  doc_error_message : str;
  full_text_annotation : option document
}.

(** The client: each call returns a response or raises. *)
Record client : Type := {
  text_detection : bytes -> result text_response;
  document_text_detection : bytes -> result document_response
}.

(** A page image: what [save] writes for each format, or the exception it
    raises. *)
Record image : Type := {
  save_jpeg : Z -> result bytes;
  save_png : result bytes
}.

(** *** image_to_bytes *)

(** [format.upper()], on the ASCII letters. *)
Definition upper (s : str) : str :=
  (fun c => if ((97 <=? c) && (c <=? 122))%N then (c - 32)%N else c) <$> s.

Definition image_to_bytes (pil_image : image) (format : str) (quality : Z)
  : result bytes :=
  if bool_decide (upper format = lit "JPEG") then save_jpeg pil_image quality
  else save_png pil_image.

(** *** extract_text_from_image *)

Definition extract_text_from_image (self_client : option client)
    (image_bytes : bytes) : str :=
  match self_client with
  | None => lit "ERROR: Vision API client not initialized"
  | Some c =>
      match text_detection c image_bytes with
      | Raise e => lit "Error processing image: " ++ str_of_exn e
      | Ok response =>
          match error_message response with
          | _ :: _ => lit "API Error: " ++ error_message response
          | [] =>
              match text_annotations response with
              | full_text :: _ =>
                  match full_text with
                  | _ :: _ => full_text
                  | [] => lit "No text detected"
                  end
              | [] => lit "No text found in image"
              end
          end
      end
  end.

(** *** get_detailed_text_info *)

Record text_info : Type := {
  info_text : str;
  info_word_count : Z
}.

(** The word counter of the nested loops over pages, blocks, paragraphs and
    words. *)
Definition count_document_words (d : document) : Z :=
  foldl (fun n pg =>
    foldl (fun n bl =>
      foldl (fun n par =>
        foldl (fun n (w : word) => n + 1) n par) n bl) n pg) 0 (doc_pages d).

Definition get_detailed_text_info (self_client : option client)
    (image_bytes : bytes) : option text_info :=
  match self_client with
  | None => None
  | Some c =>
      match document_text_detection c image_bytes with
      | Raise e => None
      | Ok response =>
          match doc_error_message response with
          | _ :: _ => None
          | [] =>
              match full_text_annotation response with
              | None => None
              | Some d =>
                  Some {| info_text := doc_text d;
                          info_word_count := count_document_words d |}
              end
          end
      end
  end.

(** *** process_pdf *)

(** [text or "No text detected"] *)
Definition or_no_text (text : str) : str :=
  match text with
  | [] => lit "No text detected"
  | _ :: _ => text
  end.

(** The text and the word count of one page, once its image bytes are
    there. *)
Definition page_result (self_client : option client) (detailed : bool)
    (image_bytes : bytes) : str * Z :=
  if detailed then
    match get_detailed_text_info self_client image_bytes with
    | Some info => (info_text info, info_word_count info)
    | None => (lit "Error processing page", 0)
    end
  else
    let text := extract_text_from_image self_client image_bytes in
    (text, match text with [] => 0 | _ :: _ => count_words false text end).

(** The text written to the file of a page with these image bytes. *)
Definition recorded (self_client : option client) (detailed : bool)
    (image_bytes : bytes) : str :=
  or_no_text (page_result self_client detailed image_bytes).1.

Definition page_header (i : Z) : str :=
  rule "=" 60 ++ nl ++ lit "PAGE " ++ format_int i ++ nl ++ rule "=" 60 ++ nl.

Definition page_file (output_dir : str) (i : Z) : str :=
  os_path_join output_dir
    (lit "page_" ++ pad_left 3 48%N (format_int i) ++ lit ".txt").

(** The variables of the loop, and the text files written so far (name and
    content). *)
Record loop_state : Type := {
  all_text : list str;
  total_words : Z;
  api_calls : Z;
  files : list (str * str)
}.

(** One iteration, for page [i]. An exception of [image_to_bytes] is not
    caught inside [process_pdf]. *)
Definition process_page (self_client : option client) (output_dir : str)
    (detailed : bool) (st : loop_state) (i : Z) (page : image)
  : result loop_state :=
  image_bytes ← image_to_bytes page (lit "JPEG") 85;
  let '(text, word_count) := page_result self_client detailed image_bytes in
  let page_text := page_header i ++ or_no_text text ++ nl ++ nl in
  Ok {| all_text := all_text st ++ [page_text];
        total_words := total_words st + word_count;
        api_calls := api_calls st + 1;
        files := files st ++ [(page_file output_dir i, or_no_text text)] |}.

(** The loop; when an iteration raises, the files written before it stay. *)
Fixpoint process_pages (self_client : option client) (output_dir : str)
    (detailed : bool) (st : loop_state) (pages : list (Z * image))
  : loop_state * option exn :=
  match pages with
  | [] => (st, None)
  | (i, page) :: rest =>
      match process_page self_client output_dir detailed st i page with
      | Raise e => (st, Some e)
      | Ok st' => process_pages self_client output_dir detailed st' rest
      end
  end.

(** The statistics of [extraction_summary.txt]. *)
Record extraction_summary : Type := {
  pages_processed : Z;
  total_characters : Z;
  total_words_found : Z;
  api_calls_made : Z
}.

Record outcome : Type := {
  returned : result bool;
  written : list (str * str);
  summary : option extraction_summary
}.

(** [convert_pdf_to_images]: the pages, or the empty list when the
    conversion raises. *)
Definition convert_pdf_to_images (converted : result (list image))
  : list image :=
  match converted with
  | Ok pages => pages
  | Raise _ => []
  end.

(** [os.makedirs(output_dir, exist_ok=True)]: the empty path raises
    [FileNotFoundError]; any other directory is taken to be there or
    created. *)
Definition makedirs (output_dir : str) : result unit :=
  match output_dir with
  | [] => Raise (Error (lit "[Errno 2] No such file or directory: ''"))
  | _ :: _ => Ok ()
  end.


(** [converted] is what [convert_from_path(pdf_path, dpi=dpi, fmt='PNG')]
    gives for the PDF; the path itself is only printed and written in the
    summary. The call of [os.makedirs] is outside any [try]. The texts
    written are taken to be encodable ([utf8_encodable]): a text with a
    surrogate would make the [write] of its file raise. *)
Definition process_pdf (self_client : option client)
    (converted : result (list image)) (output_dir : str) (detailed : bool)
  : outcome :=
  match self_client with
  | None => {| returned := Ok false; written := []; summary := None |}
  | Some _ =>
      match makedirs output_dir with
      | Raise e => {| returned := Raise e; written := []; summary := None |}
      | Ok _ =>
      match convert_pdf_to_images converted with
      | [] => {| returned := Ok false; written := []; summary := None |}
      | pages =>
          let st0 := {| all_text := []; total_words := 0; api_calls := 0;
                        files := [] |} in
          match process_pages self_client output_dir detailed st0
                  (enumerate 1 pages) with
          | (st, Some e) =>
              {| returned := Raise e; written := files st; summary := None |}
          | (st, None) =>
              let combined_text := join [] (all_text st) in
              {| returned := Ok true;
                 written :=
                   files st ++
                   [(os_path_join output_dir
                       (lit "complete_extracted_text.txt"),
                     combined_text)];
                 summary :=
                   Some {| pages_processed := len pages;
                           total_characters := len combined_text;
                           total_words_found := total_words st;
                           api_calls_made := api_calls st |} |}
          end
      end
      end
  end.

(** *** Sample pages and clients *)

Definition sample_image : image :=
  {| save_jpeg := fun _ => Ok [255; 216; 255]; save_png := Ok [137; 80; 78] |}.

(** An image that cannot be written as JPEG. *)
Definition broken_image : image :=
  {| save_jpeg := fun _ => Raise (Error (lit "cannot write mode P as JPEG"));
     save_png := Ok [137; 80; 78] |}.


(** A page whose JPEG bytes are the single byte [b]. *)
Definition sample_page (b : Z) : image :=
  {| save_jpeg := fun _ => Ok [b]; save_png := Ok [b] |}.

(** A client that raises on the page of byte 0, reports an API error on the
    page of byte 1, and reads every other page. *)
Definition flaky_client : client :=
  {| text_detection := fun image_bytes =>
       match image_bytes with
       | [0] => Raise (Error (lit "deadline exceeded"))
       | [1] => Ok {| error_message := lit "bad image data";
                      text_annotations := [] |}
       | _ => Ok {| error_message := [];
                    text_annotations := [lit "some text"] |}
       end;
     document_text_detection := fun image_bytes =>
       match image_bytes with
       | [0] => Raise (Error (lit "deadline exceeded"))
       | [1] => Ok {| doc_error_message := lit "bad image data";
                      full_text_annotation := None |}
       | _ => Ok {| doc_error_message := [];
                    full_text_annotation :=
                      Some {| doc_text := lit "some text"; doc_pages := [] |} |}
       end |}.

(** A client that answers every call with some text. *)
Definition working_client : client :=
  {| text_detection := fun _ =>
       Ok {| error_message := []; text_annotations := [lit "two words"] |};
     document_text_detection := fun _ =>
       Ok {| doc_error_message := [];
             full_text_annotation :=
               Some {| doc_text := lit "two words";
                       doc_pages := [[[[[lit "t"; lit "w"; lit "o"];
                                        [lit "w"; lit "o"; lit "r"; lit "d"; lit "s"]]]]]
                    |} |} |}.

End Ocr.

(** ** ocr_google_vision.py: the client set-up, the batch mode and the
       command line *)

Module OcrCli.

(** *** setup_client and test_connection *)

(** [GoogleVisionOCR.__init__] calls [setup_client]: [new_client] is what
    [vision.ImageAnnotatorClient()] gives, and an exception leaves
    [self.client] at [None]. *)
Definition setup_client (new_client : result Ocr.client) : option Ocr.client :=
  match new_client with
  | Ok c => Some c
  | Raise _ => None
  end.

(** [test_connection]: [test_call] is the outcome of
    [self.client.text_detection] on the test image, a white PNG of 100 by 50
    pixels built in place. *)
Definition test_connection (self_client : option Ocr.client)
    (test_call : result Ocr.text_response) : bool :=
  match self_client with
  | None => false
  | Some _ =>
      match test_call with
      | Raise _ => false
      | Ok response =>
          match Ocr.error_message response with
          | _ :: _ => false
          | [] => true
          end
      end
  end.

(** *** process_multiple_pdfs *)

(** A PDF file of the directory: [str(pdf_file)], [pdf_file.name],
    [pdf_file.stem], and what [convert_from_path] gives for it at a
    resolution. *)
Record pdf_file : Type := {
  pdf_path : str;
  pdf_name : str;
  pdf_stem : str;
  rasterize : Z -> result (list Ocr.image)
}.

(** [process_pdf(pdf_path, output_dir, detailed, dpi)], with the default
    resolution written out by the callers below. *)
Definition process_pdf_at (self_client : option Ocr.client)
    (rasterize : Z -> result (list Ocr.image)) (output_dir : str)
    (detailed : bool) (dpi : Z) : Ocr.outcome :=
  Ocr.process_pdf self_client (rasterize dpi) output_dir detailed.

(** [pdf_file.stem.replace(" ", "_")] *)
Definition safe_name (stem : str) : str :=
  (fun c => if (c =? 32)%N then 95%N else c) <$> stem.

(** What the loop prints for a document. *)
Inductive status : Type :=
  | SUCCESS
  | FAILED
  | ERROR (e : exn).

Definition status_of (o : Ocr.outcome) : status :=
  match Ocr.returned o with
  | Ok true => SUCCESS
  | Ok false => FAILED
  | Raise e => ERROR e
  end.

(** A document of the batch, once processed: its name, its output
    directory, its status and the files written for it. *)
Record processed : Type := {
  doc_name : str;
  doc_output_dir : str;
  doc_status : status;
  doc_files : list (str * str)
}.

(** The body of the loop: the call of [process_pdf] has no [dpi] argument,
    hence the default of 300, and sits in a [try] whose handler prints the
    exception. *)
Definition process_one (ocr_client : option Ocr.client)
    (output_base_dir : str) (detailed : bool) (pdf : pdf_file) : processed :=
  let output_dir := os_path_join output_base_dir (safe_name (pdf_stem pdf)) in
  let o := process_pdf_at ocr_client (rasterize pdf) output_dir detailed 300 in
  {| doc_name := pdf_name pdf; doc_output_dir := output_dir;
     doc_status := status_of o; doc_files := Ocr.written o |}.

(** The variables of the loop; [total_api_calls] is set to 0 before the loop
    and the loop does not assign it. *)
Record batch_state : Type := {
  docs : list processed;
  total_api_calls : Z
}.

Inductive batch : Type :=
  | NoPdfFiles
  | NoConnection
  | Processed (st : batch_state).

(** [pdf_files] is [list(Path(pdf_directory).glob("*.pdf"))]. *)
Definition process_multiple_pdfs (pdf_files : list pdf_file)
    (new_client : result Ocr.client) (test_call : result Ocr.text_response)
    (output_base_dir : str) (detailed : bool) : batch :=
  match pdf_files with
  | [] => NoPdfFiles
  | _ :: _ =>
      let ocr_client := setup_client new_client in
      if negb (test_connection ocr_client test_call) then NoConnection
      else
        Processed
          (foldl (fun st ipdf =>
                    {| docs := docs st
                               ++ [process_one ocr_client output_base_dir
                                     detailed ipdf.2];
                       total_api_calls := total_api_calls st |})
                 {| docs := []; total_api_calls := 0 |}
                 (enumerate 1 pdf_files))
  end.

(** *** main *)

(** The parsed arguments. *)
Record arguments : Type := {
  arg_pdf_path : option str;
  arg_output : str;
  arg_detailed : bool;
  arg_dpi : Z;
  arg_batch : bool;
  arg_test : bool
}.

(** What the run observes outside the script: the construction of the
    client, the call on the test image, and, for [args.pdf_path],
    [os.path.exists], [convert_from_path] and the [*.pdf] files in it. *)
Record world : Type := {
  new_client : result Ocr.client;
  test_call : result Ocr.text_response;
  path_exists : bool;
  path_rasterize : Z -> result (list Ocr.image);
  path_glob_pdf : list pdf_file
}.

Inductive run : Type :=
  | TestOnly (ready : bool)
  | BatchRun (b : batch)
  | SingleRun (o : Ocr.outcome)
  | CannotProceed
  | FileNotFound
  | Usage.

Definition main (args : arguments) (w : world) : run :=
  if arg_test args then
    TestOnly (test_connection (setup_client (new_client w)) (test_call w))
  else
    match arg_pdf_path args with
    | Some (_ :: _) =>
        if arg_batch args then
          BatchRun (process_multiple_pdfs (path_glob_pdf w) (new_client w)
                      (test_call w) (arg_output args) (arg_detailed args))
        else if path_exists w then
          let ocr_client := setup_client (new_client w) in
          if test_connection ocr_client (test_call w) then
            SingleRun (process_pdf_at ocr_client (path_rasterize w)
                         (arg_output args) (arg_detailed args) (arg_dpi args))
          else CannotProceed
        else FileNotFound
    | _ => Usage
    end.

(** The text files a run writes, in order. *)
Definition files_written (r : run) : list (str * str) :=
  match r with
  | BatchRun (Processed st) => docs st ≫= doc_files
  | SingleRun o => Ocr.written o
  | _ => []
  end.

(** *** Sample documents *)

(** A PDF of the given stem whose pages have the given bytes, one byte per
    page, at every resolution. *)
Definition sample_pdf (stem : string) (pages : list Z) : pdf_file :=
  {| pdf_path := lit "pdfs/" ++ lit stem ++ lit ".pdf";
     pdf_name := lit stem ++ lit ".pdf";
     pdf_stem := lit stem;
     rasterize := fun _ => Ok (Ocr.sample_page <$> pages) |}.

(** A file named [.pdf] that is not a PDF: the conversion raises. *)
Definition broken_pdf (stem : string) : pdf_file :=
  {| pdf_path := lit "pdfs/" ++ lit stem ++ lit ".pdf";
     pdf_name := lit stem ++ lit ".pdf";
     pdf_stem := lit stem;
     rasterize := fun _ => Raise (Error (lit "Unable to get page count")) |}.

(** A PDF whose second page cannot be encoded as JPEG. *)
Definition unencodable_pdf (stem : string) : pdf_file :=
  {| pdf_path := lit "pdfs/" ++ lit stem ++ lit ".pdf";
     pdf_name := lit stem ++ lit ".pdf";
     pdf_stem := lit stem;
     rasterize := fun _ => Ok [Ocr.sample_image; Ocr.broken_image] |}.

Definition sample_pdfs : list pdf_file :=
  [ sample_pdf "annual report" [2; 0];
    broken_pdf "notes";
    unencodable_pdf "scan";
    sample_pdf "last" [1; 2] ].

Definition sample_world : world :=
  {| new_client := Ok Ocr.flaky_client;
     test_call := Ok {| Ocr.error_message := []; Ocr.text_annotations := [] |};
     path_exists := true;
     path_rasterize := fun _ => Ok (Ocr.sample_page <$> [0; 2]);
     path_glob_pdf := sample_pdfs |}.

Definition sample_arguments : arguments :=
  {| arg_pdf_path := Some (lit "pdfs"); arg_output := lit "out";
     arg_detailed := false; arg_dpi := 150; arg_batch := true;
     arg_test := false |}.

End OcrCli.

(** ** Further sample inputs *)

Module Samples.

(** A directory tree with an empty text file, a text file with whitespace
    around its text, and one that cannot be decoded. *)
Definition mixed_iterdir : list Combine.dirent :=
  [ Combine.sample_dir "b_doc"
      (Some (Combine.sample_file (lit "  beta text" ++ nl)));
    Combine.sample_dir "bad" (Some Combine.undecodable_file);
    Combine.sample_dir "a_doc" (Some (Combine.sample_file [])) ].

Definition mixed_text_files : list (str * Combine.path) :=
  Combine.find_extracted_text_files Combine.base_dir mixed_iterdir.

Definition b_doc_path : Combine.path :=
  {| Combine.path_str :=
       lit "ocr_google_vision_pdf/b_doc/complete_extracted_text.txt";
     Combine.target := Combine.sample_file (lit "  beta text" ++ nl) |}.

Definition bad_path : Combine.path :=
  {| Combine.path_str :=
       lit "ocr_google_vision_pdf/bad/complete_extracted_text.txt";
     Combine.target := Combine.undecodable_file |}.

End Samples.

(** * Properties *)

(** ** Formatting *)

Example format_examples :
  format_commas 1234567 = lit "1,234,567" /\
  format_commas 1000 = lit "1,000" /\
  format_commas 999 = lit "999" /\
  format_commas 0 = lit "0" /\
  pad_left 3 48%N (format_int 7) = lit "007" /\
  pad_left 2 32%N (format_int 12) = lit "12" /\
  os_path_join (lit "out") (lit "page_001.txt") = lit "out/page_001.txt" /\
  os_path_join (lit "out/") (lit "page_001.txt") = lit "out/page_001.txt" /\
  strip (lit "  two words " ++ nl) = lit "two words" /\
  count_words false (lit "  two words " ++ nl) = 2.
Proof. by vm_compute. Qed.

(** ** Lists, sorting and dictionaries *)

Section SortFacts.
Context {A K : Type} (key : A -> K) (leb : K -> K -> bool).
Hypothesis leb_total : forall a b, leb a b = true \/ leb b a = true.
Hypothesis leb_trans : forall a b c, leb a b = true -> leb b c = true -> leb a c = true.

Lemma insert_by_perm x l : insert_by key leb x l ≡ₚ x :: l.
Proof.
  induction l as [|y l IH]; simpl; [done|].
  destruct (leb (key x) (key y)); [done|].
  rewrite IH. apply Permutation_swap.
Qed.

Lemma sort_by_perm l : sort_by key leb l ≡ₚ l.
Proof.
  induction l as [|x l IH]; simpl; [done|].
  rewrite insert_by_perm. by rewrite IH.
Qed.

Lemma insert_by_sorted x l :
  StronglySorted (key_le key leb) l -> StronglySorted (key_le key leb) (insert_by key leb x l).
Proof.
  induction l as [|y l IH]; simpl; intros Hs.
  - repeat constructor.
  - apply StronglySorted_cons in Hs as [Hy Hl].
    destruct (leb (key x) (key y)) eqn:E.
    + apply StronglySorted_cons. split; [|by apply StronglySorted_cons].
      constructor; [exact E|].
      eapply Forall_impl; [exact Hy|].
      intros z Hz. unfold key_le in *. eauto.
    + apply StronglySorted_cons. split; [|auto].
      rewrite insert_by_perm. constructor; [|done].
      destruct (leb_total (key x) (key y)); [congruence|done].
Qed.

Lemma sort_by_sorted l : StronglySorted (key_le key leb) (sort_by key leb l).
Proof.
  induction l as [|x l IH]; simpl; [constructor|].
  by apply insert_by_sorted.
Qed.

Hypothesis leb_antisym : forall a b, leb a b = true -> leb b a = true -> a = b.

Lemma sorted_strict l :
  StronglySorted (key_le key leb) l -> NoDup (key <$> l) ->
  StronglySorted (key_lt key leb) l.
Proof.
  induction l as [|x l IH]; intros Hs Hn; [constructor|].
  apply StronglySorted_cons in Hs as [Hx Hl].
  rewrite fmap_cons in Hn. apply NoDup_cons in Hn as [Hnx Hn].
  apply StronglySorted_cons. split; [|auto].
  apply Forall_forall. intros y Hy. split.
  - by eapply Forall_forall in Hx.
  - intros E. apply Hnx. rewrite E. apply list_elem_of_fmap. eauto.
Qed.

Lemma key_lt_asym x y : key_lt key leb x y -> key_lt key leb y x -> False.
Proof. intros [H1 Hne] [H2 _]. apply Hne. by apply leb_antisym. Qed.

(** Two strictly sorted arrangements of the same elements are equal. *)
Lemma strict_sorted_unique l1 l2 :
  StronglySorted (key_lt key leb) l1 -> StronglySorted (key_lt key leb) l2 ->
  l1 ≡ₚ l2 -> l1 = l2.
Proof.
  intros H1 H2 HP.
  eapply (StronglySorted_unique_strong (key_lt key leb)); try done.
  intros x y _ _ Hxy Hyx. exfalso. eauto using key_lt_asym.
Qed.

End SortFacts.

Lemma N_leb_total (a b : N) : N.leb a b = true \/ N.leb b a = true.
Proof. rewrite !N.leb_le. lia. Qed.

Lemma N_leb_trans (a b c : N) :
  N.leb a b = true -> N.leb b c = true -> N.leb a c = true.
Proof. rewrite !N.leb_le. lia. Qed.

Lemma N_leb_antisym (a b : N) : N.leb a b = true -> N.leb b a = true -> a = b.
Proof. rewrite !N.leb_le. lia. Qed.

Lemma str_leb_refl a : str_leb a a = true.
Proof. induction a as [|x a IH]; simpl; [done|]. by rewrite N.ltb_irrefl. Qed.

Lemma str_leb_total a b : str_leb a b = true \/ str_leb b a = true.
Proof.
  revert b. induction a as [|x a IH]; intros [|y b]; simpl; auto.
  destruct (N.ltb_spec x y), (N.ltb_spec y x); auto; lia.
Qed.

Lemma str_leb_trans a b c :
  str_leb a b = true -> str_leb b c = true -> str_leb a c = true.
Proof.
  revert b c. induction a as [|x a IH]; intros [|y b] [|z c]; simpl; auto;
    try discriminate.
  destruct (N.ltb_spec x y), (N.ltb_spec y x), (N.ltb_spec y z),
    (N.ltb_spec z y), (N.ltb_spec x z), (N.ltb_spec z x);
    try discriminate; try lia; eauto.
Qed.

Lemma str_leb_antisym a b : str_leb a b = true -> str_leb b a = true -> a = b.
Proof.
  revert b. induction a as [|x a IH]; intros [|y b]; simpl; auto;
    try discriminate.
  destruct (N.ltb_spec x y), (N.ltb_spec y x); try discriminate; try lia.
  intros H1 H2. f_equal; [lia | auto].
Qed.

(** A dict comprehension over pairs with distinct keys holds exactly the
    pairs. *)
Lemma dict_of_snoc `{Countable K} {V} (l : list (K * V)) kv :
  dict_of (l ++ [kv]) = <[kv.1 := kv.2]> (dict_of l).
Proof. unfold dict_of. by rewrite foldl_snoc. Qed.

Lemma dict_of_lookup `{Countable K} {V} (l : list (K * V)) k v :
  NoDup (l.*1) -> dict_of l !! k = Some v <-> (k, v) ∈ l.
Proof.
  induction l as [|[k' v'] l IH] using rev_ind; intros Hn.
  - unfold dict_of. simpl. rewrite lookup_empty. split; [done|].
    intros Hin. by apply elem_of_nil in Hin.
  - rewrite fmap_app in Hn. apply NoDup_app in Hn as (Hn & Hd & _).
    rewrite dict_of_snoc. simpl. rewrite elem_of_app, list_elem_of_singleton.
    destruct (decide (k' = k)) as [->|Hne].
    + rewrite lookup_insert_eq. split.
      * intros [= ->]. by right.
      * intros [Hin|[= ->]]; [|done].
        exfalso. eapply (Hd k); [|simpl; left].
        apply list_elem_of_fmap. by exists (k, v).
    + rewrite lookup_insert_ne by done. rewrite IH by done.
      split; [auto|]. intros [?|[= ? ?]]; [done|congruence].
Qed.

Lemma elem_of_enumerate {A} (start : Z) (l : list A) i x :
  (i, x) ∈ enumerate start l <->
  exists k : nat, i = start + Z.of_nat k /\ l !! k = Some x.
Proof.
  unfold enumerate. rewrite elem_of_lookup_imap. split.
  - intros (k & y & [= -> ->] & Hk). eauto.
  - intros (k & -> & Hk). eauto.
Qed.

Lemma enumerate_fst_NoDup {A} (start : Z) (l : list A) :
  NoDup ((enumerate start l).*1).
Proof.
  apply NoDup_alt. intros i j z. unfold enumerate.
  rewrite !list_lookup_fmap, !list_lookup_imap.
  destruct (l !! i) eqn:Ei; [|done]. destruct (l !! j) eqn:Ej; [|done].
  simpl. intros [= <-] [= E]. lia.
Qed.

Lemma enumerate_snd {A} (start : Z) (l : list A) : (enumerate start l).*2 = l.
Proof.
  apply list_eq. intros i. unfold enumerate.
  rewrite list_lookup_fmap, list_lookup_imap. by destruct (l !! i).
Qed.

Lemma len_nonneg {A} (l : list A) : 0 <= len l.
Proof. unfold len. lia. Qed.

Lemma len_app {A} (l k : list A) : len (l ++ k) = len l + len k.
Proof. unfold len. rewrite length_app. lia. Qed.

(** Slices at the same bound split the sequence. *)
Lemma slice_split {A} (k : Z) (s : list A) : slice_to k s ++ slice_from k s = s.
Proof. apply take_drop. Qed.

Lemma len_slice_to {A} (k : Z) (s : list A) :
  0 <= k <= len s -> len (slice_to k s) = k.
Proof.
  intros Hk. unfold slice_to, slice_index, len in *.
  destruct (Z.ltb_spec k 0); [lia|]. rewrite length_take. lia.
Qed.

(** Stripping keeps only characters of the string. *)
Lemma lstrip_suffix s : exists p, s = p ++ lstrip s.
Proof.
  induction s as [|c s [p IH]]; simpl; [by exists []|].
  destruct (isspace c); [|by exists []].
  exists (c :: p). simpl. by f_equal.
Qed.

Lemma elem_of_lstrip c s : c ∈ lstrip s -> c ∈ s.
Proof.
  destruct (lstrip_suffix s) as [p E]. intros Hc. rewrite E.
  apply elem_of_app. by right.
Qed.

Lemma elem_of_strip c s : c ∈ strip s -> c ∈ s.
Proof.
  unfold strip, rstrip. intros Hc.
  apply list_elem_of_In, in_rev, list_elem_of_In in Hc.
  apply elem_of_lstrip in Hc.
  apply list_elem_of_In, in_rev, list_elem_of_In in Hc.
  by apply elem_of_lstrip.
Qed.

(** ** The codec of prepare.py *)

Section CodecFacts.
Variable data : str.

Lemma chars_perm : Prepare.chars data ≡ₚ elements (list_to_set data : gset N).
Proof. apply sort_by_perm. Qed.

Lemma elem_of_chars c : c ∈ Prepare.chars data <-> c ∈ data.
Proof. rewrite chars_perm, elem_of_elements. apply elem_of_list_to_set. Qed.

Lemma chars_NoDup : NoDup (Prepare.chars data).
Proof. rewrite chars_perm. apply NoDup_elements. Qed.

Lemma chars_sorted : StronglySorted N.lt (Prepare.chars data).
Proof.
  pose proof (sort_by_sorted id N.leb N_leb_total N_leb_trans
                (elements (list_to_set data : gset N))) as Hs.
  apply (sorted_strict id N.leb) in Hs.
  - eapply StronglySorted_fmap with (f := id) (R2 := N.lt) in Hs.
    + by rewrite list_fmap_id in Hs.
    + intros x y [Hle Hne]. unfold key_le, id in *.
      apply N.leb_le in Hle. simpl. lia.
  - rewrite list_fmap_id. apply chars_NoDup.
Qed.

Lemma vocab_size_distinct :
  Prepare.vocab_size data = Z.of_nat (size (list_to_set data : gset N)).
Proof.
  unfold Prepare.vocab_size, len. f_equal.
  by rewrite chars_perm.
Qed.

(** The index of a character in [stoi] is its position in [chars]. *)
Lemma stoi_lookup c i :
  Prepare.stoi data !! c = Some i <->
  exists k : nat, i = Z.of_nat k /\ Prepare.chars data !! k = Some c.
Proof.
  unfold Prepare.stoi. rewrite dict_of_lookup.
  - rewrite list_elem_of_fmap. split.
    + intros ([j d] & [= -> ->] & Hin). by apply elem_of_enumerate in Hin.
    + intros (k & -> & Hk). exists (Z.of_nat k, c). split; [done|].
      apply elem_of_enumerate. eauto.
  - rewrite <- list_fmap_compose.
    erewrite (list_fmap_ext _ snd); [|by intros _ [? ?] _].
    rewrite enumerate_snd. apply chars_NoDup.
Qed.

Lemma itos_lookup i c :
  Prepare.itos data !! i = Some c <->
  exists k : nat, i = Z.of_nat k /\ Prepare.chars data !! k = Some c.
Proof.
  unfold Prepare.itos.
  erewrite (list_fmap_ext _ id); [|by intros _ [? ?] _].
  rewrite list_fmap_id, dict_of_lookup by apply enumerate_fst_NoDup.
  apply elem_of_enumerate.
Qed.

Lemma stoi_itos c i :
  Prepare.stoi data !! c = Some i <-> Prepare.itos data !! i = Some c.
Proof. by rewrite stoi_lookup, itos_lookup. Qed.

Lemma stoi_is_Some c : is_Some (Prepare.stoi data !! c) <-> c ∈ data.
Proof.
  rewrite <- elem_of_chars. split.
  - intros [i Hi]. apply stoi_lookup in Hi as (k & _ & Hk).
    by eapply list_elem_of_lookup_2.
  - intros Hc. apply list_elem_of_lookup_1 in Hc as [k Hk].
    exists (Z.of_nat k). apply stoi_lookup. by exists k.
Qed.

Lemma stoi_range c i :
  Prepare.stoi data !! c = Some i -> 0 <= i < Prepare.vocab_size data.
Proof.
  intros Hi. apply stoi_lookup in Hi as (k & -> & Hk).
  apply lookup_lt_Some in Hk. unfold Prepare.vocab_size, len. lia.
Qed.

(** Encoding a string of corpus characters succeeds. *)
Lemma encode_total s :
  (forall c, c ∈ s -> c ∈ data) ->
  exists ids, Prepare.encode data s = Ok ids /\
              Forall2 (fun c i => Prepare.stoi data !! c = Some i) s ids.
Proof.
  induction s as [|c s IH]; intros Hs.
  - exists []. split; [done|constructor].
  - destruct IH as (ids & He & Hf). { intros d Hd. apply Hs. by right. }
    destruct (proj2 (stoi_is_Some c)) as [i Hi]. { apply Hs. by left. }
    exists (i :: ids). split; [|by constructor].
    unfold Prepare.encode in *. simpl.
    unfold Prepare.stoi_getitem at 1. by rewrite Hi, He.
Qed.

Lemma encode_inv s ids :
  Prepare.encode data s = Ok ids ->
  Forall2 (fun c i => Prepare.stoi data !! c = Some i) s ids.
Proof.
  revert ids. unfold Prepare.encode.
  induction s as [|c s IH]; simpl; intros ids.
  - intros [= <-]. constructor.
  - unfold Prepare.stoi_getitem at 1.
    destruct (Prepare.stoi data !! c) as [i|] eqn:Hi; [|done].
    destruct (comprehension _ s) as [l|]; [|done].
    intros [= <-]. constructor; auto.
Qed.

Lemma join_singletons (cs : str) : join [] ((fun c => [c]) <$> cs) = cs.
Proof.
  induction cs as [|c [|d cs] IH]; [done..|].
  change (join [] ((fun c => [c]) <$> c :: d :: cs))
    with (c :: join [] ((fun c => [c]) <$> d :: cs)).
  by rewrite IH.
Qed.

Lemma decode_of_encoded s ids :
  Forall2 (fun c i => Prepare.stoi data !! c = Some i) s ids ->
  Prepare.decode data ids = Ok s.
Proof.
  intros Hf. unfold Prepare.decode.
  assert (comprehension (Prepare.itos_getitem data) ids = Ok s) as ->.
  { induction Hf as [|c i s ids Hi Hf IH]; [done|].
    simpl. unfold Prepare.itos_getitem at 1.
    apply stoi_itos in Hi. by rewrite Hi, IH. }
  simpl. by rewrite join_singletons.
Qed.

(** The first character outside the vocabulary stops the encoder. *)
Lemma encode_unknown s :
  (exists c, c ∈ s /\ c ∉ data) ->
  exists c, Prepare.encode data s = Raise (KeyError_chr c) /\ c ∈ s /\ c ∉ data.
Proof.
  unfold Prepare.encode.
  induction s as [|c s IH]; intros (d & Hd & Hnd).
  - by apply elem_of_nil in Hd.
  - simpl. unfold Prepare.stoi_getitem at 1.
    destruct (Prepare.stoi data !! c) as [i|] eqn:Hi.
    + assert (c ∈ data) by (apply stoi_is_Some; eauto).
      apply elem_of_cons in Hd as [->|Hd]; [done|].
      destruct IH as (e & He & Hes & Hed); [eauto|].
      exists e. rewrite He. split_and!; [done| by right | done].
    + exists c. split_and!; [done| by left |].
      intros Hc. apply stoi_is_Some in Hc as [? ?]. congruence.
Qed.

End CodecFacts.

(** ** Binary64 arithmetic of the split point *)

Lemma digits2_bounds p :
  2 ^ (Z.pos (digits2_pos p) - 1) <= Z.pos p < 2 ^ Z.pos (digits2_pos p).
Proof.
  induction p as [p IH|p IH|]; simpl digits2_pos.
  - rewrite Pos2Z.inj_succ.
    replace (Z.succ (Z.pos (digits2_pos p)) - 1) with (Z.succ (Z.pos (digits2_pos p) - 1)) by lia.
    rewrite !Z.pow_succ_r by lia. lia.
  - rewrite Pos2Z.inj_succ.
    replace (Z.succ (Z.pos (digits2_pos p)) - 1) with (Z.succ (Z.pos (digits2_pos p) - 1)) by lia.
    rewrite !Z.pow_succ_r by lia. lia.
  - simpl. lia.
Qed.

(** The number of digits is determined by the binade. *)
Lemma digits2_unique p d :
  0 < d -> 2 ^ (d - 1) <= Z.pos p < 2 ^ d -> Z.pos (digits2_pos p) = d.
Proof.
  intros Hd [Hlo Hhi]. pose proof (digits2_bounds p) as [Hlo' Hhi'].
  set (d' := Z.pos (digits2_pos p)) in *.
  destruct (Z.lt_trichotomy d' d) as [Hlt|[->|Hgt]]; [|done|].
  - assert (2 ^ d' <= 2 ^ (d - 1)) by (apply Z.pow_le_mono_r; lia). lia.
  - assert (2 ^ d <= 2 ^ (d' - 1)) by (apply Z.pow_le_mono_r; lia). lia.
Qed.

Lemma shr_1_m mrs : 0 <= shr_m mrs -> shr_m (shr_1 mrs) = shr_m mrs / 2.
Proof.
  destruct mrs as [m r s]. simpl. intros Hm.
  destruct m as [|[p|p|]|p]; simpl; try lia; try reflexivity.
  - rewrite (Pos2Z.inj_xI p). apply Z.div_unique with 1; lia.
  - rewrite (Pos2Z.inj_xO p). apply Z.div_unique with 0; lia.
Qed.

Lemma iter_pos_shr_m p mrs :
  0 <= shr_m mrs -> shr_m (SpecFloat.iter_pos shr_1 p mrs) = shr_m mrs / 2 ^ Z.pos p.
Proof.
  revert mrs. induction p as [p IH|p IH|]; intros mrs Hm; simpl SpecFloat.iter_pos.
  - assert (0 <= shr_m (shr_1 mrs)).
    { rewrite shr_1_m by done. apply Z.div_pos; lia. }
    assert (0 <= shr_m (SpecFloat.iter_pos shr_1 p (shr_1 mrs))).
    { rewrite IH by done. apply Z.div_pos; [done|]. apply Z.pow_pos_nonneg; lia. }
    rewrite !IH, shr_1_m by done.
    assert (0 < 2 ^ Z.pos p) by (apply Z.pow_pos_nonneg; lia).
    rewrite !Z.div_div by lia. f_equal.
    rewrite (Pos2Z.inj_xI p), Z.pow_add_r, Z.pow_twice_r, Z.pow_1_r by lia. ring.
  - assert (0 <= shr_m (SpecFloat.iter_pos shr_1 p mrs)).
    { rewrite IH by done. apply Z.div_pos; [done|]. apply Z.pow_pos_nonneg; lia. }
    rewrite !IH by done.
    assert (0 < 2 ^ Z.pos p) by (apply Z.pow_pos_nonneg; lia).
    rewrite !Z.div_div by lia. f_equal.
    by rewrite (Pos2Z.inj_xO p), Z.pow_twice_r.
  - rewrite shr_1_m by done. by rewrite Z.pow_1_r.
Qed.

Lemma shr_1_r mrs : 0 <= shr_m mrs -> shr_r (shr_1 mrs) = Z.odd (shr_m mrs).
Proof.
  destruct mrs as [m r s]. simpl. intros Hm.
  destruct m as [|[p|p|]|p]; simpl; try lia; reflexivity.
Qed.

(** The round bit after a shift by [p] is bit [p-1] of the mantissa. *)
Lemma iter_pos_shr_r p mrs :
  0 <= shr_m mrs ->
  shr_r (SpecFloat.iter_pos shr_1 p mrs)
  = Z.odd (shr_m mrs / 2 ^ (Z.pos p - 1)).
Proof.
  revert mrs. induction p as [p IH|p IH|]; intros mrs Hm; simpl SpecFloat.iter_pos.
  - assert (0 <= shr_m (shr_1 mrs)).
    { rewrite shr_1_m by done. apply Z.div_pos; lia. }
    assert (0 <= shr_m (SpecFloat.iter_pos shr_1 p (shr_1 mrs))).
    { rewrite iter_pos_shr_m by done. apply Z.div_pos; [done|].
      apply Z.pow_pos_nonneg; lia. }
    rewrite IH, iter_pos_shr_m, shr_1_m by done.
    assert (0 < 2 ^ Z.pos p) by (apply Z.pow_pos_nonneg; lia).
    assert (0 < 2 ^ (Z.pos p - 1)) by (apply Z.pow_pos_nonneg; lia).
    rewrite !Z.div_div by lia. do 2 f_equal.
    replace (Z.pos p~1 - 1) with (1 + Z.pos p + (Z.pos p - 1)) by lia.
    rewrite !Z.pow_add_r, Z.pow_1_r by lia. ring.
  - assert (0 <= shr_m (SpecFloat.iter_pos shr_1 p mrs)).
    { rewrite iter_pos_shr_m by done. apply Z.div_pos; [done|].
      apply Z.pow_pos_nonneg; lia. }
    rewrite IH, iter_pos_shr_m by done.
    assert (0 < 2 ^ Z.pos p) by (apply Z.pow_pos_nonneg; lia).
    assert (0 < 2 ^ (Z.pos p - 1)) by (apply Z.pow_pos_nonneg; lia).
    rewrite !Z.div_div by lia. do 2 f_equal.
    replace (Z.pos p~0 - 1) with (Z.pos p + (Z.pos p - 1)) by lia.
    by rewrite Z.pow_add_r by lia.
  - rewrite shr_1_r by done. change (2 ^ (1 - 1)) with 1.
    by rewrite Z.div_1_r.
Qed.

(** Rounding to nearest goes up only when the round bit is set. *)
Lemma round_nearest_even_up mrs :
  let m' := round_nearest_even (shr_m mrs) (loc_of_shr_record mrs) in
  m' = shr_m mrs \/ (m' = shr_m mrs + 1 /\ shr_r mrs = true).
Proof.
  destruct mrs as [m [|] [|]]; simpl; auto.
  destruct (Z.even m); auto.
Qed.

Lemma round_nearest_even_bounds m l : m <= round_nearest_even m l <= m + 1.
Proof.
  destruct l as [|[]]; simpl; try lia. destruct (Z.even m); lia.
Qed.

(** The shift that brings a mantissa of at least 53 digits to 53 digits
    divides it by the matching power of two. *)
Lemma shr_fexp_spec (m : positive) (e : Z) :
  53 <= Z.pos (digits2_pos m) -> -1074 <= e ->
  exists mrs,
    shr_fexp 53 1024 (Z.pos m) e loc_Exact
      = (mrs, e + (Z.pos (digits2_pos m) - 53)) /\
    shr_m mrs = Z.pos m / 2 ^ (Z.pos (digits2_pos m) - 53) /\
    (Z.pos (digits2_pos m) = 53 ->
     mrs = {| shr_m := Z.pos m; shr_r := false; shr_s := false |}) /\
    (53 < Z.pos (digits2_pos m) ->
     shr_r mrs = Z.odd (Z.pos m / 2 ^ (Z.pos (digits2_pos m) - 53 - 1))).
Proof.
  intros Hd He. unfold shr_fexp, fexp, emin. simpl Zdigits2.
  set (d := Z.pos (digits2_pos m)) in *.
  replace (Z.max (d + e - 53) (3 - 1024 - 53) - e) with (d - 53) by lia.
  destruct (d - 53) as [|p|p] eqn:E; [| |lia].
  - eexists. split; [simpl; f_equal; lia|]. simpl.
    split; [by rewrite Z.div_1_r|]. split; [done|lia].
  - eexists. split; [simpl; reflexivity|].
    split; [by rewrite iter_pos_shr_m|]. split; [lia|].
    intros _. by rewrite iter_pos_shr_r.
Qed.

(** Rounding a positive mantissa of at least 53 digits: the result is a
    normal double, not below the exact value rounded down to the grid of
    step [2^(d-53)], and at most half a step above the exact value. *)
Lemma binary_round_aux_spec (mx : positive) (ex : Z) :
  let d := Z.pos (digits2_pos mx) in
  53 <= d -> -1074 <= ex -> d + ex <= 1023 ->
  exists m3 e3,
    binary_round_aux 53 1024 false (Z.pos mx) ex loc_Exact
      = S754_finite false m3 e3 /\
    Z.pos (digits2_pos m3) = 53 /\
    ex + (d - 53) <= e3 <= ex + (d - 53) + 1 /\
    (Z.pos mx / 2 ^ (d - 53)) * 2 ^ (d - 53) <= Z.pos m3 * 2 ^ (e3 - ex) /\
    2 * (Z.pos m3 * 2 ^ (e3 - ex)) <= 2 * Z.pos mx + 2 ^ (d - 53) /\
    (d = 53 -> m3 = mx /\ e3 = ex).
Proof.
  intros d Hd He Hmax. unfold binary_round_aux.
  destruct (shr_fexp_spec mx ex Hd He) as (mrs & -> & Hm & Hex & Hrbit).
  fold d in Hm, Hex, Hrbit |- *.
  pose proof (digits2_bounds mx) as Hb. fold d in Hb.
  set (k := d - 53) in *.
  assert (0 < 2 ^ k) as Hk by (apply Z.pow_pos_nonneg; lia).
  assert (2 ^ d = 2 ^ 53 * 2 ^ k) as Hdk.
  { rewrite <- Z.pow_add_r by lia. f_equal. lia. }
  assert (2 ^ (d - 1) = 2 ^ 52 * 2 ^ k) as Hdk'.
  { rewrite <- Z.pow_add_r by lia. f_equal. lia. }
  assert (2 ^ 52 <= shr_m mrs < 2 ^ 53) as Hm'.
  { rewrite Hm. split.
    - apply Z.div_le_lower_bound; lia.
    - apply Z.div_lt_upper_bound; lia. }
  pose proof (Z.mul_div_le (Z.pos mx) (2 ^ k) Hk) as Hfloor.
  rewrite <- Hm in Hfloor.
  assert (d = 53 -> round_nearest_even (shr_m mrs) (loc_of_shr_record mrs) = Z.pos mx) as Hexact.
  { intros E. by rewrite (Hex E). }
  assert (shr_m mrs <= round_nearest_even (shr_m mrs) (loc_of_shr_record mrs)
          <= shr_m mrs + 1 /\
          2 * (round_nearest_even (shr_m mrs) (loc_of_shr_record mrs) * 2 ^ k)
          <= 2 * Z.pos mx + 2 ^ k) as [Hr Hhalf].
  { destruct (round_nearest_even_up mrs) as [->|[-> Hbit]]; [split; lia|].
    split; [lia|].
    assert (53 < d) as Hd'.
    { destruct (Z.eq_dec d 53) as [E|]; [|lia].
      rewrite (Hex E) in Hbit. done. }
    rewrite (Hrbit Hd') in Hbit. fold k in Hbit.
    assert (0 < 2 ^ (k - 1)) as Hk1 by (apply Z.pow_pos_nonneg; lia).
    assert (2 ^ k = 2 ^ (k - 1) * 2) as Hk2.
    { rewrite <- (Z.pow_1_r 2) at 3. rewrite <- Z.pow_add_r by lia.
      f_equal. lia. }
    set (h := Z.pos mx / 2 ^ (k - 1)) in *.
    assert (h * 2 ^ (k - 1) <= Z.pos mx).
    { unfold h. pose proof (Z.mul_div_le (Z.pos mx) (2 ^ (k - 1)) Hk1). lia. }
    assert (h / 2 = shr_m mrs) as Hh2.
    { unfold h. rewrite Hm, Z.div_div, <- Hk2 by lia. done. }
    rewrite Z.odd_spec in Hbit. destruct Hbit as [j Hj].
    assert (j = shr_m mrs) as <-.
    { rewrite <- Hh2, Hj. apply Z.div_unique with 1; lia. }
    rewrite Hk2. nia. }
  destruct (round_nearest_even (shr_m mrs) (loc_of_shr_record mrs)) as [|q|q] eqn:Eq;
    [lia| |lia].
  destruct (Z.eq_dec (Z.pos q) (2 ^ 53)) as [Htop|Htop].
  - (* the rounded mantissa reached 2^53: one more shift *)
    assert (Z.pos (digits2_pos q) = 54) as Hq.
    { apply digits2_unique; [lia|]. rewrite Htop. simpl. lia. }
    destruct (shr_fexp_spec q (ex + k)) as (mrs2 & -> & Hm2 & _); [lia..|].
    rewrite Hq in Hm2 |- *. rewrite Htop in Hm2.
    change (2 ^ 53 / 2 ^ (54 - 53)) with (Z.pos 4503599627370496) in Hm2.
    rewrite Hm2.
    destruct (Z.leb_spec (ex + k + (54 - 53)) (1024 - 53)); [|lia].
    eexists _, _. split; [reflexivity|]. split; [reflexivity|].
    split; [lia|].
    replace (ex + k + (54 - 53) - ex) with (k + 1) by lia.
    rewrite Z.pow_add_r, Z.pow_1_r by lia.
    change (Z.pos 4503599627370496) with (2 ^ 52).
    split; [nia|]. split; [nia|].
    intros E. pose proof (Hexact E). rewrite E in Hb. lia.
  - assert (Z.pos (digits2_pos q) = 53) as Hq.
    { apply digits2_unique; [lia|]. change (53 - 1) with 52. lia. }
    destruct (shr_fexp_spec q (ex + k)) as (mrs2 & -> & Hm2 & _); [lia..|].
    rewrite Hq in Hm2 |- *.
    change (2 ^ (53 - 53)) with 1 in Hm2. rewrite Z.div_1_r in Hm2.
    rewrite Hm2.
    destruct (Z.leb_spec (ex + k + (53 - 53)) (1024 - 53)); [|lia].
    eexists _, _. split; [reflexivity|]. split; [done|].
    split; [lia|].
    replace (ex + k + (53 - 53) - ex) with k by lia.
    split; [nia|]. split; [nia|].
    intros E. pose proof (Hexact E). split; [congruence|]. unfold k. lia.
Qed.

Lemma pos_iter_xO p k : Z.pos (Pos.iter xO p k) = Z.pos p * 2 ^ Z.pos k.
Proof.
  induction k as [|k IH] using Pos.peano_ind.
  - simpl. lia.
  - rewrite Pos.iter_succ, Pos2Z.inj_succ, Z.pow_succ_r by lia.
    rewrite (Pos2Z.inj_xO (Pos.iter xO p k)), IH. ring.
Qed.

Lemma digits2_le p b : 0 <= b -> Z.pos p < 2 ^ b -> Z.pos (digits2_pos p) <= b.
Proof.
  intros Hb Hp. pose proof (digits2_bounds p) as [Hlo _].
  destruct (Z.le_gt_cases (Z.pos (digits2_pos p)) b) as [|Hgt]; [done|].
  assert (2 ^ b <= 2 ^ (Z.pos (digits2_pos p) - 1)) by (apply Z.pow_le_mono_r; lia).
  lia.
Qed.

(** [float(z)] for a positive integer below [2^1000]: a normal double, which
    is [z] itself when [z] has at most 53 binary digits. *)
Lemma float_of_int_spec (p : positive) :
  let d := Z.pos (digits2_pos p) in
  d <= 1000 ->
  exists m e,
    Prepare.float_of_int (Z.pos p) = Ok (S754_finite false m e) /\
    Z.pos (digits2_pos m) = 53 /\
    -52 <= e <= d - 52 /\
    (d <= 53 -> Z.pos m = Z.pos p * 2 ^ (53 - d) /\ e = d - 53).
Proof.
  intros d Hd. unfold Prepare.float_of_int, Prepare.prec, Prepare.emax.
  unfold binary_normalize, binary_round, shl_align, fexp, emin.
  fold d. pose proof (digits2_bounds p) as Hb. fold d in Hb.
  assert (0 < d) by (unfold d; lia).
  replace (Z.max (d + 0 - 53) (3 - 1024 - 53) - 0) with (d - 53) by lia.
  replace (Z.max (d + 0 - 53) (3 - 1024 - 53)) with (d - 53) by lia.
  destruct (d - 53) as [|k|k] eqn:E.
  - destruct (binary_round_aux_spec p 0) as (m3 & e3 & -> & Hd3 & He3 & _ & _ & Hex);
      [fold d; lia..|].
    fold d in Hex, He3. destruct Hex as [-> ->]; [lia|].
    exists p, 0. split_and!; [done|unfold d in *; lia|lia|lia|].
    intros _. replace (53 - d) with 0 by lia. simpl. lia.
  - destruct (binary_round_aux_spec p 0) as (m3 & e3 & -> & Hd3 & He3 & _ & _ & _);
      [fold d; lia..|].
    fold d in He3. exists m3, e3. split_and!; [done|done|lia|lia|lia].
  - assert (Z.pos (digits2_pos (Pos.iter xO p k)) = 53) as Hk.
    { apply digits2_unique; [lia|]. rewrite pos_iter_xO.
      assert (0 < 2 ^ Z.pos k) by (apply Z.pow_pos_nonneg; lia).
      assert (2 ^ 53 = 2 ^ d * 2 ^ Z.pos k) as ->.
      { rewrite <- Z.pow_add_r by lia. f_equal. lia. }
      assert (2 ^ (53 - 1) = 2 ^ (d - 1) * 2 ^ Z.pos k) as ->.
      { rewrite <- Z.pow_add_r by lia. f_equal. lia. }
      nia. }
    destruct (binary_round_aux_spec (Pos.iter xO p k) (Z.neg k))
      as (m3 & e3 & -> & Hd3 & He3 & _ & _ & Hex); [rewrite ?Hk; lia..|].
    rewrite Hk in Hex. destruct Hex as [-> ->]; [done|].
    eexists _, _. split_and!; [done|done|lia|lia|].
    intros _. rewrite pos_iter_xO. split; [|lia]. do 2 f_equal. lia.
Qed.

(** The product of a normal double with [0.9]; [K] is the number of bits
    that the rounding of the exact product drops. *)
Lemma mul_0_9_spec (m : positive) (e : Z) :
  Z.pos (digits2_pos m) = 53 -> -52 <= e <= 950 ->
  exists m3 e3,
    SFmul 53 1024 (S754_finite false m e) Prepare.float_0_9
      = S754_finite false m3 e3 /\
    e - 53 <= e3 /\
    let X := Z.pos m * 8106479329266893 in
    let K := Z.pos (digits2_pos (m * 8106479329266893)) - 53 in
    52 <= K <= 53 /\
    (X / 2 ^ K) * 2 ^ K <= Z.pos m3 * 2 ^ (e3 - (e - 53)) /\
    2 * (Z.pos m3 * 2 ^ (e3 - (e - 53))) <= 2 * X + 2 ^ K.
Proof.
  intros Hm He. unfold Prepare.float_0_9, SFmul. simpl xorb.
  pose proof (digits2_bounds m) as Hb. rewrite Hm in Hb.
  change (53 - 1) with 52 in Hb.
  pose proof (digits2_bounds (m * 8106479329266893)) as Hx.
  set (D := Z.pos (digits2_pos (m * 8106479329266893))) in *.
  rewrite Pos2Z.inj_mul in Hx.
  assert (105 <= D <= 106) as HD.
  { split.
    - destruct (Z.le_gt_cases 105 D) as [|Hlt]; [done|].
      assert (2 ^ D <= 2 ^ 104) by (apply Z.pow_le_mono_r; lia). nia.
    - destruct (Z.le_gt_cases D 106) as [|Hgt]; [done|].
      assert (2 ^ 106 <= 2 ^ (D - 1)) by (apply Z.pow_le_mono_r; lia). nia. }
  destruct (binary_round_aux_spec (m * 8106479329266893) (e + -53))
    as (m3 & e3 & -> & _ & He3 & Hv & Hhalf & _); [fold D; lia..|].
  fold D in He3, Hv, Hhalf. rewrite Pos2Z.inj_mul in Hv, Hhalf.
  exists m3, e3.
  split; [done|]. split; [lia|]. cbv zeta.
  replace (e3 - (e - 53)) with (e3 - (e + -53)) by lia.
  split; [lia|]. by split.
Qed.

(** Truncation, on a mantissa scaled by [2^S]. *)
Lemma int_of_float_scaled (m : positive) (e S : Z) :
  0 <= S -> 0 <= e + S ->
  Prepare.int_of_float (S754_finite false m e)
    = Ok (Z.pos m * 2 ^ (e + S) / 2 ^ S).
Proof.
  intros HS HeS. unfold Prepare.int_of_float. f_equal.
  assert (0 < 2 ^ S) by (apply Z.pow_pos_nonneg; lia).
  destruct e as [|q|q].
  - rewrite Z.add_0_l, Z.div_mul, Z.pow_0_r by lia. lia.
  - rewrite Z.pow_add_r, Z.mul_assoc, Z.div_mul by lia. done.
  - replace S with ((Z.neg q + S) + Z.pos q) at 2 by lia.
    assert (0 < 2 ^ (Z.neg q + S)) by (apply Z.pow_pos_nonneg; lia).
    rewrite (Z.pow_add_r 2 (Z.neg q + S) (Z.pos q)) by lia.
    rewrite (Z.mul_comm (2 ^ (Z.neg q + S)) (2 ^ Z.pos q)).
    rewrite Z.div_mul_cancel_r by lia. done.
Qed.

Lemma int_of_float_nonneg m e k :
  Prepare.int_of_float (S754_finite false m e) = Ok k -> 0 <= k.
Proof.
  unfold Prepare.int_of_float. intros [= <-].
  destruct e as [|q|q].
  - lia.
  - assert (0 < 2 ^ Z.pos q) by (apply Z.pow_pos_nonneg; lia). lia.
  - apply Z.div_pos; [lia|]. apply Z.pow_pos_nonneg; lia.
Qed.

Lemma int_mul_0_9_unfold z f :
  Prepare.float_of_int z = Ok f ->
  Prepare.int_mul_0_9 z = Prepare.int_of_float (SFmul 53 1024 f Prepare.float_0_9).
Proof. intros Hf. unfold Prepare.int_mul_0_9. by rewrite Hf. Qed.

(** [int(n*0.9)] is computed, without overflow, for every length a Python
    sequence can have. *)
Lemma int_mul_0_9_total z :
  0 <= z <= Prepare.sys_maxsize ->
  exists k, Prepare.int_mul_0_9 z = Ok k /\ 0 <= k.
Proof.
  intros [H0 Hmax]. destruct z as [|p|p]; [| |lia].
  - exists 0. by vm_compute.
  - assert (Z.pos (digits2_pos p) <= 63) as Hd.
    { apply digits2_le; [lia|]. unfold Prepare.sys_maxsize in Hmax. lia. }
    destruct (float_of_int_spec p) as (m & e & Hf & Hm & He & _); [lia|].
    destruct (mul_0_9_spec m e Hm) as (m3 & e3 & Hmul & _); [lia|].
    rewrite (int_mul_0_9_unfold _ _ Hf), Hmul.
    eexists. split; [reflexivity|].
    by eapply int_of_float_nonneg.
Qed.

(** The integer part of the product, for an integer [z] of at most 53
    digits: it is the floor of [9z/10] provided half a rounding step, on top
    of the excess of the double [0.9] over [9/10], stays below a tenth. *)
Lemma int_mul_0_9_floor_digits (p : positive) :
  let d := Z.pos (digits2_pos p) in
  let K := Z.pos (digits2_pos (Pos.iter xO p (Z.to_pos (53 - d))
                               * 8106479329266893)) - 53 in
  d < 53 ->
  2 * (Z.pos p * 2 ^ (53 - d)) + 5 * 2 ^ K < 2 ^ 53 * 2 ^ (53 - d) ->
  Prepare.int_mul_0_9 (Z.pos p) = Ok (9 * Z.pos p / 10).
Proof.
  intros d K Hd Hroom.
  destruct (float_of_int_spec p) as (m & e & Hf & Hm & He & Hex); [fold d; lia|].
  fold d in He, Hex. destruct Hex as [Hmp Hes]; [lia|].
  assert (m = Pos.iter xO p (Z.to_pos (53 - d))) as Hmiter.
  { apply Pos2Z.inj. rewrite Hmp, pos_iter_xO. f_equal.
    rewrite Z2Pos.id by lia. done. }
  set (s := 53 - d) in *.
  destruct (mul_0_9_spec m e Hm) as (m3 & e3 & Hmul & He3 & HK & Hv & Hhalf);
    [lia|].
  cbv zeta in HK, Hv, Hhalf. rewrite Hmiter in HK, Hv, Hhalf.
  fold K in HK, Hv, Hhalf. rewrite <- Hmiter in Hv, Hhalf.
  rewrite (int_mul_0_9_unfold _ _ Hf), Hmul.
  rewrite (int_of_float_scaled m3 e3 (53 + s)) by lia. f_equal.
  replace (e3 - (e - 53)) with (e3 + (53 + s)) in Hv, Hhalf by lia.
  set (V := Z.pos m3 * 2 ^ (e3 + (53 + s))) in *.
  set (T := 2 ^ s) in *.
  assert (0 < T) as HT by (apply Z.pow_pos_nonneg; lia).
  assert (2 ^ (53 + s) = 9007199254740992 * T) as ->.
  { unfold T. by rewrite Z.pow_add_r by lia. }
  change (2 ^ 53) with 9007199254740992 in Hroom.
  set (q := 9 * Z.pos p / 10).
  assert (10 * q <= 9 * Z.pos p < 10 * q + 10) as Hq.
  { unfold q. pose proof (Z.mul_div_le (9 * Z.pos p) 10).
    pose proof (Z.mul_succ_div_gt (9 * Z.pos p) 10). lia. }
  assert (0 <= q) by (unfold q; apply Z.div_pos; lia).
  set (pT := Z.pos p * T) in *. set (qT := q * T).
  assert (10 * qT <= 9 * pT <= 10 * qT + 9 * T) as HqT by (unfold qT, pT; nia).
  rewrite Hmp in Hv, Hhalf.
  set (X := pT * 8106479329266893) in *.
  assert (0 < 2 ^ K) as HK0 by (apply Z.pow_pos_nonneg; lia).
  set (Y := X / 2 ^ K) in *.
  assert (9007199254740992 * qT <= Y * 2 ^ K) as Hlow.
  { assert (K = 52 \/ K = 53) as [-> | ->] by lia.
    - assert (2 * qT <= Y); [|change (2 ^ 52) with 4503599627370496; lia].
      apply Z.div_le_lower_bound; [done|].
      change (2 ^ 52) with 4503599627370496. lia.
    - assert (qT <= Y); [|change (2 ^ 53) with 9007199254740992; lia].
      apply Z.div_le_lower_bound; [done|].
      change (2 ^ 53) with 9007199254740992. lia. }
  symmetry. apply Z.div_unique with (V - 9007199254740992 * qT).
  - left. lia.
  - fold q. unfold qT. ring.
Qed.

(** [int(z*0.9)] is the floor of [9z/10] for every [z] below
    1250999896491811. *)
Lemma int_mul_0_9_floor z :
  0 <= z < 1250999896491811 -> Prepare.int_mul_0_9 z = Ok (9 * z / 10).
Proof.
  intros [H0 Hz]. destruct z as [|p|p]; [by vm_compute| |lia].
  destruct (Z.lt_ge_cases (Z.pos p) (2 ^ 50)) as [Hsmall|Hbig].
  - (* at most 50 digits: the rounding step is at most an eighth of the
       unit of the product *)
    assert (Z.pos (digits2_pos p) <= 50) as Hd by (apply digits2_le; lia).
    apply int_mul_0_9_floor_digits; [lia|].
    set (d := Z.pos (digits2_pos p)) in *.
    set (K := Z.pos (digits2_pos _) - 53).
    assert (52 <= K <= 53) as HK.
    { destruct (float_of_int_spec p) as (m & e & _ & Hm & He & Hex); [fold d; lia|].
      fold d in He, Hex. destruct Hex as [Hmp _]; [lia|].
      assert (m = Pos.iter xO p (Z.to_pos (53 - d))) as Hmiter.
      { apply Pos2Z.inj. rewrite Hmp, pos_iter_xO. f_equal.
        rewrite Z2Pos.id by lia. done. }
      destruct (mul_0_9_spec m e Hm) as (_ & _ & _ & _ & HK & _); [lia|].
      cbv zeta in HK. by rewrite Hmiter in HK. }
    assert (2 ^ K <= 2 ^ 53) by (apply Z.pow_le_mono_r; lia).
    assert (2 ^ 3 <= 2 ^ (53 - d)) by (apply Z.pow_le_mono_r; lia).
    pose proof (digits2_bounds p) as [_ Hp]. fold d in Hp.
    assert (Z.pos p * 2 ^ (53 - d) < 2 ^ 53).
    { replace (2 ^ 53) with (2 ^ d * 2 ^ (53 - d)).
      - apply Z.mul_lt_mono_pos_r; [lia|done].
      - rewrite <- Z.pow_add_r by lia. f_equal. lia. }
    change (2 ^ 3) with 8 in *. change (2 ^ 53) with 9007199254740992 in *.
    lia.
  - change (2 ^ 50) with 1125899906842624 in Hbig.
    assert (Z.pos (digits2_pos p) = 51) as Hd.
    { apply digits2_unique; [lia|]. change (2 ^ (51 - 1)) with 1125899906842624.
      change (2 ^ 51) with 2251799813685248. lia. }
    destruct (Z.lt_ge_cases (Z.pos p) 1250999896491805) as [Hlow|Hhigh].
    + (* the product is below 2^50: the rounding step is an eighth *)
      apply int_mul_0_9_floor_digits; [lia|]. rewrite Hd.
      change (Z.to_pos (53 - 51)) with 2%positive.
      change (Pos.iter xO p 2) with (p~0~0)%positive.
      assert (Z.pos (digits2_pos (p~0~0 * 8106479329266893)) = 105) as ->.
      { apply digits2_unique; [lia|].
        rewrite Pos2Z.inj_mul, (Pos2Z.inj_xO (p~0)), (Pos2Z.inj_xO p).
        change (2 ^ (105 - 1)) with 20282409603651670423947251286016.
        change (2 ^ 105) with 40564819207303340847894502572032. lia. }
      change (2 ^ (53 - 51)) with 4. change (2 ^ (105 - 53)) with 4503599627370496.
      change (2 ^ 53) with 9007199254740992. lia.
    + (* the six remaining lengths, one by one *)
      assert (Z.pos p = 1250999896491805 \/ Z.pos p = 1250999896491806 \/
              Z.pos p = 1250999896491807 \/ Z.pos p = 1250999896491808 \/
              Z.pos p = 1250999896491809 \/ Z.pos p = 1250999896491810)
        as Hcases by lia.
      destruct Hcases as [->|[->|[->|[->|[->| ->]]]]]; by vm_compute.
Qed.

(** The literal [0.9] is the double that the division of 9 by 10 gives. *)
Example float_0_9_nearest :
  SFdiv Prepare.prec Prepare.emax
    (binary_normalize Prepare.prec Prepare.emax 9 0 false)
    (binary_normalize Prepare.prec Prepare.emax 10 0 false)
  = Prepare.float_0_9.
Proof. by vm_compute. Qed.

(** Values of [int(n*0.9)] on both sides of the first length at which it
    leaves the floor of [9n/10], and for lengths beyond [2^53]. *)
Example int_mul_0_9_values :
  Prepare.int_mul_0_9 4 = Ok 3 /\
  Prepare.int_mul_0_9 1250999896491810 = Ok 1125899906842629 /\
  Prepare.int_mul_0_9 1250999896491811 = Ok 1125899906842630 /\
  Prepare.int_mul_0_9 9007199254740993 = Ok 8106479329266893 /\
  Prepare.int_mul_0_9 (2 ^ 62 + 12345) = Ok 4150517416584660480.
Proof. by vm_compute. Qed.

(** ** The claims on the codec *)

(** The example of the specification: the corpus ["aabc"]. *)
Example spec_example :
  Prepare.chars (lit "aabc") = lit "abc" /\
  Prepare.encode (lit "aabc") (lit "aabc") = Ok [0; 0; 1; 2] /\
  Prepare.decode (lit "aabc") [0; 0; 1; 2] = Ok (lit "aabc") /\
  Prepare.train_data (lit "aabc") = Ok (lit "aab") /\
  Prepare.val_data (lit "aabc") = Ok (lit "c").
Proof. by vm_compute. Qed.

(** C1. For every string [s] all of whose characters occur in the corpus the
    vocabulary was derived from, [encode(s)] returns a list of integers and
    [decode(encode(s)) == s]. *)
Theorem decode_encode (data s : str) :
  (forall c, c ∈ s -> c ∈ data) ->
  exists ids, Prepare.encode data s = Ok ids /\ Prepare.decode data ids = Ok s.
Proof.
  intros Hs. destruct (encode_total data s Hs) as (ids & He & Hf).
  exists ids. split; [done|]. by apply decode_of_encoded.
Qed.

Lemma decode_encode_witness :
  exists ids, Prepare.encode (lit "hello world") (lit "low roll") = Ok ids /\
              Prepare.decode (lit "hello world") ids = Ok (lit "low roll").
Proof.
  apply (decode_encode (lit "hello world") (lit "low roll")).
  apply Forall_forall. apply (bool_decide_unpack _). by vm_compute.
Defined.

(** The position of a character in a strictly ascending list is the number
    of smaller elements. *)
Lemma rank_in_sorted (l : list N) (i : nat) (c : N) :
  StronglySorted N.lt l -> l !! i = Some c ->
  length (filter (fun d => (d < c)%N) l) = i.
Proof.
  revert i. induction l as [|x l IH]; intros i Hs Hi; [done|].
  apply StronglySorted_cons in Hs as [Hx Hl].
  destruct i as [|i]; simpl in Hi.
  - injection Hi as ->. rewrite filter_cons_False by lia.
    apply length_zero_iff_nil, elem_of_nil_inv.
    intros d Hd. apply list_elem_of_filter in Hd as [Hlt Hin].
    eapply Forall_forall in Hx; [|exact Hin]. lia.
  - assert (x < c)%N.
    { eapply Forall_forall in Hx; [exact Hx|]. by eapply list_elem_of_lookup_2. }
    rewrite filter_cons_True by done. simpl. f_equal. by apply IH.
Qed.

(** C2. The vocabulary has as many entries as the corpus has distinct
    characters, the keys of [stoi] are exactly the characters of the corpus,
    and the index of a character is its rank among the distinct characters
    in ascending code-point order: the number of distinct characters with a
    smaller code point. *)
Theorem vocabulary_rank (data : str) :
  Prepare.vocab_size data = Z.of_nat (size (list_to_set data : gset N)) /\
  dom (Prepare.stoi data) = (list_to_set data : gset N) /\
  forall c, c ∈ data ->
    Prepare.stoi data !! c
    = Some (Z.of_nat (length (filter (fun d => (d < c)%N)
                                (elements (list_to_set data : gset N))))).
Proof.
  split; [apply vocab_size_distinct|]. split.
  - apply set_eq. intros c.
    rewrite elem_of_dom, stoi_is_Some. by rewrite elem_of_list_to_set.
  - intros c Hc. apply stoi_lookup.
    apply elem_of_chars, list_elem_of_lookup_1 in Hc as [k Hk].
    exists k. split; [|done]. f_equal.
    rewrite <- (rank_in_sorted _ _ _ (chars_sorted data) Hk).
    apply Permutation_length. by rewrite chars_perm.
Qed.

(** C4. When a string has a character that is absent from the vocabulary,
    [encode] raises [KeyError] for such a character; it never returns a list. *)
Theorem encode_unknown_raises (data s : str) :
  (exists c, c ∈ s /\ c ∉ data) ->
  (exists c, Prepare.encode data s = Raise (KeyError_chr c) /\ c ∈ s /\ c ∉ data)
  /\ forall ids, Prepare.encode data s <> Ok ids.
Proof.
  intros Hs. destruct (encode_unknown data s Hs) as (c & He & Hc).
  split; [eauto|]. intros ids. by rewrite He.
Qed.

Lemma encode_unknown_raises_witness :
  (exists c, Prepare.encode (lit "aabc") (lit "abd") = Raise (KeyError_chr c)
             /\ c ∈ lit "abd" /\ c ∉ lit "aabc")
  /\ forall ids, Prepare.encode (lit "aabc") (lit "abd") <> Ok ids.
Proof.
  apply (encode_unknown_raises (lit "aabc") (lit "abd")).
  exists 100%N. split; apply (bool_decide_unpack _); by vm_compute.
Defined.

(** *** Storage as uint16 *)

Lemma to_uint16_small x : 0 <= x < 65536 -> Prepare.to_uint16 x = x.
Proof.
  intros Hx. unfold Prepare.to_uint16. change 65535 with (Z.ones 16).
  rewrite Z.land_ones by lia. apply Z.mod_small. simpl. lia.
Qed.

Lemma uint16_bytes x :
  0 <= x < 65536 ->
  Z.lor (Z.land x 255) (Z.shiftl (Z.land (Z.shiftr x 8) 255) 8) = x.
Proof.
  intros Hx. apply Z.bits_inj'. intros i Hi.
  change 255 with (Z.ones 8).
  rewrite Z.lor_spec, Z.land_spec, Z.testbit_ones_nonneg by lia.
  destruct (Z.ltb_spec i 8) as [Hlt|Hge].
  - rewrite Z.shiftl_spec_low by lia. by rewrite andb_true_r, orb_false_r.
  - rewrite Z.shiftl_spec by lia.
    rewrite Z.land_spec, Z.shiftr_spec, Z.testbit_ones_nonneg by lia.
    replace (i - 8 + 8) with i by lia. rewrite andb_false_r. simpl.
    destruct (Z.ltb_spec (i - 8) 8) as [Hlt|Hge']; [apply andb_true_r|].
    rewrite andb_false_r. symmetry.
    destruct (Z.eq_dec x 0) as [->|Hne]; [apply Z.bits_0|].
    apply Z.bits_above_log2; [lia|].
    assert (Z.log2 x < 16); [|lia]. apply Z.log2_lt_pow2; [lia|]. simpl. lia.
Qed.

Lemma fromfile_tofile (arr : list Z) :
  Forall (fun x => 0 <= x < 65536) arr ->
  Prepare.fromfile (Prepare.tofile arr) = arr.
Proof.
  induction 1 as [|x arr Hx _ IH]; [done|].
  unfold Prepare.tofile in *. rewrite bind_cons. simpl.
  by rewrite IH, uint16_bytes.
Qed.

Lemma encode_range (data s : str) ids :
  Prepare.encode data s = Ok ids ->
  Forall (fun i => 0 <= i < Prepare.vocab_size data) ids.
Proof.
  intros He. apply encode_inv in He.
  induction He as [|c i s ids Hi _ IH]; constructor; [|done].
  by eapply stoi_range.
Qed.

Lemma np_array_uint16_small ids :
  Forall (fun x => 0 <= x < 65536) ids -> Prepare.np_array_uint16 ids = ids.
Proof.
  induction 1 as [|x ids Hx _ IH]; [done|].
  unfold Prepare.np_array_uint16 in *. rewrite fmap_cons.
  by rewrite IH, to_uint16_small.
Qed.

Lemma uint16_roundtrip (vocab_size : Z) (ids : list Z) :
  Forall (fun i => 0 <= i < vocab_size) ids -> vocab_size <= 65536 ->
  Prepare.np_array_uint16 ids = ids /\
  Prepare.fromfile (Prepare.tofile (Prepare.np_array_uint16 ids)) = ids.
Proof.
  intros Hr Hv.
  assert (Forall (fun x => 0 <= x < 65536) ids) as Hs16.
  { eapply Forall_impl; [exact Hr|]. simpl. intros. lia. }
  rewrite np_array_uint16_small by done. split; [done|].
  by apply fromfile_tofile.
Qed.

(** C9. Every integer [encode] produces for a string over the vocabulary
    lies in [[0, vocab_size)]; hence, when [vocab_size <= 65536], the uint16
    array holds the ids unchanged and the bytes written to the [.bin] file
    read back as the same ids. *)
Theorem encoded_ids_fit_uint16 (data s : str) :
  (forall c, c ∈ s -> c ∈ data) ->
  exists ids,
    Prepare.encode data s = Ok ids /\
    Forall (fun i => 0 <= i < Prepare.vocab_size data) ids /\
    (Prepare.vocab_size data <= 65536 ->
     Prepare.np_array_uint16 ids = ids /\
     Prepare.fromfile (Prepare.tofile (Prepare.np_array_uint16 ids)) = ids).
Proof.
  intros Hs. destruct (encode_total data s Hs) as (ids & He & _).
  exists ids. split; [done|].
  pose proof (encode_range data s ids He) as Hr. split; [done|].
  by apply uint16_roundtrip.
Qed.

Lemma encoded_ids_fit_uint16_witness :
  exists ids,
    Prepare.encode (lit "aabc") (lit "cab") = Ok ids /\
    Forall (fun i => 0 <= i < Prepare.vocab_size (lit "aabc")) ids /\
    (Prepare.vocab_size (lit "aabc") <= 65536 ->
     Prepare.np_array_uint16 ids = ids /\
     Prepare.fromfile (Prepare.tofile (Prepare.np_array_uint16 ids)) = ids).
Proof.
  apply (encoded_ids_fit_uint16 (lit "aabc") (lit "cab")).
  apply Forall_forall. apply (bool_decide_unpack _). by vm_compute.
Defined.

(** Where 16 bits are too few the stored value differs from the id. *)
Example to_uint16_wraps : Prepare.to_uint16 65536 = 0.
Proof. reflexivity. Qed.

(** *** The sample encoding test *)

Lemma elem_of_slice_to {A} (k : Z) (s : list A) x : x ∈ slice_to k s -> x ∈ s.
Proof.
  intros Hx. rewrite <- (slice_split k s). apply elem_of_app. by left.
Qed.

(** The test runs: the stripped prefix is encoded and decoded back. *)
Lemma sample_encoding_test_ok (data : str) :
  let text := strip (slice_to 100 data) in
  exists ids,
    Prepare.encode data text = Ok ids /\
    Prepare.decode data ids = Ok text /\
    Prepare.sample_encoding_test data
    = Ok {| Prepare.test_text := text; Prepare.test_encoded := ids;
            Prepare.test_decoded := text; Prepare.test_match := true |}.
Proof.
  intros text.
  destruct (encode_total data text) as (ids & He & Hf).
  { intros c Hc. eapply elem_of_slice_to, elem_of_strip, Hc. }
  pose proof (decode_of_encoded data _ _ Hf) as Hd.
  exists ids. split; [done|]. split; [done|].
  unfold Prepare.sample_encoding_test. fold text. rewrite He. simpl.
  rewrite Hd. simpl. by rewrite bool_decide_eq_true_2.
Qed.

(** *** The split *)

Lemma split_of_point (data : str) k :
  Prepare.int_mul_0_9 (len data) = Ok k ->
  Prepare.train_data data = Ok (slice_to k data) /\
  Prepare.val_data data = Ok (slice_from k data).
Proof.
  intros Hk. unfold Prepare.train_data, Prepare.val_data, Prepare.n.
  by rewrite Hk.
Qed.

(** C3, as the code has it. For every corpus (of a length [n] a Python
    string can have) the split is computed, the two parts make up the corpus
    and [len(train) + len(val) == n]; and [len(train)] is the floor of
    [9n/10] whenever [n < 1250999896491811]. *)
Theorem split_lengths (data : str) :
  len data <= Prepare.sys_maxsize ->
  exists train val,
    Prepare.train_data data = Ok train /\
    Prepare.val_data data = Ok val /\
    train ++ val = data /\
    len train + len val = len data /\
    (len data < 1250999896491811 -> len train = 9 * len data / 10).
Proof.
  intros Hmax. pose proof (len_nonneg data) as H0.
  destruct (int_mul_0_9_total (len data)) as (k & Hk & Hk0); [lia|].
  destruct (split_of_point data k Hk) as [Ht Hv].
  exists (slice_to k data), (slice_from k data).
  split; [done|]. split; [done|].
  split; [apply slice_split|]. split.
  - by rewrite <- len_app, slice_split.
  - intros Hsmall. rewrite int_mul_0_9_floor in Hk by lia.
    injection Hk as <-. apply len_slice_to.
    pose proof (Z.mul_div_le (9 * len data) 10).
    split; [apply Z.div_pos; lia|]. apply Z.div_le_upper_bound; lia.
Qed.

Lemma split_lengths_witness :
  exists train val,
    Prepare.train_data (lit "aabc") = Ok train /\
    Prepare.val_data (lit "aabc") = Ok val /\
    train ++ val = lit "aabc" /\
    len train + len val = len (lit "aabc") /\
    (len (lit "aabc") < 1250999896491811 ->
     len train = 9 * len (lit "aabc") / 10).
Proof.
  apply (split_lengths (lit "aabc")). by vm_compute.
Defined.

Lemma len_replicate {A} (k : Z) (x : A) :
  0 <= k -> len (replicate (Z.to_nat k) x) = k.
Proof. intros Hk. unfold len. rewrite length_replicate. apply Z2Nat.id, Hk. Qed.

(** A corpus of that length: one character, repeated. *)
Lemma long_corpus : exists data : str, len data = 1250999896491811.
Proof.
  exists (replicate (Z.to_nat 1250999896491811) 0%N).
  apply len_replicate. discriminate.
Qed.

Lemma int_mul_0_9_above :
  Prepare.int_mul_0_9 1250999896491811 = Ok 1125899906842630.
Proof. by vm_compute. Qed.

(** C3 as stated fails: for a corpus of 1250999896491811 characters the
    double [n*0.9] is rounded up to the next integer, and the training part
    has one character more than the floor of [9n/10]. *)
Lemma split_floor_counterexample :
  ~ (forall data : str,
       len data <= Prepare.sys_maxsize ->
       exists train val,
         Prepare.train_data data = Ok train /\
         Prepare.val_data data = Ok val /\
         len train + len val = len data /\
         len train = 9 * len data / 10).
Proof.
  intros H. destruct long_corpus as [data Hlen].
  destruct (H data) as (train & val & Ht & _ & _ & Hfloor).
  { rewrite Hlen. by vm_compute. }
  destruct (split_of_point data 1125899906842630) as [Ht' _].
  { rewrite Hlen. exact int_mul_0_9_above. }
  rewrite Ht' in Ht. injection Ht as <-.
  rewrite len_slice_to, Hlen in Hfloor by (rewrite Hlen; lia).
  revert Hfloor. by vm_compute.
Qed.

(** *** The script as a whole *)

(** On a corpus that is not empty the script runs to the end. *)
Lemma prepare_runs (data : str) :
  data <> [] ->
  len data <= Prepare.sys_maxsize ->
  let text := strip (slice_to 100 data) in
  exists k train_ids val_ids test_ids,
    Prepare.int_mul_0_9 (len data) = Ok k /\
    Prepare.encode data (slice_to k data) = Ok train_ids /\
    Prepare.encode data (slice_from k data) = Ok val_ids /\
    Prepare.encode data text = Ok test_ids /\
    Prepare.decode data test_ids = Ok text /\
    Prepare.prepare data
    = Ok {| Prepare.train_bin :=
              Prepare.tofile (Prepare.np_array_uint16 train_ids);
            Prepare.val_bin :=
              Prepare.tofile (Prepare.np_array_uint16 val_ids);
            Prepare.meta_vocab_size := Prepare.vocab_size data;
            Prepare.meta_itos := Prepare.itos data;
            Prepare.meta_stoi := Prepare.stoi data;
            Prepare.meta_total_chars := len data;
            Prepare.meta_train_chars := len (slice_to k data);
            Prepare.meta_val_chars := len (slice_from k data);
            Prepare.summary_test :=
              {| Prepare.test_text := text; Prepare.test_encoded := test_ids;
                 Prepare.test_decoded := text; Prepare.test_match := true |} |}.
Proof.
  intros Hne Hmax text. pose proof (len_nonneg data) as H0.
  assert (Prepare.split_percentages data = Ok ()) as Hpct.
  { unfold Prepare.split_percentages, Prepare.n, len.
    destruct data; [done|]. simpl length.
    by destruct (Z.eqb_spec (Z.of_nat (S (length data))) 0); [lia|]. }
  destruct (int_mul_0_9_total (len data)) as (k & Hk & _); [lia|].
  destruct (split_of_point data k Hk) as [Ht Hval].
  pose proof (slice_split k data) as Happ.
  destruct (encode_total data (slice_to k data)) as (tids & Het & _).
  { intros c Hc. rewrite <- Happ. apply elem_of_app. by left. }
  destruct (encode_total data (slice_from k data)) as (vids & Hev & _).
  { intros c Hc. rewrite <- Happ. apply elem_of_app. by right. }
  destruct (sample_encoding_test_ok data) as (ids & He & Hd & Hs).
  exists k, tids, vids, ids. do 5 (split; [done|]).
  unfold Prepare.prepare. rewrite Ht, Hval. simpl. rewrite Hpct. simpl.
  rewrite Het. simpl. rewrite Hev. simpl. by rewrite Hs.
Qed.

(** On the empty corpus it stops at the percentages of the split. *)
Example prepare_empty : Prepare.prepare [] = Raise ZeroDivisionError.
Proof. by vm_compute. Qed.

(** With at most 65536 distinct characters the two [.bin] files read back
    as the ids of the two parts. *)
Lemma prepare_bins (data : str) :
  data <> [] ->
  len data <= Prepare.sys_maxsize ->
  Prepare.vocab_size data <= 65536 ->
  exists p train val train_ids val_ids,
    Prepare.prepare data = Ok p /\
    Prepare.train_data data = Ok train /\
    Prepare.val_data data = Ok val /\
    Prepare.encode data train = Ok train_ids /\
    Prepare.encode data val = Ok val_ids /\
    Prepare.fromfile (Prepare.train_bin p) = train_ids /\
    Prepare.fromfile (Prepare.val_bin p) = val_ids.
Proof.
  intros Hne Hmax Hv.
  destruct (prepare_runs data Hne Hmax)
    as (k & tids & vids & ids & Hk & Het & Hev & _ & _ & ->).
  destruct (split_of_point data k Hk) as [Ht Hval].
  destruct (uint16_roundtrip _ _ (encode_range data _ tids Het) Hv) as [_ Htb].
  destruct (uint16_roundtrip _ _ (encode_range data _ vids Hev) Hv) as [_ Hvb].
  eexists _, _, _, tids, vids. split; [reflexivity|]. by repeat split.
Qed.

(** C7, as the code has it. For every corpus that is not empty (within
    [sys.maxsize] characters, and with at most 65536 distinct characters, so
    that every id fits the 16-bit arrays), the script reaches the summary;
    the test text of its self-check is the first 100 characters of the
    corpus with leading and trailing whitespace stripped;
    it is encoded, the result is decoded, and the comparison of the test
    text with the decoded text reported in the summary is [True]. *)
Theorem sample_test_matches (data : str) :
  data <> [] ->
  len data <= Prepare.sys_maxsize ->
  Prepare.vocab_size data <= 65536 ->
  exists p,
    Prepare.prepare data = Ok p /\
    let t := Prepare.summary_test p in
    Prepare.test_text t = strip (slice_to 100 data) /\
    Prepare.encode data (Prepare.test_text t) = Ok (Prepare.test_encoded t) /\
    Prepare.decode data (Prepare.test_encoded t) = Ok (Prepare.test_decoded t) /\
    Prepare.test_decoded t = Prepare.test_text t /\
    Prepare.test_match t = true.
Proof.
  intros Hne Hmax _.
  destruct (prepare_runs data Hne Hmax)
    as (k & tids & vids & ids & _ & _ & _ & He & Hd & ->).
  eexists. split; [reflexivity|]. by simpl.
Qed.

Lemma sample_test_matches_witness :
  exists p,
    Prepare.prepare (lit "aabc") = Ok p /\
    let t := Prepare.summary_test p in
    Prepare.test_text t = strip (slice_to 100 (lit "aabc")) /\
    Prepare.encode (lit "aabc") (Prepare.test_text t)
      = Ok (Prepare.test_encoded t) /\
    Prepare.decode (lit "aabc") (Prepare.test_encoded t)
      = Ok (Prepare.test_decoded t) /\
    Prepare.test_decoded t = Prepare.test_text t /\
    Prepare.test_match t = true.
Proof.
  apply (sample_test_matches (lit "aabc")).
  - discriminate.
  - by vm_compute.
  - by vm_compute.
Defined.

(** C7 as stated fails: on a corpus that starts with a newline, as every
    consolidated file does, the test text is not the prefix of the corpus,
    also for a small vocabulary. *)
Lemma sample_test_not_prefix :
  ~ (forall data : str,
       data <> [] ->
       len data <= Prepare.sys_maxsize ->
       Prepare.vocab_size data <= 65536 ->
       exists p,
         Prepare.prepare data = Ok p /\
         Prepare.test_text (Prepare.summary_test p) = slice_to 100 data /\
         Prepare.test_match (Prepare.summary_test p) = true).
Proof.
  intros H. destruct (H (10%N :: lit "ab")) as (p & Hp & Htext & _).
  - discriminate.
  - by vm_compute.
  - by vm_compute.
  - vm_compute in Hp. injection Hp as <-. vm_compute in Htext. discriminate.
Qed.

(** ** The consolidation of combine_extracted_texts.py *)

Section ScanFacts.
Variable base : str.

Lemma scan_omap iterdir :
  Combine.scan base iterdir = omap (Combine.scan_item base) iterdir.
Proof.
  unfold Combine.scan.
  enough (forall acc,
            foldl (fun text_files item =>
                     match Combine.scan_item base item with
                     | Some doc => text_files ++ [doc]
                     | None => text_files
                     end) acc iterdir
            = acc ++ omap (Combine.scan_item base) iterdir) as H
    by apply (H []).
  induction iterdir as [|item l IH]; intros acc; simpl.
  - by rewrite app_nil_r.
  - rewrite IH. destruct (Combine.scan_item base item); [|done].
    by rewrite <- app_assoc.
Qed.

Lemma scan_item_discovered item :
  Combine.discovered item = true ->
  exists p, Combine.scan_item base item = Some (Combine.name item, p).
Proof.
  unfold Combine.discovered, Combine.scan_item.
  destruct (Combine.is_dir item); [|done].
  destruct (Combine.text_file item); [eauto|].
  simpl. intros Hd.
  first [discriminate | apply bool_decide_eq_true in Hd as [? ?]; done].
Qed.

Lemma scan_item_not_discovered item :
  Combine.discovered item <> true -> Combine.scan_item base item = None.
Proof.
  unfold Combine.discovered, Combine.scan_item.
  destruct (Combine.is_dir item); [|done].
  destruct (Combine.text_file item); [|done].
  simpl. intros Hd. exfalso. apply Hd.
  first [reflexivity | apply bool_decide_eq_true; eauto].
Qed.

Lemma scan_names iterdir :
  (Combine.scan base iterdir).*1
  = Combine.name <$> filter (fun item => Combine.discovered item = true) iterdir.
Proof.
  rewrite scan_omap. induction iterdir as [|item l IH]; [done|].
  rewrite filter_cons.
  destruct (decide (Combine.discovered item = true)) as [Hd|Hd].
  - destruct (scan_item_discovered item Hd) as [p Hp].
    simpl. rewrite Hp. simpl. f_equal. exact IH.
  - simpl. rewrite (scan_item_not_discovered item Hd). exact IH.
Qed.

Lemma scan_Permutation l1 l2 :
  l1 ≡ₚ l2 -> Combine.scan base l1 ≡ₚ Combine.scan base l2.
Proof. intros HP. rewrite !scan_omap. by rewrite HP. Qed.

Lemma scan_names_NoDup iterdir :
  NoDup (Combine.name <$> iterdir) -> NoDup ((Combine.scan base iterdir).*1).
Proof.
  intros Hn. rewrite scan_names.
  eapply sublist_NoDup; [exact Hn|].
  apply fmap_sublist, sublist_filter.
Qed.

Lemma find_names_Permutation iterdir :
  (Combine.find_extracted_text_files base iterdir).*1
  ≡ₚ Combine.name <$> filter (fun item => Combine.discovered item = true) iterdir.
Proof.
  unfold Combine.find_extracted_text_files.
  rewrite sort_by_perm. by rewrite scan_names.
Qed.

Lemma find_sorted iterdir :
  NoDup (Combine.name <$> iterdir) ->
  StronglySorted (key_lt fst str_leb)
    (Combine.find_extracted_text_files base iterdir).
Proof.
  intros Hn. unfold Combine.find_extracted_text_files.
  apply sorted_strict.
  - apply sort_by_sorted; [apply str_leb_total | apply str_leb_trans].
  - rewrite sort_by_perm. by apply scan_names_NoDup.
Qed.

(** The list found does not depend on the order of enumeration. *)
Lemma find_order_independent l1 l2 :
  NoDup (Combine.name <$> l1) -> l1 ≡ₚ l2 ->
  Combine.find_extracted_text_files base l1
  = Combine.find_extracted_text_files base l2.
Proof.
  intros Hn HP.
  apply (strict_sorted_unique fst str_leb str_leb_antisym).
  - by apply find_sorted.
  - apply find_sorted. by rewrite <- HP.
  - unfold Combine.find_extracted_text_files.
    rewrite !sort_by_perm. by apply scan_Permutation.
Qed.

End ScanFacts.

Lemma enumerate_cons {A} (start : Z) (x : A) (l : list A) :
  enumerate start (x :: l) = (start, x) :: enumerate (start + 1) l.
Proof.
  unfold enumerate. rewrite imap_cons. f_equal; [f_equal; lia|].
  apply imap_ext. intros i y _. simpl. f_equal. lia.
Qed.

Lemma enumerate_app {A} (start : Z) (l k : list A) :
  enumerate start (l ++ k) = enumerate start l ++ enumerate (start + len l) k.
Proof.
  revert start. induction l as [|x l IH]; intros start.
  - simpl. unfold len. simpl. by rewrite Z.add_0_r.
  - rewrite <- app_comm_cons, !enumerate_cons, IH. simpl. do 3 f_equal.
    unfold len. simpl length. lia.
Qed.

Lemma combine_loop_spec text_files :
  Combine.combine_loop text_files
  = (enumerate 1 text_files ≫= Combine.doc_chunks,
     foldr Z.add 0 (Combine.doc_chars <$> enumerate 1 text_files)).
Proof.
  unfold Combine.combine_loop.
  enough (forall l acc,
    foldl (fun (acc : list Combine.chunk * Z) (idoc : Z * (str * Combine.path)) =>
             let '(i, (dir_name, file_path)) := idoc in
             let '(chunks, n) := Combine.combine_one i dir_name file_path in
             (acc.1 ++ chunks, acc.2 + n)) acc l
    = (acc.1 ++ (l ≫= Combine.doc_chunks),
       acc.2 + foldr Z.add 0 (Combine.doc_chars <$> l))) as H.
  { rewrite H. simpl. done. }
  induction l as [|[i [d f]] l IH]; intros [chunks n]; simpl.
  - by rewrite app_nil_r, Z.add_0_r.
  - rewrite IH. unfold Combine.doc_chunks at 2, Combine.doc_chars at 2. simpl.
    destruct (Combine.combine_one i d f) as [c m]. simpl.
    f_equal; [by rewrite <- app_assoc | by rewrite Z.add_assoc].
Qed.

Lemma combine_output text_files t0 t1 :
  text_files <> [] ->
  Combine.combine_text_files text_files t0 t1
  = {| Combine.outfile :=
         Some ([Combine.Header t0 (len text_files)]
               ++ (enumerate 1 text_files ≫= Combine.doc_chunks)
               ++ [Combine.Footer (len text_files)
                     (foldr Z.add 0 (Combine.doc_chars <$> enumerate 1 text_files))
                     t1]);
       Combine.ret :=
         Combine.RetTuple true
           (foldr Z.add 0 (Combine.doc_chars <$> enumerate 1 text_files)) |}.
Proof.
  intros Hne. unfold Combine.combine_text_files.
  destruct text_files as [|doc l]; [done|].
  by rewrite combine_loop_spec.
Qed.

(** Every document gets one block, a header or an error line, in the order
    of the list. *)
Lemma document_blocks_loop start text_files :
  Combine.document_blocks (enumerate start text_files ≫= Combine.doc_chunks)
  = text_files.*1.
Proof.
  revert start. induction text_files as [|[d f] l IH]; intros start; [done|].
  rewrite enumerate_cons, bind_cons. unfold Combine.document_blocks in *.
  rewrite bind_app, IH. rewrite fmap_cons. simpl.
  unfold Combine.doc_chunks, Combine.combine_one. simpl.
  by destruct (Combine.read (Combine.target f)).
Qed.

(** The header blocks are those of the readable documents. *)
Lemma header_blocks_loop start text_files :
  Combine.block_name <$>
    Combine.header_blocks (enumerate start text_files ≫= Combine.doc_chunks)
  = (filter (fun doc => Combine.readable doc = true) text_files).*1.
Proof.
  revert start. induction text_files as [|[d f] l IH]; intros start; [done|].
  rewrite enumerate_cons, bind_cons. unfold Combine.header_blocks in *.
  rewrite bind_app, fmap_app, IH, filter_cons.
  unfold Combine.doc_chunks, Combine.combine_one. simpl.
  destruct (Combine.read (Combine.target f)) eqn:E; simpl.
  - rewrite decide_True by (unfold Combine.readable; simpl; by rewrite E).
    done.
  - rewrite decide_False by (unfold Combine.readable; simpl; by rewrite E).
    done.
Qed.

Lemma blocks_of_outfile t0 t1 n total chunks :
  Combine.document_blocks
    ([Combine.Header t0 n] ++ chunks ++ [Combine.Footer n total t1])
  = Combine.document_blocks chunks /\
  Combine.header_blocks
    ([Combine.Header t0 n] ++ chunks ++ [Combine.Footer n total t1])
  = Combine.header_blocks chunks.
Proof.
  unfold Combine.document_blocks, Combine.header_blocks.
  rewrite !bind_app. simpl. by rewrite !app_nil_r.
Qed.

Lemma find_names_sorted base iterdir :
  NoDup (Combine.name <$> iterdir) ->
  StronglySorted str_lt (Combine.find_extracted_text_files base iterdir).*1.
Proof.
  intros Hn. eapply StronglySorted_fmap; [|by apply find_sorted].
  intros x y [Hle Hne]. by split.
Qed.

(** *** Text that occurs in a text *)

Lemma startswith_app (sub rest : str) : startswith (sub ++ rest) sub = true.
Proof.
  induction sub as [|c sub IH]; [by destruct rest|].
  cbn [app startswith]. by rewrite N.eqb_refl, IH.
Qed.

Lemma startswith_app_r (s sub rest : str) :
  startswith s sub = true -> startswith (s ++ rest) sub = true.
Proof.
  revert s. induction sub as [|c sub IH]; intros s;
    [intros _; destruct s, rest; reflexivity|].
  destruct s as [|d s]; [done|]. cbn [app startswith].
  intros [-> H]%andb_true_iff. by rewrite (IH _ H).
Qed.

Lemma contains_app_l (a s sub : str) :
  contains s sub = true -> contains (a ++ s) sub = true.
Proof.
  intros H. induction a as [|c a IH]; [done|].
  cbn [app contains]. rewrite IH. apply orb_true_r.
Qed.

Lemma contains_here (s sub : str) :
  startswith s sub = true -> contains s sub = true.
Proof. intros H. destruct s; cbn [contains]; by rewrite H. Qed.

Lemma contains_app_r (s b sub : str) :
  contains s sub = true -> contains (s ++ b) sub = true.
Proof.
  induction s as [|c s IH].
  - cbn [contains]. rewrite orb_false_r. intros H.
    apply contains_here. by apply startswith_app_r.
  - cbn [app contains]. intros [H|H]%orb_true_iff.
    + pose proof (startswith_app_r (c :: s) sub b H) as H'.
      cbn [app] in H'. by rewrite H'.
    + rewrite (IH H). apply orb_true_r.
Qed.

Lemma contains_mid (a sub b : str) : contains (a ++ sub ++ b) sub = true.
Proof. apply contains_app_l, contains_here, startswith_app. Qed.

Lemma contains_self (s : str) : contains s s = true.
Proof.
  apply contains_here. pose proof (startswith_app s []) as H.
  by rewrite app_nil_r in H.
Qed.

Lemma contains_within (a s b sub : str) :
  contains s sub = true -> contains (a ++ s ++ b) sub = true.
Proof. intros H. by apply contains_app_l, contains_app_r. Qed.

Lemma contains_mjoin (l : list str) (x sub : str) :
  x ∈ l -> contains x sub = true -> contains (mjoin l) sub = true.
Proof.
  intros (l1 & l2 & ->)%list_elem_of_split H.
  rewrite join_app. change (mjoin (x :: l2)) with (x ++ mjoin l2).
  by apply contains_within.
Qed.

(** The blocks of the documents before document [k], its own block, and the
    blocks of the documents after it. *)
Lemma loop_middle (text_files : list (str * Combine.path)) (k : nat) doc :
  text_files !! k = Some doc ->
  enumerate 1 text_files ≫= Combine.doc_chunks
  = (enumerate 1 (take k text_files) ≫= Combine.doc_chunks)
    ++ Combine.doc_chunks (Z.of_nat k + 1, doc)
    ++ (enumerate (Z.of_nat k + 2) (drop (S k) text_files) ≫= Combine.doc_chunks).
Proof.
  intros Hk. pose proof (lookup_lt_Some _ _ _ Hk) as Hlt.
  rewrite <- (take_drop_middle _ _ _ Hk) at 1.
  rewrite enumerate_app, enumerate_cons, bind_app, bind_cons.
  assert (len (take k text_files) = Z.of_nat k) as ->
    by (unfold len; rewrite length_take; lia).
  replace (1 + Z.of_nat k) with (Z.of_nat k + 1) by lia.
  by replace (Z.of_nat k + 1 + 1) with (Z.of_nat k + 2) by lia.
Qed.

(** *** The text of the two artifacts *)

Lemma file_text_within (pre mid post : list Combine.chunk) (sub : str) :
  contains (Combine.file_text mid) sub = true ->
  contains (Combine.file_text (pre ++ mid ++ post)) sub = true.
Proof.
  intros H. unfold Combine.file_text in *. rewrite !fmap_app, !join_app.
  by apply contains_within.
Qed.

(** What the loop writes for a document is part of the consolidated
    file. *)
Lemma doc_text_in_file (text_files : list (str * Combine.path)) (k : nat) doc
    (t0 t1 : str) (n total : Z) (sub : str) :
  text_files !! k = Some doc ->
  contains (Combine.file_text (Combine.doc_chunks (Z.of_nat k + 1, doc))) sub
    = true ->
  contains
    (Combine.file_text
       ([Combine.Header t0 n] ++ (enumerate 1 text_files ≫= Combine.doc_chunks)
        ++ [Combine.Footer n total t1])) sub = true.
Proof.
  intros Hk H. rewrite (loop_middle _ _ _ Hk).
  replace ([Combine.Header t0 n]
           ++ ((enumerate 1 (take k text_files) ≫= Combine.doc_chunks)
               ++ Combine.doc_chunks (Z.of_nat k + 1, doc)
               ++ (enumerate (Z.of_nat k + 2) (drop (S k) text_files)
                     ≫= Combine.doc_chunks))
           ++ [Combine.Footer n total t1])
    with (([Combine.Header t0 n]
           ++ (enumerate 1 (take k text_files) ≫= Combine.doc_chunks))
          ++ Combine.doc_chunks (Z.of_nat k + 1, doc)
          ++ ((enumerate (Z.of_nat k + 2) (drop (S k) text_files)
                 ≫= Combine.doc_chunks)
              ++ [Combine.Footer n total t1]))
    by (by rewrite <- !app_assoc).
  by apply file_text_within.
Qed.

(** The section of a document whose file holds some text. *)
Lemma section_text (i : Z) (dir_name : str) (p : Combine.path) (raw : str) :
  Combine.read (Combine.target p) = Ok raw -> strip raw <> [] ->
  Combine.file_text (Combine.doc_chunks (i, (dir_name, p)))
  = nl ++ rule "=" 80 ++ nl
    ++ lit "DOCUMENT " ++ format_int i ++ lit ": " ++ dir_name ++ nl
    ++ rule "=" 80 ++ nl
    ++ lit "Source File: " ++ Combine.path_str p ++ nl
    ++ lit "Characters: " ++ format_commas (len (strip raw)) ++ nl
    ++ rule "=" 80 ++ nl ++ nl
    ++ strip raw ++ nl ++ nl.
Proof.
  intros Hread Hne. unfold Combine.doc_chunks, Combine.combine_one.
  cbn [fst snd]. rewrite Hread. cbv zeta.
  destruct (strip raw) as [|ch r] eqn:E; [done|]. cbn [fst].
  unfold Combine.file_text. rewrite !fmap_cons, fmap_nil.
  change (mjoin [?a; ?b; ?c]) with (a ++ b ++ c ++ []).
  unfold Combine.render. rewrite app_nil_r, <- !app_assoc. reflexivity.
Qed.

(** The section of a document whose file holds no text. *)
Lemma placeholder_section_text (i : Z) (dir_name : str) (p : Combine.path)
    (raw : str) :
  Combine.read (Combine.target p) = Ok raw -> strip raw = [] ->
  Combine.file_text (Combine.doc_chunks (i, (dir_name, p)))
  = nl ++ rule "=" 80 ++ nl
    ++ lit "DOCUMENT " ++ format_int i ++ lit ": " ++ dir_name ++ nl
    ++ rule "=" 80 ++ nl
    ++ lit "Source File: " ++ Combine.path_str p ++ nl
    ++ lit "Characters: 23" ++ nl
    ++ rule "=" 80 ++ nl ++ nl
    ++ lit "[No text content found]" ++ nl ++ nl.
Proof.
  intros Hread He. unfold Combine.doc_chunks, Combine.combine_one.
  cbn [fst snd]. rewrite Hread. cbv zeta. rewrite He. cbn [fst].
  unfold Combine.file_text. rewrite !fmap_cons, fmap_nil.
  change (mjoin [?a; ?b; ?c]) with (a ++ b ++ c ++ []).
  unfold Combine.render.
  change (format_commas (len Combine.placeholder)) with (lit "23").
  change (lit "Characters: 23") with (lit "Characters: " ++ lit "23").
  rewrite app_nil_r, <- !app_assoc. reflexivity.
Qed.

(** The line of a document whose file cannot be read. *)
Lemma error_line_text (i : Z) (dir_name : str) (p : Combine.path) (msg : str) :
  Combine.read (Combine.target p) = Raise (Error msg) ->
  Combine.file_text (Combine.doc_chunks (i, (dir_name, p)))
  = [10060%N] ++ lit " Error processing " ++ dir_name ++ lit ": " ++ msg
    ++ nl ++ nl.
Proof.
  intros Hread. unfold Combine.doc_chunks, Combine.combine_one.
  cbn [fst snd]. rewrite Hread. cbn [fst].
  unfold Combine.file_text. rewrite fmap_cons, fmap_nil.
  change (mjoin [?a]) with (a ++ []).
  unfold Combine.render, str_of_exn. rewrite app_nil_r. reflexivity.
Qed.

Lemma header_line_in_file (t0 : str) (n : Z) (rest : list Combine.chunk) :
  contains (Combine.file_text (Combine.Header t0 n :: rest))
    (lit "Total documents: " ++ format_int n ++ nl) = true.
Proof.
  change (Combine.file_text (Combine.Header t0 n :: rest))
    with (Combine.render (Combine.Header t0 n) ++ Combine.file_text rest).
  apply contains_app_r.
  assert (Combine.render (Combine.Header t0 n)
          = (nl ++ rule "=" 80 ++ nl ++ lit "CONSOLIDATED EXTRACTED TEXT" ++ nl
             ++ rule "=" 80 ++ nl ++ lit "Generated: " ++ t0 ++ nl
             ++ lit "Source: Google Cloud Vision OCR" ++ nl)
            ++ (lit "Total documents: " ++ format_int n ++ nl)
            ++ (rule "=" 80 ++ nl ++ nl)) as ->
    by (unfold Combine.render; rewrite <- !app_assoc; reflexivity).
  apply contains_mid.
Qed.

Lemma footer_line_in_file (pre : list Combine.chunk) (n total : Z) (t1 : str) :
  contains (Combine.file_text (pre ++ [Combine.Footer n total t1]))
    (lit "Total documents processed: " ++ format_int n ++ nl
     ++ lit "Total characters: " ++ format_commas total ++ nl) = true.
Proof.
  unfold Combine.file_text. rewrite fmap_app, join_app.
  apply contains_app_l.
  change (mjoin (Combine.render <$> [Combine.Footer n total t1]))
    with (Combine.render (Combine.Footer n total t1) ++ []).
  apply contains_app_r.
  assert (Combine.render (Combine.Footer n total t1)
          = (nl ++ rule "=" 80 ++ nl ++ lit "CONSOLIDATION COMPLETE" ++ nl
             ++ rule "=" 80 ++ nl)
            ++ (lit "Total documents processed: " ++ format_int n ++ nl
                ++ lit "Total characters: " ++ format_commas total ++ nl)
            ++ (lit "Generated: " ++ t1 ++ nl ++ rule "=" 80 ++ nl)) as ->
    by (unfold Combine.render; rewrite <- !app_assoc; reflexivity).
  apply contains_mid.
Qed.

(** The entry of a document in the summary report is part of its text, and
    so is the line of the total. *)
Lemma summary_entry_in_report (text_files : list (str * Combine.path))
    (k : nat) (dir_name : str) (p : Combine.path)
    (output_file : str) (total : Z) (t2 sub : str) :
  text_files !! k = Some (dir_name, p) ->
  contains (Combine.render_summary
              (Combine.summary_one (Z.of_nat k + 1) dir_name p)) sub = true ->
  contains
    (Combine.summary_text
       (Combine.generate_summary_report text_files output_file total t2)) sub
    = true.
Proof.
  intros Hk H. unfold Combine.summary_text.
  apply (contains_mjoin _ (Combine.render_summary
                             (Combine.summary_one (Z.of_nat k + 1) dir_name p)));
    [|done].
  apply list_elem_of_fmap. eexists. split; [reflexivity|].
  unfold Combine.generate_summary_report. apply elem_of_app. right.
  apply list_elem_of_fmap. exists (Z.of_nat k + 1, (dir_name, p)).
  split; [done|]. apply elem_of_enumerate. exists k. split; [lia|done].
Qed.

Lemma summary_total_in_report (text_files : list (str * Combine.path))
    (output_file : str) (total : Z) (t2 : str) :
  contains
    (Combine.summary_text
       (Combine.generate_summary_report text_files output_file total t2))
    (lit "Total documents: " ++ format_int (len text_files) ++ nl) = true.
Proof.
  unfold Combine.summary_text.
  apply (contains_mjoin _ (Combine.render_summary
                             (Combine.SumTotalDocuments (len text_files)))).
  - apply list_elem_of_fmap. eexists. split; [reflexivity|].
    unfold Combine.generate_summary_report. apply elem_of_app. left.
    set_solver.
  - unfold Combine.render_summary. apply contains_here.
    pose proof (startswith_app
                  (lit "Total documents: " ++ format_int (len text_files) ++ nl)
                  []) as H.
    by rewrite app_nil_r in H.
Qed.

Lemma summary_entry_text (i : Z) (dir_name : str) (p : Combine.path)
    (raw : str) :
  Combine.read (Combine.target p) = Ok raw ->
  Combine.render_summary (Combine.summary_one i dir_name p)
  = pad_left 2 32%N (format_int i) ++ lit ". " ++ dir_name ++ nl
    ++ lit "    File: " ++ Combine.path_str p ++ nl
    ++ lit "    Size: " ++ format_commas (Combine.st_size (Combine.target p))
    ++ lit " bytes" ++ nl
    ++ lit "    Characters: " ++ format_commas (len raw) ++ nl ++ nl.
Proof. intros Hread. unfold Combine.summary_one. by rewrite Hread. Qed.

Lemma summary_error_text (i : Z) (dir_name : str) (p : Combine.path)
    (msg : str) :
  Combine.read (Combine.target p) = Raise (Error msg) ->
  Combine.render_summary (Combine.summary_one i dir_name p)
  = pad_left 2 32%N (format_int i) ++ lit ". " ++ dir_name
    ++ lit " - ERROR: " ++ msg ++ nl ++ nl.
Proof. intros Hread. unfold Combine.summary_one. by rewrite Hread. Qed.

(** The text is [a], then [sub], then [b]. *)
Ltac in_text a b :=
  match goal with
  | |- contains ?t ?sub = true =>
      replace t with (a ++ sub ++ b)
        by (rewrite <- ?app_assoc; reflexivity);
      apply contains_mid
  end.

Lemma writable_lookup (text_files : list (str * Combine.path)) (k : nat) doc :
  Forall (fun doc => Combine.writable_doc doc = true) text_files ->
  text_files !! k = Some doc ->
  match Combine.read (Combine.target doc.2) with
  | Ok raw => True
  | Raise e => exists msg, e = Error msg
  end.
Proof.
  intros Hw Hk. pose proof (Forall_lookup_1 _ _ _ _ Hw Hk) as H.
  unfold Combine.writable_doc in H.
  destruct (Combine.read (Combine.target doc.2)) as [raw|e]; [done|].
  destruct e; try (by rewrite andb_false_r in H). by eexists.
Qed.

(** C5, as the code has it. The documents found are the subdirectories that
    hold the combined text file, in strictly ascending lexicographic order
    of their names, whatever the order of enumeration. When the names and
    the texts can be written (no surrogate), the consolidated file has
    exactly one block per document found, in that order: a header block
    when the file of the document was read, and the error line otherwise;
    the text of the file has the first line of that block, with the index
    and the name of the document. *)
Theorem consolidation_order (iterdir : list Combine.dirent) (t0 t1 : str) :
  NoDup (Combine.name <$> iterdir) ->
  Forall (fun doc => Combine.writable_doc doc = true)
    (Combine.find_extracted_text_files Combine.base_dir iterdir) ->
  let text_files := Combine.find_extracted_text_files Combine.base_dir iterdir in
  text_files.*1
    ≡ₚ Combine.name <$> filter (fun item => Combine.discovered item = true) iterdir /\
  StronglySorted str_lt (text_files.*1) /\
  (forall iterdir', iterdir ≡ₚ iterdir' ->
     Combine.find_extracted_text_files Combine.base_dir iterdir' = text_files) /\
  (text_files <> [] ->
   exists out,
     Combine.outfile (Combine.combine_text_files text_files t0 t1) = Some out /\
     Combine.document_blocks out = text_files.*1 /\
     Combine.block_name <$> Combine.header_blocks out
       = (filter (fun doc => Combine.readable doc = true) text_files).*1 /\
     forall (k : nat) (dir_name : str) (p : Combine.path),
       text_files !! k = Some (dir_name, p) ->
       contains (Combine.file_text out)
         (if Combine.readable (dir_name, p)
          then lit "DOCUMENT " ++ format_int (Z.of_nat k + 1) ++ lit ": "
               ++ dir_name ++ nl
          else [10060%N] ++ lit " Error processing " ++ dir_name ++ lit ": ")
       = true).
Proof.
  intros Hn Hw text_files.
  split; [apply find_names_Permutation|].
  split; [by apply find_names_sorted|].
  split. { intros l' HP. symmetry. by apply find_order_independent. }
  intros Hne. rewrite (combine_output _ _ _ Hne).
  eexists. split; [reflexivity|].
  destruct (blocks_of_outfile t0 t1 (len text_files)
              (foldr Z.add 0 (Combine.doc_chars <$> enumerate 1 text_files))
              (enumerate 1 text_files ≫= Combine.doc_chunks)) as [-> ->].
  split; [apply document_blocks_loop|].
  split; [apply header_blocks_loop|].
  intros k dir_name p Hk. apply (doc_text_in_file _ _ _ _ _ _ _ _ Hk).
  pose proof (writable_lookup _ _ _ Hw Hk) as He.
  unfold Combine.readable. cbn [snd] in *.
  destruct (Combine.read (Combine.target p)) as [raw|e] eqn:Hread.
  - destruct (decide (strip raw = [])) as [Hs|Hs].
    + rewrite (placeholder_section_text _ _ _ _ Hread Hs).
      in_text (nl ++ rule "=" 80 ++ nl)
              (rule "=" 80 ++ nl ++ lit "Source File: " ++ Combine.path_str p
               ++ nl ++ lit "Characters: 23" ++ nl ++ rule "=" 80 ++ nl ++ nl
               ++ lit "[No text content found]" ++ nl ++ nl).
    + rewrite (section_text _ _ _ _ Hread Hs).
      in_text (nl ++ rule "=" 80 ++ nl)
              (rule "=" 80 ++ nl ++ lit "Source File: " ++ Combine.path_str p
               ++ nl ++ lit "Characters: " ++ format_commas (len (strip raw))
               ++ nl ++ rule "=" 80 ++ nl ++ nl ++ strip raw ++ nl ++ nl).
  - destruct He as [msg ->]. rewrite (error_line_text _ _ _ _ Hread).
    in_text ([] : str) (msg ++ nl ++ nl).
Qed.

Lemma consolidation_order_witness :
  let text_files :=
    Combine.find_extracted_text_files Combine.base_dir Combine.sample_iterdir in
  text_files.*1
    ≡ₚ Combine.name <$> filter (fun item => Combine.discovered item = true)
                          Combine.sample_iterdir /\
  StronglySorted str_lt (text_files.*1) /\
  (forall iterdir', Combine.sample_iterdir ≡ₚ iterdir' ->
     Combine.find_extracted_text_files Combine.base_dir iterdir' = text_files) /\
  (text_files <> [] ->
   exists out,
     Combine.outfile
       (Combine.combine_text_files text_files Combine.sample_time
          Combine.sample_time) = Some out /\
     Combine.document_blocks out = text_files.*1 /\
     Combine.block_name <$> Combine.header_blocks out
       = (filter (fun doc => Combine.readable doc = true) text_files).*1 /\
     forall (k : nat) (dir_name : str) (p : Combine.path),
       text_files !! k = Some (dir_name, p) ->
       contains (Combine.file_text out)
         (if Combine.readable (dir_name, p)
          then lit "DOCUMENT " ++ format_int (Z.of_nat k + 1) ++ lit ": "
               ++ dir_name ++ nl
          else [10060%N] ++ lit " Error processing " ++ dir_name ++ lit ": ")
       = true).
Proof.
  apply (consolidation_order Combine.sample_iterdir Combine.sample_time
           Combine.sample_time).
  - apply (bool_decide_unpack _). by vm_compute.
  - apply (bool_decide_unpack _). by vm_compute.
Defined.

(** The example of the specification: [b_doc], [a_doc], [c_doc] come out as
    [a_doc], [b_doc], [c_doc]. *)
Example sample_order :
  (Combine.find_extracted_text_files Combine.base_dir Combine.sample_iterdir).*1
  = [lit "a_doc"; lit "b_doc"; lit "c_doc"].
Proof. by vm_compute. Qed.

(** C5 as stated fails: a subdirectory whose text file cannot be read is
    found, but the consolidated file has the error line in place of its
    header block. *)
Lemma unreadable_document_without_header :
  ~ (forall (iterdir : list Combine.dirent) (t0 t1 : str),
       NoDup (Combine.name <$> iterdir) ->
       Forall (fun doc => Combine.writable_doc doc = true)
         (Combine.find_extracted_text_files Combine.base_dir iterdir) ->
       let text_files :=
         Combine.find_extracted_text_files Combine.base_dir iterdir in
       forall out,
         Combine.outfile (Combine.combine_text_files text_files t0 t1)
           = Some out ->
         Combine.block_name <$> Combine.header_blocks out = text_files.*1).
Proof.
  intros H.
  specialize (H [Combine.sample_dir "a_doc" (Some Combine.undecodable_file)]
                [] []).
  simpl in H. specialize (H ltac:(apply (bool_decide_unpack _); by vm_compute)).
  specialize (H ltac:(apply (bool_decide_unpack _); by vm_compute)).
  specialize (H _ eq_refl). vm_compute in H. discriminate.
Qed.

(** *** Empty documents *)

Lemma strip_parts s : exists p q, s = p ++ strip s ++ q.
Proof.
  destruct (lstrip_suffix s) as [p Hp].
  destruct (lstrip_suffix (rev (lstrip s))) as [q Hq].
  exists p, (rev q). unfold strip, rstrip.
  rewrite <- rev_app_distr, <- Hq, rev_involutive. exact Hp.
Qed.

Lemma strip_shorter s :
  len (strip s) <= len s /\ (strip s <> s -> len (strip s) < len s).
Proof.
  destruct (strip_parts s) as (p & q & E).
  assert (len s = len p + len (strip s) + len q) as Hl.
  { rewrite E at 1. rewrite !len_app. lia. }
  pose proof (len_nonneg p). pose proof (len_nonneg q).
  split; [lia|]. intros Hne.
  destruct p as [|c p]; [destruct q as [|c q]|].
  - exfalso. apply Hne. rewrite E at 2. by rewrite app_nil_r.
  - unfold len in *. simpl in *. lia.
  - unfold len in *. simpl in *. lia.
Qed.

Lemma file_text_app a b :
  Combine.file_text (a ++ b) = Combine.file_text a ++ Combine.file_text b.
Proof. unfold Combine.file_text. by rewrite fmap_app, join_app. Qed.

Lemma file_text_cons c l :
  Combine.file_text (c :: l) = Combine.render c ++ Combine.file_text l.
Proof. reflexivity. Qed.

Lemma render_content s : Combine.render (Combine.Content s) = s.
Proof. reflexivity. Qed.

(** C6. When the text file of a document is empty (or holds nothing but
    whitespace), and the names and texts of the documents can be written,
    the section of that document is written with the placeholder
    [[No text content found]] as its content, in the place the document has
    in the list: the text of the consolidated file has the section, with its
    header of index, name, path and the 23 characters of the placeholder.
    The document counts in the text of the header and of the footer of the
    consolidated file and in the text of the summary report are the number
    of documents found, this one included, and the text of the summary
    report has the entry of the document. *)
Theorem empty_document_placeholder
    (text_files : list (str * Combine.path)) (k : nat) (dir_name : str)
    (p : Combine.path) (raw t0 t1 t2 output_file : str) :
  text_files !! k = Some (dir_name, p) ->
  Combine.read (Combine.target p) = Ok raw ->
  strip raw = [] ->
  Forall (fun doc => Combine.writable_doc doc = true) text_files ->
  exists out total pre post,
    Combine.combine_text_files text_files t0 t1
      = {| Combine.outfile := Some out; Combine.ret := Combine.RetTuple true total |} /\
    out = [Combine.Header t0 (len text_files)] ++ pre
          ++ [Combine.Separator (Z.of_nat k + 1) dir_name (Combine.path_str p) 23;
              Combine.Content (lit "[No text content found]");
              Combine.Blank]
          ++ post ++ [Combine.Footer (len text_files) total t1] /\
    Combine.document_blocks pre = (take k text_files).*1 /\
    Combine.document_blocks post = (drop (S k) text_files).*1 /\
    (exists before after,
       Combine.file_text out = before ++ lit "[No text content found]" ++ after) /\
    contains (Combine.file_text out)
      (nl ++ rule "=" 80 ++ nl
       ++ lit "DOCUMENT " ++ format_int (Z.of_nat k + 1) ++ lit ": "
       ++ dir_name ++ nl
       ++ rule "=" 80 ++ nl
       ++ lit "Source File: " ++ Combine.path_str p ++ nl
       ++ lit "Characters: 23" ++ nl
       ++ rule "=" 80 ++ nl ++ nl
       ++ lit "[No text content found]" ++ nl ++ nl) = true /\
    contains (Combine.file_text out)
      (lit "Total documents: " ++ format_int (len text_files) ++ nl) = true /\
    contains (Combine.file_text out)
      (lit "Total documents processed: " ++ format_int (len text_files) ++ nl
       ++ lit "Total characters: " ++ format_commas total ++ nl) = true /\
    Z.of_nat k + 1 <= len text_files /\
    let report :=
      Combine.generate_summary_report text_files output_file total t2 in
    Combine.SumTotalDocuments (len text_files) ∈ report /\
    Combine.SumDocument (Z.of_nat k + 1) dir_name (Combine.path_str p)
      (Combine.st_size (Combine.target p)) (len raw) ∈ report /\
    contains (Combine.summary_text report)
      (lit "Total documents: " ++ format_int (len text_files) ++ nl) = true /\
    contains (Combine.summary_text report)
      (pad_left 2 32%N (format_int (Z.of_nat k + 1)) ++ lit ". " ++ dir_name
       ++ nl
       ++ lit "    File: " ++ Combine.path_str p ++ nl
       ++ lit "    Size: " ++ format_commas (Combine.st_size (Combine.target p))
       ++ lit " bytes" ++ nl
       ++ lit "    Characters: " ++ format_commas (len raw) ++ nl ++ nl) = true.
Proof.
  intros Hk Hread Hstrip _.
  assert (text_files <> []) as Hne by (intros ->; done).
  pose proof (lookup_lt_Some _ _ _ Hk) as Hlt.
  rewrite (combine_output _ _ _ Hne).
  set (total := foldr Z.add 0 (Combine.doc_chars <$> enumerate 1 text_files)).
  exists ([Combine.Header t0 (len text_files)]
            ++ (enumerate 1 text_files ≫= Combine.doc_chunks)
            ++ [Combine.Footer (len text_files) total t1]), total,
         (enumerate 1 (take k text_files) ≫= Combine.doc_chunks),
         (enumerate (Z.of_nat k + 2) (drop (S k) text_files)
            ≫= Combine.doc_chunks).
  pose proof (loop_middle _ _ _ Hk) as Hmid.
  assert (Combine.doc_chunks (Z.of_nat k + 1, (dir_name, p))
          = [Combine.Separator (Z.of_nat k + 1) dir_name (Combine.path_str p) 23;
             Combine.Content (lit "[No text content found]");
             Combine.Blank]) as Hdoc.
  { unfold Combine.doc_chunks, Combine.combine_one. cbn [fst snd].
    by rewrite Hread, Hstrip. }
  pose proof (placeholder_section_text (Z.of_nat k + 1) dir_name p raw
                Hread Hstrip) as Htext.
  split; [done|]. split.
  { rewrite Hmid, Hdoc. by rewrite <- !app_assoc. }
  split; [apply document_blocks_loop|].
  split; [apply document_blocks_loop|].
  split.
  { rewrite Hmid, Hdoc.
    exists (Combine.file_text [Combine.Header t0 (len text_files)]
            ++ Combine.file_text
                 (enumerate 1 (take k text_files) ≫= Combine.doc_chunks)
            ++ Combine.render
                 (Combine.Separator (Z.of_nat k + 1) dir_name
                    (Combine.path_str p) 23)),
           (Combine.file_text
              (Combine.Blank
               :: (enumerate (Z.of_nat k + 2)
                     (drop (S k) text_files) ≫= Combine.doc_chunks))
            ++ Combine.file_text [Combine.Footer (len text_files) total t1]).
    rewrite !file_text_app, !file_text_cons, render_content.
    by rewrite <- !app_assoc. }
  split.
  { apply (doc_text_in_file _ _ _ _ _ _ _ _ Hk). rewrite Htext.
    apply contains_self. }
  split; [apply header_line_in_file|].
  split.
  { rewrite app_assoc. apply footer_line_in_file. }
  split; [unfold len; lia|].
  unfold Combine.generate_summary_report. split; [|split; [|split]].
  - apply elem_of_app. left. set_solver.
  - apply elem_of_app. right. apply list_elem_of_fmap.
    exists (Z.of_nat k + 1, (dir_name, p)). split.
    + unfold Combine.summary_one. simpl. by rewrite Hread.
    + apply elem_of_enumerate. exists k. split; [lia|done].
  - apply summary_total_in_report.
  - apply (summary_entry_in_report _ _ _ _ _ _ _ _ Hk).
    rewrite (summary_entry_text _ _ _ _ Hread).
    apply contains_self.
Qed.

Lemma empty_document_placeholder_witness :
  exists out total pre post,
    Combine.combine_text_files Combine.sample_text_files Combine.sample_time
      Combine.sample_time
      = {| Combine.outfile := Some out; Combine.ret := Combine.RetTuple true total |} /\
    out = [Combine.Header Combine.sample_time (len Combine.sample_text_files)]
          ++ pre
          ++ [Combine.Separator (Z.of_nat 0 + 1) (lit "a_doc")
                (Combine.path_str Combine.sample_empty_path) 23;
              Combine.Content (lit "[No text content found]");
              Combine.Blank]
          ++ post
          ++ [Combine.Footer (len Combine.sample_text_files) total
                Combine.sample_time] /\
    Combine.document_blocks pre = (take 0 Combine.sample_text_files).*1 /\
    Combine.document_blocks post = (drop 1 Combine.sample_text_files).*1 /\
    (exists before after,
       Combine.file_text out = before ++ lit "[No text content found]" ++ after) /\
    contains (Combine.file_text out)
      (nl ++ rule "=" 80 ++ nl
       ++ lit "DOCUMENT " ++ format_int (Z.of_nat 0 + 1) ++ lit ": "
       ++ lit "a_doc" ++ nl
       ++ rule "=" 80 ++ nl
       ++ lit "Source File: " ++ Combine.path_str Combine.sample_empty_path ++ nl
       ++ lit "Characters: 23" ++ nl
       ++ rule "=" 80 ++ nl ++ nl
       ++ lit "[No text content found]" ++ nl ++ nl) = true /\
    contains (Combine.file_text out)
      (lit "Total documents: " ++ format_int (len Combine.sample_text_files)
       ++ nl) = true /\
    contains (Combine.file_text out)
      (lit "Total documents processed: "
       ++ format_int (len Combine.sample_text_files) ++ nl
       ++ lit "Total characters: " ++ format_commas total ++ nl) = true /\
    Z.of_nat 0 + 1 <= len Combine.sample_text_files /\
    let report :=
      Combine.generate_summary_report Combine.sample_text_files
        Combine.output_file total Combine.sample_time in
    Combine.SumTotalDocuments (len Combine.sample_text_files) ∈ report /\
    Combine.SumDocument (Z.of_nat 0 + 1) (lit "a_doc")
      (Combine.path_str Combine.sample_empty_path)
      (Combine.st_size (Combine.target Combine.sample_empty_path))
      (len ([] : str)) ∈ report /\
    contains (Combine.summary_text report)
      (lit "Total documents: " ++ format_int (len Combine.sample_text_files)
       ++ nl) = true /\
    contains (Combine.summary_text report)
      (pad_left 2 32%N (format_int (Z.of_nat 0 + 1)) ++ lit ". " ++ lit "a_doc"
       ++ nl
       ++ lit "    File: " ++ Combine.path_str Combine.sample_empty_path ++ nl
       ++ lit "    Size: "
       ++ format_commas (Combine.st_size (Combine.target Combine.sample_empty_path))
       ++ lit " bytes" ++ nl
       ++ lit "    Characters: " ++ format_commas (len ([] : str)) ++ nl ++ nl)
    = true.
Proof.
  apply (empty_document_placeholder Combine.sample_text_files 0 (lit "a_doc")
           Combine.sample_empty_path [] Combine.sample_time Combine.sample_time
           Combine.sample_time Combine.output_file).
  - by vm_compute.
  - reflexivity.
  - reflexivity.
  - apply (bool_decide_unpack _). by vm_compute.
Defined.

(** The sample directory tree, consolidated: the text of the section of the
    empty document and the lines of the counts, as they are written. *)
Example sample_placeholder_text :
  let out :=
    default [] (Combine.consolidated
                  (Combine.main Combine.sample_iterdir true None
                     Combine.sample_time Combine.sample_time
                     Combine.sample_time)) in
  let report :=
    default [] (Combine.summary
                  (Combine.main Combine.sample_iterdir true None
                     Combine.sample_time Combine.sample_time
                     Combine.sample_time)) in
  contains (Combine.file_text out)
    (lit "DOCUMENT 1: a_doc" ++ nl ++ rule "=" 80 ++ nl
     ++ lit "Source File: ocr_google_vision_pdf/a_doc/complete_extracted_text.txt"
     ++ nl ++ lit "Characters: 23" ++ nl ++ rule "=" 80 ++ nl ++ nl
     ++ lit "[No text content found]" ++ nl) = true /\
  contains (Combine.file_text out) (lit "Total documents: 3" ++ nl) = true /\
  contains (Combine.file_text out)
    (lit "Total documents processed: 3" ++ nl) = true /\
  contains (Combine.summary_text report) (lit "Total documents: 3" ++ nl)
    = true /\
  contains (Combine.summary_text report)
    (lit " 1. a_doc" ++ nl
     ++ lit "    File: ocr_google_vision_pdf/a_doc/complete_extracted_text.txt"
     ++ nl ++ lit "    Size: 0 bytes" ++ nl ++ lit "    Characters: 0" ++ nl)
    = true.
Proof. by vm_compute. Qed.

(** A file of whitespace only is treated like an empty one, and its header
    then counts the 23 characters of the placeholder. *)
Example whitespace_only_document :
  Combine.combine_one 1 (lit "d")
    {| Combine.path_str := lit "d/complete_extracted_text.txt";
       Combine.target := Combine.sample_file (lit "  " ++ nl) |}
  = ([Combine.Separator 1 (lit "d") (lit "d/complete_extracted_text.txt") 23;
      Combine.Content (lit "[No text content found]"); Combine.Blank], 23).
Proof. by vm_compute. Qed.

(** *** The character counts of the two artifacts *)

(** For a readable document with some text, the header block counts the
    stripped content and the summary report the raw content. *)
Lemma counts_of_document i dir_name (p : Combine.path) raw :
  Combine.read (Combine.target p) = Ok raw -> strip raw <> [] ->
  Combine.header_blocks (Combine.doc_chunks (i, (dir_name, p)))
    = [(i, dir_name, len (strip raw))] /\
  Combine.summary_counts [Combine.summary_one i dir_name p]
    = [(i, dir_name, len raw)] /\
  len (strip raw) <= len raw /\
  (strip raw <> raw -> len (strip raw) < len raw).
Proof.
  intros Hread Hne. pose proof (strip_shorter raw) as [Hle Hlt].
  unfold Combine.doc_chunks, Combine.combine_one, Combine.summary_one. simpl.
  rewrite Hread. destruct (strip raw) as [|c s] eqn:E; [done|].
  by repeat split.
Qed.

(** C10. There is a per-document file with leading or trailing whitespace
    for which the character count written in the header block of the
    consolidated file is strictly smaller than the character count written
    for the same document in the summary report: for the file holding
    ["  beta text"] and a newline, the text of the consolidated file has
    [Characters: 9] under [DOCUMENT 2: b_doc], and the text of the summary
    report has [Characters: 12] under [ 2. b_doc]. *)
Theorem header_and_summary_counts_disagree :
  exists (iterdir : list Combine.dirent) (item : Combine.dirent)
         (f : Combine.file) (raw : str),
    item ∈ iterdir /\
    Combine.is_dir item = true /\
    Combine.text_file item = Some f /\
    Combine.read f = Ok raw /\
    strip raw <> raw /\
    forall t0 t1 t2 : str,
    exists out report i c_header c_summary,
      Combine.main iterdir true None t0 t1 t2
        = {| Combine.consolidated := Some out; Combine.summary := Some report |} /\
      (i, Combine.name item, c_header) ∈ Combine.header_blocks out /\
      (i, Combine.name item, c_summary) ∈ Combine.summary_counts report /\
      c_header = len (strip raw) /\
      c_summary = len raw /\
      c_header < c_summary /\
      contains (Combine.file_text out)
        (nl ++ rule "=" 80 ++ nl
         ++ lit "DOCUMENT " ++ format_int i ++ lit ": " ++ Combine.name item
         ++ nl ++ rule "=" 80 ++ nl
         ++ lit "Source File: ocr_google_vision_pdf/b_doc/complete_extracted_text.txt"
         ++ nl
         ++ lit "Characters: " ++ format_commas c_header ++ nl
         ++ rule "=" 80 ++ nl ++ nl
         ++ strip raw ++ nl ++ nl) = true /\
      contains (Combine.file_text out)
        (lit "DOCUMENT 2: b_doc" ++ nl ++ rule "=" 80 ++ nl
         ++ lit "Source File: ocr_google_vision_pdf/b_doc/complete_extracted_text.txt"
         ++ nl ++ lit "Characters: 9" ++ nl) = true /\
      contains (Combine.summary_text report)
        (pad_left 2 32%N (format_int i) ++ lit ". " ++ Combine.name item ++ nl
         ++ lit "    File: ocr_google_vision_pdf/b_doc/complete_extracted_text.txt"
         ++ nl
         ++ lit "    Size: 12 bytes" ++ nl
         ++ lit "    Characters: " ++ format_commas c_summary ++ nl ++ nl)
      = true /\
      contains (Combine.summary_text report)
        (lit " 2. b_doc" ++ nl
         ++ lit "    File: ocr_google_vision_pdf/b_doc/complete_extracted_text.txt"
         ++ nl ++ lit "    Size: 12 bytes" ++ nl
         ++ lit "    Characters: 12" ++ nl) = true.
Proof.
  exists Combine.sample_iterdir,
         (Combine.sample_dir "b_doc"
            (Some (Combine.sample_file (lit "  beta text" ++ nl)))),
         (Combine.sample_file (lit "  beta text" ++ nl)),
         (lit "  beta text" ++ nl).
  split; [by left|]. split; [done|]. split; [done|]. split; [done|].
  split; [by vm_compute|].
  intros t0 t1 t2.
  set (doc := (lit "b_doc",
               {| Combine.path_str :=
                    lit "ocr_google_vision_pdf/b_doc/complete_extracted_text.txt";
                  Combine.target :=
                    Combine.sample_file (lit "  beta text" ++ nl) |})).
  assert (Combine.sample_text_files !! 1%nat = Some doc) as Hk by by vm_compute.
  exists ([Combine.Header t0 3]
            ++ (enumerate 1 Combine.sample_text_files ≫= Combine.doc_chunks)
            ++ [Combine.Footer 3 37 t1]),
         (Combine.generate_summary_report Combine.sample_text_files
            Combine.output_file 37 t2), 2, 9, 12.
  split; [vm_compute; reflexivity|].
  split; [vm_compute; right; left|].
  split; [vm_compute; right; left|].
  split; [by vm_compute|]. split; [by vm_compute|]. split; [lia|].
  split; [|split; [|split]].
  - apply (doc_text_in_file _ _ _ _ _ _ _ _ Hk). by vm_compute.
  - apply (doc_text_in_file _ _ _ _ _ _ _ _ Hk). by vm_compute.
  - apply (summary_entry_in_report _ _ _ _ _ _ _ _ Hk). by vm_compute.
  - apply (summary_entry_in_report _ _ _ _ _ _ _ _ Hk). by vm_compute.
Qed.

(** ** The page loop of ocr_google_vision.py *)

Section PageLoop.
Variables (c : Ocr.client) (output_dir : str) (detailed : bool).

Local Abbreviation recorded b := (Ocr.recorded (Some c) detailed b).



End PageLoop.

(** What is recorded for a page on which the API fails, in each mode. *)
Lemma detailed_error_text (c : Ocr.client) (b : Ocr.bytes) :
  (forall e, Ocr.document_text_detection c b = Raise e ->
     Ocr.page_result (Some c) true b = (lit "Error processing page", 0)) /\
  (forall r, Ocr.document_text_detection c b = Ok r ->
     Ocr.doc_error_message r <> [] ->
     Ocr.page_result (Some c) true b = (lit "Error processing page", 0)).
Proof.
  unfold Ocr.page_result, Ocr.get_detailed_text_info. split.
  - intros e ->. done.
  - intros r -> Hne. by destruct (Ocr.doc_error_message r).
Qed.





(** The files of that run, in both modes: the pages after a failing one are
    processed. *)
Example flaky_run_standard :
  (Ocr.written
     (Ocr.process_pdf (Some Ocr.flaky_client)
        (Ok [Ocr.sample_page 0; Ocr.sample_page 1; Ocr.sample_page 2])
        (lit "out") false)).*2
  = [lit "Error processing image: deadline exceeded";
     lit "API Error: bad image data";
     lit "some text";
     Ocr.page_header 1 ++ lit "Error processing image: deadline exceeded"
       ++ nl ++ nl
     ++ Ocr.page_header 2 ++ lit "API Error: bad image data" ++ nl ++ nl
     ++ Ocr.page_header 3 ++ lit "some text" ++ nl ++ nl].
Proof. by vm_compute. Qed.

Example flaky_run_detailed :
  (Ocr.written
     (Ocr.process_pdf (Some Ocr.flaky_client)
        (Ok [Ocr.sample_page 0; Ocr.sample_page 1; Ocr.sample_page 2])
        (lit "out") true)).*2
  = [lit "Error processing page";
     lit "Error processing page";
     lit "some text";
     Ocr.page_header 1 ++ lit "Error processing page" ++ nl ++ nl
     ++ Ocr.page_header 2 ++ lit "Error processing page" ++ nl ++ nl
     ++ Ocr.page_header 3 ++ lit "some text" ++ nl ++ nl].
Proof. by vm_compute. Qed.


(** An exception of the image encoding is not caught in [process_pdf]: the
    document stops at that page, with the files of the earlier pages
    written and no combined file. *)
Example broken_image_stops_document :
  let o := Ocr.process_pdf (Some Ocr.working_client)
             (Ok [Ocr.sample_image; Ocr.broken_image; Ocr.sample_image])
             (lit "out") false in
  Ocr.returned o = Raise (Error (lit "cannot write mode P as JPEG")) /\
  Ocr.written o = [(lit "out/page_001.txt", lit "two words")].
Proof. by vm_compute. Qed.

(** * Further properties of the three scripts *)

(** ** The codec *)

Lemma itos_is_Some (data : str) (i : Z) :
  is_Some (Prepare.itos data !! i) <-> 0 <= i < Prepare.vocab_size data.
Proof.
  unfold Prepare.vocab_size, len. split.
  - intros [c Hc]. apply itos_lookup in Hc as (k & -> & Hk).
    apply lookup_lt_Some in Hk. lia.
  - intros Hi.
    destruct (lookup_lt_is_Some_2 (Prepare.chars data) (Z.to_nat i)) as [c Hc];
      [lia|].
    exists c. apply itos_lookup. exists (Z.to_nat i). split; [lia|done].
Qed.

(** X1. Every list of ids in [[0, vocab_size)] is decoded to a string of the
    same length, and encoding that string gives the ids back. *)
Theorem encode_decode (data : str) (ids : list Z) :
  Forall (fun i => 0 <= i < Prepare.vocab_size data) ids ->
  exists s, Prepare.decode data ids = Ok s /\
            Prepare.encode data s = Ok ids /\
            len s = len ids.
Proof.
  intros Hr.
  assert (exists s, comprehension (Prepare.itos_getitem data) ids = Ok s /\
                    Forall2 (fun c i => Prepare.stoi data !! c = Some i) s ids)
    as (s & Hc & Hf).
  { induction Hr as [|i ids Hi _ (s & Hc & Hf)]; [by exists []|].
    apply itos_is_Some in Hi as [c Hi]. exists (c :: s). split.
    - simpl. unfold Prepare.itos_getitem at 1. by rewrite Hi, Hc.
    - constructor; [by apply stoi_itos|done]. }
  exists s. split; [|split].
  - unfold Prepare.decode. rewrite Hc. simpl. by rewrite join_singletons.
  - clear Hc Hr. unfold Prepare.encode.
    induction Hf as [|c i s ids Hi _ IH]; [done|].
    simpl. unfold Prepare.stoi_getitem at 1. by rewrite Hi, IH.
  - unfold len. f_equal. by eapply Forall2_length.
Qed.

Lemma encode_decode_witness :
  exists s, Prepare.decode (lit "aabc") [2; 0; 1; 1] = Ok s /\
            Prepare.encode (lit "aabc") s = Ok [2; 0; 1; 1] /\
            len s = len [2; 0; 1; 1].
Proof.
  apply (encode_decode (lit "aabc") [2; 0; 1; 1]).
  apply (bool_decide_unpack _). by vm_compute.
Defined.

(** X2. When a list holds an integer outside [[0, vocab_size)], a negative
    one included, [decode] raises [KeyError] for the first such integer and
    returns no string. *)
Theorem decode_unknown_raises (data : str) (ids : list Z) :
  (exists i, i ∈ ids /\ ~ (0 <= i < Prepare.vocab_size data)) ->
  exists pre i post,
    ids = pre ++ i :: post /\
    Forall (fun j => 0 <= j < Prepare.vocab_size data) pre /\
    ~ (0 <= i < Prepare.vocab_size data) /\
    Prepare.decode data ids = Raise (KeyError_int i).
Proof.
  unfold Prepare.decode.
  induction ids as [|j ids IH]; intros (i & Hi & Hout).
  - by apply elem_of_nil in Hi.
  - destruct (Prepare.itos data !! j) as [c|] eqn:Hj.
    + assert (0 <= j < Prepare.vocab_size data) as Hjr
        by (apply itos_is_Some; eauto).
      apply elem_of_cons in Hi as [->|Hi]; [done|].
      destruct IH as (pre & i' & post & -> & Hpre & Hout' & Hdec); [eauto|].
      exists (j :: pre), i', post. split; [done|].
      split; [by constructor|]. split; [done|].
      simpl. unfold Prepare.itos_getitem at 1. rewrite Hj.
      destruct (comprehension _ (pre ++ i' :: post)); [done|].
      simpl in Hdec. by injection Hdec as ->.
    + exists [], j, ids. split; [done|]. split; [constructor|]. split.
      * intros Hr. apply itos_is_Some in Hr as [? ?]. congruence.
      * simpl. unfold Prepare.itos_getitem at 1. by rewrite Hj.
Qed.

Lemma decode_unknown_raises_witness :
  exists pre i post,
    [0; 2; -1; 7] = pre ++ i :: post /\
    Forall (fun j => 0 <= j < Prepare.vocab_size (lit "aabc")) pre /\
    ~ (0 <= i < Prepare.vocab_size (lit "aabc")) /\
    Prepare.decode (lit "aabc") [0; 2; -1; 7] = Raise (KeyError_int i).
Proof.
  apply (decode_unknown_raises (lit "aabc") [0; 2; -1; 7]).
  exists 7. split; apply (bool_decide_unpack _); by vm_compute.
Defined.

Lemma sorted_lookup_lt (l : list N) (i j : nat) (x y : N) :
  StronglySorted N.lt l -> l !! i = Some x -> l !! j = Some y ->
  (i < j)%nat -> (x < y)%N.
Proof.
  intros Hs. revert i j. induction Hs as [|a l Hs IH Ha]; intros i j Hi Hj Hij.
  - done.
  - destruct j as [|j]; [lia|]. simpl in Hj. destruct i as [|i]; simpl in Hi.
    + injection Hi as ->. eapply Forall_forall in Ha; [exact Ha|].
      by eapply list_elem_of_lookup_2.
    + eapply IH; [exact Hi|exact Hj|lia].
Qed.

(** X3. The vocabulary keeps the order of the code points: of two characters
    of the corpus, the one with the smaller code point has the smaller
    index, and different characters have different indices. *)
Theorem stoi_order (data : str) (c d : N) (i j : Z) :
  Prepare.stoi data !! c = Some i ->
  Prepare.stoi data !! d = Some j ->
  ((c < d)%N <-> i < j) /\ (c = d <-> i = j).
Proof.
  intros Hc Hd.
  apply stoi_lookup in Hc as (k1 & -> & H1).
  apply stoi_lookup in Hd as (k2 & -> & H2).
  pose proof (chars_sorted data) as Hs.
  assert (forall a b x y, Prepare.chars data !! a = Some x ->
            Prepare.chars data !! b = Some y -> (a < b)%nat -> (x < y)%N) as Hlt.
  { intros a b x y Ha Hb Hab.
    exact (sorted_lookup_lt _ a b x y Hs Ha Hb Hab). }
  destruct (lt_eq_lt_dec k1 k2) as [[Hk|Hk]|Hk].
  - pose proof (Hlt _ _ _ _ H1 H2 Hk). split; split; lia.
  - subst k2. assert (c = d) by congruence. subst d. split; split; lia.
  - pose proof (Hlt _ _ _ _ H2 H1 Hk). split; split; lia.
Qed.

Lemma stoi_order_witness :
  ((97 < 99)%N <-> 0 < 2) /\ (97%N = 99%N <-> 0 = 2).
Proof.
  apply (stoi_order (lit "aabc") 97%N 99%N 0 2); by vm_compute.
Defined.

Lemma comprehension_app {A B} (f : A -> result B) (l1 l2 : list A) r1 r2 :
  comprehension f l1 = Ok r1 -> comprehension f l2 = Ok r2 ->
  comprehension f (l1 ++ l2) = Ok (r1 ++ r2).
Proof.
  revert r1. induction l1 as [|x l1 IH]; intros r1; simpl.
  - by intros [= <-].
  - destruct (f x) as [y|]; [|done].
    destruct (comprehension f l1) as [r|]; [|done].
    intros [= <-] H2. by rewrite (IH r eq_refl H2).
Qed.

Lemma encode_length (data s : str) ids :
  Prepare.encode data s = Ok ids -> len ids = len s.
Proof.
  intros He. apply encode_inv, Forall2_length in He. unfold len. by rewrite He.
Qed.

(** X4. The ids of the training part followed by the ids of the validation
    part are the ids of the whole corpus, one id per character: the split
    loses and repeats nothing. *)
Theorem encoded_split (data : str) :
  len data <= Prepare.sys_maxsize ->
  exists train val train_ids val_ids,
    Prepare.train_data data = Ok train /\
    Prepare.val_data data = Ok val /\
    Prepare.encode data train = Ok train_ids /\
    Prepare.encode data val = Ok val_ids /\
    Prepare.encode data data = Ok (train_ids ++ val_ids) /\
    len train_ids = len train /\
    len val_ids = len val /\
    len train_ids + len val_ids = len data.
Proof.
  intros Hmax. pose proof (len_nonneg data) as H0.
  destruct (int_mul_0_9_total (len data)) as (k & Hk & _); [lia|].
  destruct (split_of_point data k Hk) as [Ht Hv].
  pose proof (slice_split k data) as Happ.
  destruct (encode_total data (slice_to k data)) as (tids & Het & _).
  { intros c Hc. rewrite <- Happ. apply elem_of_app. by left. }
  destruct (encode_total data (slice_from k data)) as (vids & Hev & _).
  { intros c Hc. rewrite <- Happ. apply elem_of_app. by right. }
  exists (slice_to k data), (slice_from k data), tids, vids.
  do 4 (split; [done|]).
  pose proof (encode_length _ _ _ Het) as Hlt.
  pose proof (encode_length _ _ _ Hev) as Hlv.
  split; [|split; [done|split; [done|]]].
  - assert (Prepare.encode data (slice_to k data ++ slice_from k data)
            = Ok (tids ++ vids)) as Hall by (by apply comprehension_app).
    by rewrite Happ in Hall.
  - rewrite Hlt, Hlv, <- len_app. by rewrite Happ.
Qed.

Lemma encoded_split_witness :
  exists train val train_ids val_ids,
    Prepare.train_data (lit "aabc") = Ok train /\
    Prepare.val_data (lit "aabc") = Ok val /\
    Prepare.encode (lit "aabc") train = Ok train_ids /\
    Prepare.encode (lit "aabc") val = Ok val_ids /\
    Prepare.encode (lit "aabc") (lit "aabc") = Ok (train_ids ++ val_ids) /\
    len train_ids = len train /\
    len val_ids = len val /\
    len train_ids + len val_ids = len (lit "aabc").
Proof. apply (encoded_split (lit "aabc")). by vm_compute. Defined.

(** *** The split point stays inside the corpus *)

(** [float(z)] for an integer of more than 53 digits: at most half a
    rounding step above [z]. *)
Lemma float_of_int_big (p : positive) :
  let d := Z.pos (digits2_pos p) in
  53 < d <= 1000 ->
  exists m e,
    Prepare.float_of_int (Z.pos p) = Ok (S754_finite false m e) /\
    Z.pos (digits2_pos m) = 53 /\
    d - 53 <= e <= d - 52 /\
    2 * (Z.pos m * 2 ^ e) <= 2 * Z.pos p + 2 ^ (d - 53).
Proof.
  intros d Hd. unfold Prepare.float_of_int, Prepare.prec, Prepare.emax.
  unfold binary_normalize, binary_round, shl_align, fexp, emin. fold d.
  replace (Z.max (d + 0 - 53) (3 - 1024 - 53) - 0) with (d - 53) by lia.
  replace (Z.max (d + 0 - 53) (3 - 1024 - 53)) with (d - 53) by lia.
  destruct (d - 53) as [|k|k] eqn:E; [lia| |lia].
  destruct (binary_round_aux_spec p 0)
    as (m3 & e3 & -> & Hd3 & He3 & _ & Hhalf & _); [fold d; lia..|].
  fold d in He3, Hhalf. rewrite Z.sub_0_r in Hhalf.
  exists m3, e3. split; [done|]. split; [done|]. split; [lia|].
  by rewrite <- E.
Qed.

Lemma int_mul_0_9_below (p : positive) :
  Z.pos p <= Prepare.sys_maxsize ->
  exists k, Prepare.int_mul_0_9 (Z.pos p) = Ok k /\ 0 <= k < Z.pos p.
Proof.
  intros Hmax. unfold Prepare.sys_maxsize in Hmax.
  assert (Z.pos (digits2_pos p) <= 63) as Hd by (apply digits2_le; lia).
  set (d := Z.pos (digits2_pos p)) in *.
  destruct (Z.le_gt_cases d 53) as [Hsmall|Hbig].
  - (* [float(p)] is [p] *)
    destruct (float_of_int_spec p) as (m & e & Hf & Hm & He & Hex); [fold d; lia|].
    fold d in He, Hex. destruct Hex as [Hmp Hes]; [lia|].
    destruct (mul_0_9_spec m e Hm) as (m3 & e3 & Hmul & He3 & HK & _ & Hhalf);
      [lia|].
    cbv zeta in HK, Hhalf.
    set (K := Z.pos (digits2_pos (m * 8106479329266893)) - 53) in *.
    rewrite (int_mul_0_9_unfold _ _ Hf), Hmul.
    rewrite (int_of_float_scaled m3 e3 (53 - e)) by lia.
    replace (e3 - (e - 53)) with (e3 + (53 - e)) in Hhalf by lia.
    set (V := Z.pos m3 * 2 ^ (e3 + (53 - e))) in *.
    assert (0 <= V) by (unfold V; apply Z.mul_nonneg_nonneg;
                        [lia|apply Z.pow_nonneg; lia]).
    assert (2 ^ K <= 2 ^ 53) as HK' by (apply Z.pow_le_mono_r; lia).
    pose proof (digits2_bounds m) as [Hm52 _]. rewrite Hm in Hm52.
    change (2 ^ (53 - 1)) with 4503599627370496 in Hm52.
    change (2 ^ 53) with 9007199254740992 in HK'.
    assert (0 < 2 ^ (53 - d)) as HT by (apply Z.pow_pos_nonneg; lia).
    assert (2 ^ (53 - e) = 9007199254740992 * 2 ^ (53 - d)) as ->.
    { replace (53 - e) with (53 + (53 - d)) by lia.
      by rewrite Z.pow_add_r by lia. }
    eexists. split; [reflexivity|]. split.
    + apply Z.div_pos; lia.
    + apply Z.div_lt_upper_bound; [lia|].
      replace (9007199254740992 * 2 ^ (53 - d) * Z.pos p)
        with (9007199254740992 * Z.pos m) by (rewrite Hmp; ring).
      lia.
  - (* [float(p)] is rounded, then the product *)
    destruct (float_of_int_big p) as (m & e & Hf & Hm & He & Hfl); [fold d; lia|].
    fold d in He, Hfl.
    destruct (mul_0_9_spec m e Hm) as (m3 & e3 & Hmul & He3 & HK & _ & Hhalf);
      [lia|].
    cbv zeta in HK, Hhalf.
    set (K := Z.pos (digits2_pos (m * 8106479329266893)) - 53) in *.
    rewrite (int_mul_0_9_unfold _ _ Hf), Hmul.
    rewrite (int_of_float_scaled m3 e3 (53 - e)) by lia.
    replace (e3 - (e - 53)) with (e3 + (53 - e)) in Hhalf by lia.
    set (V := Z.pos m3 * 2 ^ (e3 + (53 - e))) in *.
    assert (0 <= V) by (unfold V; apply Z.mul_nonneg_nonneg;
                        [lia|apply Z.pow_nonneg; lia]).
    assert (2 ^ K <= 2 ^ 53) as HK' by (apply Z.pow_le_mono_r; lia).
    pose proof (digits2_bounds m) as [Hm52 _]. rewrite Hm in Hm52.
    change (2 ^ (53 - 1)) with 4503599627370496 in Hm52.
    change (2 ^ 53) with 9007199254740992 in HK'.
    set (E := 2 ^ e) in *. set (Q := 2 ^ (53 - e)).
    assert (0 < E) as HE by (apply Z.pow_pos_nonneg; lia).
    assert (0 < Q) as HQ by (apply Z.pow_pos_nonneg; lia).
    assert (Q * E = 9007199254740992) as HQE.
    { unfold Q, E. rewrite <- Z.pow_add_r by lia.
      by replace (53 - e + e) with 53 by lia. }
    assert (2 ^ (d - 53) <= E) as HG by (apply Z.pow_le_mono_r; lia).
    set (F := Z.pos m * E) in *.
    assert (4503599627370496 * E <= F) as HF
      by (unfold F; apply Z.mul_le_mono_nonneg_r; lia).
    assert (2 * (V * E) <= 2 * 8106479329266893 * F + 2 ^ K * E) as HVE.
    { unfold F. nia. }
    assert (2 ^ K * E <= 9007199254740992 * E) as HKE
      by (apply Z.mul_le_mono_nonneg_r; lia).
    assert (V * E < Q * Z.pos p * E) as Hlt.
    { replace (Q * Z.pos p * E) with (9007199254740992 * Z.pos p)
        by (rewrite <- HQE; ring).
      lia. }
    eexists. split; [reflexivity|]. split.
    + apply Z.div_pos; lia.
    + apply Z.div_lt_upper_bound; [lia|].
      by apply Z.mul_lt_mono_pos_r in Hlt.
Qed.

(** X8. For every corpus that is not empty, the split point [int(n*0.9)]
    lies in [[0, n)]: the training part has exactly that many characters,
    and the validation part is never empty. *)
Theorem validation_part_nonempty (data : str) :
  data <> [] ->
  len data <= Prepare.sys_maxsize ->
  exists k train val,
    Prepare.int_mul_0_9 (len data) = Ok k /\
    0 <= k < len data /\
    Prepare.train_data data = Ok train /\
    Prepare.val_data data = Ok val /\
    len train = k /\
    len val = len data - k /\
    val <> [].
Proof.
  intros Hne Hmax.
  assert (0 < len data) as Hpos by (unfold len; destruct data; [done|simpl; lia]).
  destruct (len data) as [|p|p] eqn:Hlen; [lia| |lia].
  destruct (int_mul_0_9_below p Hmax) as (k & Hk & Hkr).
  rewrite <- Hlen in Hk. destruct (split_of_point data k Hk) as [Ht Hv].
  exists k, (slice_to k data), (slice_from k data).
  rewrite Hlen in Hk. split; [done|]. split; [done|].
  split; [done|]. split; [done|].
  assert (len (slice_to k data) = k) as Hlt
    by (apply len_slice_to; rewrite Hlen; lia).
  assert (len (slice_from k data) = Z.pos p - k) as Hlv.
  { pose proof (slice_split k data) as Happ.
    apply (f_equal len) in Happ. rewrite len_app, Hlen in Happ. lia. }
  split; [done|]. split; [done|].
  intros E. rewrite E in Hlv. unfold len in Hlv. simpl in Hlv. lia.
Qed.

Lemma validation_part_nonempty_witness :
  exists k train val,
    Prepare.int_mul_0_9 (len (lit "a")) = Ok k /\
    0 <= k < len (lit "a") /\
    Prepare.train_data (lit "a") = Ok train /\
    Prepare.val_data (lit "a") = Ok val /\
    len train = k /\
    len val = len (lit "a") - k /\
    val <> [].
Proof.
  apply (validation_part_nonempty (lit "a")); [discriminate|by vm_compute].
Defined.

(** *** The script as a whole: when it completes, and what it writes *)

(** X5. The script completes exactly on the corpora that are not empty
    (within [sys.maxsize] characters, and with a vocabulary that fits the
    16-bit ids): on the empty corpus it raises [ZeroDivisionError] at the
    percentages of the split, before anything is encoded. *)
Theorem prepare_completes_iff_nonempty (data : str) :
  len data <= Prepare.sys_maxsize ->
  Prepare.vocab_size data <= 65536 ->
  (data = [] <-> Prepare.prepare data = Raise ZeroDivisionError) /\
  (data <> [] <-> exists p, Prepare.prepare data = Ok p).
Proof.
  intros Hmax _.
  destruct data as [|c data].
  - split; split; try done. intros [p Hp]. by vm_compute in Hp.
  - destruct (prepare_runs (c :: data)) as (k & t & v & i & _ & _ & _ & _ & _ & Hp);
      [done..|].
    split; split; try done.
    + intros H. rewrite Hp in H. done.
    + intros _. eauto.
Qed.

Lemma prepare_completes_iff_nonempty_witness :
  (lit "aabc" = [] <-> Prepare.prepare (lit "aabc") = Raise ZeroDivisionError) /\
  (lit "aabc" <> [] <-> exists p, Prepare.prepare (lit "aabc") = Ok p).
Proof.
  apply (prepare_completes_iff_nonempty (lit "aabc")); by vm_compute.
Defined.

Lemma len_tofile (arr : list Z) : len (Prepare.tofile arr) = 2 * len arr.
Proof.
  unfold len, Prepare.tofile.
  induction arr as [|x arr IH]; [done|].
  rewrite bind_cons, length_app. simpl length in *. lia.
Qed.

Lemma len_np_array_uint16 (ids : list Z) :
  len (Prepare.np_array_uint16 ids) = len ids.
Proof. unfold len, Prepare.np_array_uint16. by rewrite length_fmap. Qed.

Lemma vocab_size_bounds (data : str) :
  data <> [] -> 1 <= Prepare.vocab_size data <= len data.
Proof.
  intros Hne. unfold Prepare.vocab_size, len. split.
  - destruct data as [|c data]; [done|].
    assert (c ∈ Prepare.chars (c :: data)) as Hc by (apply elem_of_chars; by left).
    destruct (Prepare.chars (c :: data)); [by apply elem_of_nil in Hc|].
    simpl. lia.
  - apply inj_le, submseteq_length, NoDup_submseteq; [apply chars_NoDup|].
    intros x. apply elem_of_chars.
Qed.

(** X6. When the script completes, its metadata and its two files agree:
    [total_chars] is the length of the corpus and the sum of [train_chars]
    and [val_chars], [vocab_size] lies between 1 and [total_chars], and each
    [.bin] file has two bytes per character of its part. *)
Theorem prepare_metadata (data : str) :
  data <> [] ->
  len data <= Prepare.sys_maxsize ->
  Prepare.vocab_size data <= 65536 ->
  exists p,
    Prepare.prepare data = Ok p /\
    Prepare.meta_total_chars p = len data /\
    Prepare.meta_train_chars p + Prepare.meta_val_chars p
      = Prepare.meta_total_chars p /\
    1 <= Prepare.meta_vocab_size p <= Prepare.meta_total_chars p /\
    len (Prepare.train_bin p) = 2 * Prepare.meta_train_chars p /\
    len (Prepare.val_bin p) = 2 * Prepare.meta_val_chars p /\
    (forall c i, Prepare.meta_stoi p !! c = Some i <->
                 Prepare.meta_itos p !! i = Some c).
Proof.
  intros Hne Hmax _.
  destruct (prepare_runs data Hne Hmax)
    as (k & tids & vids & ids & Hk & Het & Hev & _ & _ & ->).
  eexists. split; [reflexivity|]. simpl.
  pose proof (slice_split k data) as Happ. apply (f_equal len) in Happ.
  rewrite len_app in Happ.
  split; [done|]. split; [done|]. split; [by apply vocab_size_bounds|].
  rewrite !len_tofile, !len_np_array_uint16.
  rewrite (encode_length _ _ _ Het), (encode_length _ _ _ Hev).
  split; [done|]. split; [done|]. intros c i. apply stoi_itos.
Qed.

Lemma prepare_metadata_witness :
  exists p,
    Prepare.prepare (lit "aabc") = Ok p /\
    Prepare.meta_total_chars p = len (lit "aabc") /\
    Prepare.meta_train_chars p + Prepare.meta_val_chars p
      = Prepare.meta_total_chars p /\
    1 <= Prepare.meta_vocab_size p <= Prepare.meta_total_chars p /\
    len (Prepare.train_bin p) = 2 * Prepare.meta_train_chars p /\
    len (Prepare.val_bin p) = 2 * Prepare.meta_val_chars p /\
    (forall c i, Prepare.meta_stoi p !! c = Some i <->
                 Prepare.meta_itos p !! i = Some c).
Proof.
  apply (prepare_metadata (lit "aabc")); [discriminate|by vm_compute..].
Defined.

(** X7. When the script completes on a corpus whose vocabulary fits the
    16-bit ids, the two [.bin] files hold the corpus: read back as 16-bit
    integers, one after the other, and decoded with the [itos] of the
    metadata, they give the text of the corpus, character by character. *)
Theorem bin_files_decode_to_corpus (data : str) :
  data <> [] ->
  len data <= Prepare.sys_maxsize ->
  Prepare.vocab_size data <= 65536 ->
  exists p,
    Prepare.prepare data = Ok p /\
    Prepare.meta_itos p = Prepare.itos data /\
    Prepare.decode data
      (Prepare.fromfile (Prepare.train_bin p)
       ++ Prepare.fromfile (Prepare.val_bin p))
    = Ok data /\
    len (Prepare.fromfile (Prepare.train_bin p))
    + len (Prepare.fromfile (Prepare.val_bin p)) = len data.
Proof.
  intros Hne Hmax Hvocab.
  destruct (prepare_runs data Hne Hmax)
    as (k & tids & vids & ids & Hk & Het & Hev & _ & _ & ->).
  eexists. split; [reflexivity|].
  cbn [Prepare.meta_itos Prepare.train_bin Prepare.val_bin].
  split; [done|].
  destruct (uint16_roundtrip (Prepare.vocab_size data) tids
              (encode_range _ _ _ Het) Hvocab) as [_ ->].
  destruct (uint16_roundtrip (Prepare.vocab_size data) vids
              (encode_range _ _ _ Hev) Hvocab) as [_ ->].
  pose proof (slice_split k data) as Happ.
  assert (Prepare.encode data (slice_to k data ++ slice_from k data)
          = Ok (tids ++ vids)) as Hall by (by apply comprehension_app).
  rewrite Happ in Hall. split.
  - apply decode_of_encoded. by apply encode_inv.
  - rewrite <- len_app. by apply encode_length in Hall.
Qed.

Lemma bin_files_decode_to_corpus_witness :
  exists p,
    Prepare.prepare (lit "aabc") = Ok p /\
    Prepare.meta_itos p = Prepare.itos (lit "aabc") /\
    Prepare.decode (lit "aabc")
      (Prepare.fromfile (Prepare.train_bin p)
       ++ Prepare.fromfile (Prepare.val_bin p))
    = Ok (lit "aabc") /\
    len (Prepare.fromfile (Prepare.train_bin p))
    + len (Prepare.fromfile (Prepare.val_bin p)) = len (lit "aabc").
Proof.
  apply (bin_files_decode_to_corpus (lit "aabc"));
    [discriminate|by vm_compute..].
Defined.

(** ** Stripping *)

Lemma lstrip_head (s : str) :
  match lstrip s with
  | [] => Forall (fun c => isspace c = true) s
  | c :: _ => isspace c = false
  end.
Proof.
  induction s as [|c s IH]; simpl; [constructor|].
  destruct (isspace c) eqn:E; [|done].
  destruct (lstrip s); [by constructor|done].
Qed.

Lemma lstrip_fixed (s : str) :
  match s with [] => True | c :: _ => isspace c = false end -> lstrip s = s.
Proof. destruct s as [|c s]; simpl; [done|]. by intros ->. Qed.

Lemma rstrip_prefix (s : str) : exists q, s = rstrip s ++ q.
Proof.
  destruct (lstrip_suffix (rev s)) as [p Hp]. exists (rev p). unfold rstrip.
  rewrite <- rev_app_distr, <- Hp. by rewrite rev_involutive.
Qed.


(** A stripped string does not start with whitespace. *)
Lemma strip_head (s : str) :
  match strip s with [] => True | c :: _ => isspace c = false end.
Proof.
  unfold strip. destruct (rstrip_prefix (lstrip s)) as [q Hq].
  pose proof (lstrip_head s) as Hh.
  destruct (rstrip (lstrip s)) as [|c r]; [done|].
  rewrite Hq in Hh. exact Hh.
Qed.


Lemma strip_idempotent (s : str) : strip (strip s) = strip s.
Proof.
  unfold strip at 1. rewrite (lstrip_fixed _ (strip_head s)).
  unfold strip, rstrip. by rewrite rev_involutive, (lstrip_fixed (lstrip _)) by
    (pose proof (lstrip_head (rev (lstrip s))) as Hh;
     by destruct (lstrip (rev (lstrip s)))).
Qed.


(** ** The consolidation *)


(** What [main] does, once the documents are found and the answer is
    known. *)
Lemma main_unfold iterdir (auto : bool) (answer : option str) t0 t1 t2 :
  let text_files := Combine.find_extracted_text_files Combine.base_dir iterdir in
  let go := auto || match answer with Some a => Combine.is_yes a | None => false end in
  let total := foldr Z.add 0 (Combine.doc_chars <$> enumerate 1 text_files) in
  Combine.main iterdir auto answer t0 t1 t2
  = if bool_decide (text_files <> []) && go then
      {| Combine.consolidated :=
           Some ([Combine.Header t0 (len text_files)]
                 ++ (enumerate 1 text_files ≫= Combine.doc_chunks)
                 ++ [Combine.Footer (len text_files) total t1]);
         Combine.summary :=
           Some (Combine.generate_summary_report text_files Combine.output_file
                   total t2) |}
    else {| Combine.consolidated := None; Combine.summary := None |}.
Proof.
  intros text_files go total. unfold Combine.main. fold text_files.
  destruct text_files as [|doc l] eqn:E; [done|].
  rewrite bool_decide_eq_true_2 by done. simpl andb.
  assert ((if auto then true
           else match answer with Some a => Combine.is_yes a | None => false end)
          = go) as -> by (unfold go; by destruct auto).
  destruct go; [|done].
  by rewrite (combine_output (doc :: l) t0 t1).
Qed.



Lemma blocks_of_outfile_cons t0 t1 n total chunks :
  Combine.document_blocks
    (Combine.Header t0 n :: chunks ++ [Combine.Footer n total t1])
  = Combine.document_blocks chunks /\
  Combine.header_blocks
    (Combine.Header t0 n :: chunks ++ [Combine.Footer n total t1])
  = Combine.header_blocks chunks.
Proof. exact (blocks_of_outfile t0 t1 n total chunks). Qed.

Lemma header_counts_sum start text_files :
  foldr Z.add 0
    ((fun h : Z * str * Z => h.2)
       <$> Combine.header_blocks (enumerate start text_files ≫= Combine.doc_chunks))
  = foldr Z.add 0 (Combine.doc_chars <$> enumerate start text_files).
Proof.
  revert start. induction text_files as [|[d f] l IH]; intros start; [done|].
  rewrite enumerate_cons, bind_cons, fmap_cons. unfold Combine.header_blocks in *.
  rewrite bind_app, fmap_app, foldr_app, IH. simpl.
  unfold Combine.doc_chunks, Combine.doc_chars, Combine.combine_one. simpl.
  destruct (Combine.read (Combine.target f)); simpl; [|done].
  set (x := foldr Z.add 0 _). lia.
Qed.

Lemma summary_counts_report text_files output_file total t2 :
  Combine.summary_counts
    (Combine.generate_summary_report text_files output_file total t2)
  = Combine.summary_counts
      ((fun idoc : Z * (str * Combine.path) =>
          Combine.summary_one idoc.1 idoc.2.1 idoc.2.2)
         <$> enumerate 1 text_files).
Proof.
  unfold Combine.generate_summary_report, Combine.summary_counts.
  by rewrite bind_app.
Qed.

Lemma indices_agree start text_files :
  (fun h : Z * str * Z => h.1)
    <$> Combine.header_blocks (enumerate start text_files ≫= Combine.doc_chunks)
  = (fun h : Z * str * Z => h.1)
      <$> Combine.summary_counts
            ((fun idoc : Z * (str * Combine.path) =>
                Combine.summary_one idoc.1 idoc.2.1 idoc.2.2)
               <$> enumerate start text_files).
Proof.
  revert start. induction text_files as [|[d f] l IH]; intros start; [done|].
  rewrite enumerate_cons, bind_cons, fmap_cons.
  unfold Combine.header_blocks, Combine.summary_counts in *.
  rewrite bind_app, bind_cons, !fmap_app, IH. f_equal.
  unfold Combine.doc_chunks, Combine.combine_one, Combine.summary_one. simpl.
  by destruct (Combine.read (Combine.target f)).
Qed.

(** X10. When [main] has written the two artifacts, their totals agree with
    their content: the document count of the header, of the footer and of
    the summary report is the number of per-document blocks, the total of
    characters of the footer and of the summary report is the sum of the
    character counts of the header blocks, and the summary report has one
    entry per document after its six heading lines. *)
Theorem consolidated_totals (iterdir : list Combine.dirent) (auto : bool)
    (answer : option str) (t0 t1 t2 : str) out report :
  Combine.main iterdir auto answer t0 t1 t2
    = {| Combine.consolidated := Some out; Combine.summary := Some report |} ->
  exists n total,
    head out = Some (Combine.Header t0 n) /\
    last out = Some (Combine.Footer n total t1) /\
    Combine.SumTotalDocuments n ∈ report /\
    Combine.SumTotalCharacters total ∈ report /\
    n = len (Combine.document_blocks out) /\
    total = foldr Z.add 0
              ((fun h : Z * str * Z => h.2) <$> Combine.header_blocks out) /\
    len report = 6 + n.
Proof.
  rewrite main_unfold.
  set (text_files := Combine.find_extracted_text_files Combine.base_dir iterdir).
  destruct (bool_decide (text_files <> []) && _); [|done].
  intros [= <- <-].
  exists (len text_files),
         (foldr Z.add 0 (Combine.doc_chars <$> enumerate 1 text_files)).
  split; [done|]. split; [exact (last_snoc _ (Combine.Header _ _ :: _))|].
  split; [unfold Combine.generate_summary_report; set_solver|].
  split; [unfold Combine.generate_summary_report; set_solver|].
  destruct (blocks_of_outfile_cons t0 t1 (len text_files)
              (foldr Z.add 0 (Combine.doc_chars <$> enumerate 1 text_files))
              (enumerate 1 text_files ≫= Combine.doc_chunks)) as [-> ->].
  rewrite document_blocks_loop, header_counts_sum.
  split; [unfold len; by rewrite length_fmap|]. split; [done|].
  unfold Combine.generate_summary_report, len.
  rewrite length_app, length_fmap. unfold enumerate. rewrite length_imap.
  simpl. lia.
Qed.

Lemma consolidated_totals_witness :
  exists n total,
    head (default [] (Combine.consolidated
            (Combine.main Combine.sample_iterdir true None Combine.sample_time
               Combine.sample_time Combine.sample_time)))
      = Some (Combine.Header Combine.sample_time n) /\
    last (default [] (Combine.consolidated
            (Combine.main Combine.sample_iterdir true None Combine.sample_time
               Combine.sample_time Combine.sample_time)))
      = Some (Combine.Footer n total Combine.sample_time) /\
    Combine.SumTotalDocuments n
      ∈ default [] (Combine.summary
            (Combine.main Combine.sample_iterdir true None Combine.sample_time
               Combine.sample_time Combine.sample_time)) /\
    Combine.SumTotalCharacters total
      ∈ default [] (Combine.summary
            (Combine.main Combine.sample_iterdir true None Combine.sample_time
               Combine.sample_time Combine.sample_time)) /\
    n = len (Combine.document_blocks
               (default [] (Combine.consolidated
                  (Combine.main Combine.sample_iterdir true None
                     Combine.sample_time Combine.sample_time
                     Combine.sample_time)))) /\
    total = foldr Z.add 0
              ((fun h : Z * str * Z => h.2)
                 <$> Combine.header_blocks
                       (default [] (Combine.consolidated
                          (Combine.main Combine.sample_iterdir true None
                             Combine.sample_time Combine.sample_time
                             Combine.sample_time)))) /\
    len (default [] (Combine.summary
            (Combine.main Combine.sample_iterdir true None Combine.sample_time
               Combine.sample_time Combine.sample_time))) = 6 + n.
Proof.
  apply (consolidated_totals Combine.sample_iterdir true None
           Combine.sample_time Combine.sample_time Combine.sample_time).
  by vm_compute.
Defined.

(** X13. The two artifacts list the same documents under the same indices:
    the header blocks of the consolidated file and the document entries of
    the summary report carry the same sequence of index and name; only the
    character counts may differ. *)
Theorem artifacts_list_same_documents (iterdir : list Combine.dirent)
    (auto : bool) (answer : option str) (t0 t1 t2 : str) out report :
  Combine.main iterdir auto answer t0 t1 t2
    = {| Combine.consolidated := Some out; Combine.summary := Some report |} ->
  (fun h : Z * str * Z => h.1) <$> Combine.header_blocks out
  = (fun h : Z * str * Z => h.1) <$> Combine.summary_counts report.
Proof.
  rewrite main_unfold.
  set (text_files := Combine.find_extracted_text_files Combine.base_dir iterdir).
  destruct (bool_decide (text_files <> []) && _); [|done].
  intros [= <- <-].
  destruct (blocks_of_outfile_cons t0 t1 (len text_files)
              (foldr Z.add 0 (Combine.doc_chars <$> enumerate 1 text_files))
              (enumerate 1 text_files ≫= Combine.doc_chunks)) as [_ ->].
  rewrite summary_counts_report. apply indices_agree.
Qed.

Lemma artifacts_list_same_documents_witness :
  (fun h : Z * str * Z => h.1)
    <$> Combine.header_blocks
          (default [] (Combine.consolidated
             (Combine.main Combine.sample_iterdir true None Combine.sample_time
                Combine.sample_time Combine.sample_time)))
  = (fun h : Z * str * Z => h.1)
      <$> Combine.summary_counts
            (default [] (Combine.summary
               (Combine.main Combine.sample_iterdir true None
                  Combine.sample_time Combine.sample_time Combine.sample_time))).
Proof.
  apply (artifacts_list_same_documents Combine.sample_iterdir true None
           Combine.sample_time Combine.sample_time Combine.sample_time).
  by vm_compute.
Defined.

(** X11. When reading the text file of a document raises (the names and
    the texts of the documents, and the message of the exception, holding no
    surrogate), the consolidation goes on: in the place of the document the
    consolidated file has one error line with the name of the directory and
    the message, the documents before and after it have their blocks, no
    header block stands for the document, and the summary report has an
    error entry for it; both lines are in the text of the two files. *)
Theorem unreadable_document_error_line
    (text_files : list (str * Combine.path)) (k : nat) (dir_name : str)
    (p : Combine.path) (msg : str) (t0 t1 t2 output_file : str) :
  text_files !! k = Some (dir_name, p) ->
  Combine.read (Combine.target p) = Raise (Error msg) ->
  Forall (fun doc => Combine.writable_doc doc = true) text_files ->
  exists out total pre post,
    Combine.combine_text_files text_files t0 t1
      = {| Combine.outfile := Some out; Combine.ret := Combine.RetTuple true total |} /\
    out = [Combine.Header t0 (len text_files)] ++ pre
          ++ [Combine.ErrorMsg dir_name (Error msg)]
          ++ post ++ [Combine.Footer (len text_files) total t1] /\
    Combine.document_blocks pre = (take k text_files).*1 /\
    Combine.document_blocks post = (drop (S k) text_files).*1 /\
    Combine.header_blocks out
      = Combine.header_blocks pre ++ Combine.header_blocks post /\
    total = foldr Z.add 0
              ((fun h : Z * str * Z => h.2) <$> Combine.header_blocks out) /\
    Combine.SumDocumentError (Z.of_nat k + 1) dir_name (Error msg)
      ∈ Combine.generate_summary_report text_files output_file total t2 /\
    contains (Combine.file_text out)
      ([10060%N] ++ lit " Error processing " ++ dir_name ++ lit ": " ++ msg
       ++ nl ++ nl) = true /\
    contains
      (Combine.summary_text
         (Combine.generate_summary_report text_files output_file total t2))
      (pad_left 2 32%N (format_int (Z.of_nat k + 1)) ++ lit ". " ++ dir_name
       ++ lit " - ERROR: " ++ msg ++ nl ++ nl) = true.
Proof.
  intros Hk Hread _.
  assert (text_files <> []) as Hne by (intros ->; done).
  rewrite (combine_output _ _ _ Hne).
  set (total := foldr Z.add 0 (Combine.doc_chars <$> enumerate 1 text_files)).
  pose proof (loop_middle _ _ _ Hk) as Hmid.
  assert (Combine.doc_chunks (Z.of_nat k + 1, (dir_name, p))
          = [Combine.ErrorMsg dir_name (Error msg)]) as Hdoc.
  { unfold Combine.doc_chunks, Combine.combine_one. simpl. by rewrite Hread. }
  exists ([Combine.Header t0 (len text_files)]
            ++ (enumerate 1 text_files ≫= Combine.doc_chunks)
            ++ [Combine.Footer (len text_files) total t1]), total,
         (enumerate 1 (take k text_files) ≫= Combine.doc_chunks),
         (enumerate (Z.of_nat k + 2) (drop (S k) text_files)
            ≫= Combine.doc_chunks).
  split; [reflexivity|].
  split; [rewrite Hmid, Hdoc, <- !app_assoc; reflexivity|].
  split; [apply document_blocks_loop|]. split; [apply document_blocks_loop|].
  destruct (blocks_of_outfile t0 t1 (len text_files) total
              (enumerate 1 text_files ≫= Combine.doc_chunks)) as [_ Hh].
  rewrite Hh. split; [|split; [|split; [|split]]].
  - rewrite Hmid, Hdoc. unfold Combine.header_blocks. rewrite !bind_app.
    reflexivity.
  - unfold total. symmetry. apply header_counts_sum.
  - unfold Combine.generate_summary_report. apply elem_of_app. right.
    apply list_elem_of_fmap. exists (Z.of_nat k + 1, (dir_name, p)). split.
    + unfold Combine.summary_one. simpl. by rewrite Hread.
    + apply elem_of_enumerate. exists k. split; [lia|done].
  - apply (doc_text_in_file _ _ _ _ _ _ _ _ Hk).
    rewrite (error_line_text _ _ _ _ Hread). apply contains_self.
  - apply (summary_entry_in_report _ _ _ _ _ _ _ _ Hk).
    rewrite (summary_error_text _ _ _ _ Hread). apply contains_self.
Qed.

Lemma unreadable_document_error_line_witness :
  exists out total pre post,
    Combine.combine_text_files Samples.mixed_text_files Combine.sample_time
      Combine.sample_time
      = {| Combine.outfile := Some out; Combine.ret := Combine.RetTuple true total |} /\
    out = [Combine.Header Combine.sample_time (len Samples.mixed_text_files)]
          ++ pre
          ++ [Combine.ErrorMsg (lit "bad")
                (Error (lit "'utf-8' codec can't decode byte 0xff"))]
          ++ post
          ++ [Combine.Footer (len Samples.mixed_text_files) total
                Combine.sample_time] /\
    Combine.document_blocks pre = (take 2 Samples.mixed_text_files).*1 /\
    Combine.document_blocks post = (drop 3 Samples.mixed_text_files).*1 /\
    Combine.header_blocks out
      = Combine.header_blocks pre ++ Combine.header_blocks post /\
    total = foldr Z.add 0
              ((fun h : Z * str * Z => h.2) <$> Combine.header_blocks out) /\
    Combine.SumDocumentError (Z.of_nat 2 + 1) (lit "bad")
      (Error (lit "'utf-8' codec can't decode byte 0xff"))
      ∈ Combine.generate_summary_report Samples.mixed_text_files
          Combine.output_file total Combine.sample_time /\
    contains (Combine.file_text out)
      ([10060%N] ++ lit " Error processing " ++ lit "bad" ++ lit ": "
       ++ lit "'utf-8' codec can't decode byte 0xff" ++ nl ++ nl) = true /\
    contains
      (Combine.summary_text
         (Combine.generate_summary_report Samples.mixed_text_files
            Combine.output_file total Combine.sample_time))
      (pad_left 2 32%N (format_int (Z.of_nat 2 + 1)) ++ lit ". " ++ lit "bad"
       ++ lit " - ERROR: " ++ lit "'utf-8' codec can't decode byte 0xff"
       ++ nl ++ nl) = true.
Proof.
  apply (unreadable_document_error_line Samples.mixed_text_files 2 (lit "bad")
           Samples.bad_path (lit "'utf-8' codec can't decode byte 0xff")
           Combine.sample_time Combine.sample_time Combine.sample_time
           Combine.output_file).
  - by vm_compute.
  - reflexivity.
  - apply (bool_decide_unpack _). by vm_compute.
Defined.

(** X12. The section of a document whose text file is read and holds some
    text, when the names and the texts of the documents can be written: the
    header block with the index of the document, its name, the path of the
    file and the length of the stripped content, then that content, as text
    of the consolidated file. The content is not empty and has no whitespace
    at either end; the count of the header block is at most the count that
    the text of the summary report gives for the document, and equal to it
    exactly when the file has no whitespace around its text. *)
Theorem document_section
    (text_files : list (str * Combine.path)) (k : nat) (dir_name : str)
    (p : Combine.path) (raw t0 t1 t2 output_file : str) :
  text_files !! k = Some (dir_name, p) ->
  Combine.read (Combine.target p) = Ok raw ->
  strip raw <> [] ->
  Forall (fun doc => Combine.writable_doc doc = true) text_files ->
  exists out total pre post,
    Combine.combine_text_files text_files t0 t1
      = {| Combine.outfile := Some out; Combine.ret := Combine.RetTuple true total |} /\
    out = [Combine.Header t0 (len text_files)] ++ pre
          ++ [Combine.Separator (Z.of_nat k + 1) dir_name (Combine.path_str p)
                (len (strip raw));
              Combine.Content (strip raw);
              Combine.Blank]
          ++ post ++ [Combine.Footer (len text_files) total t1] /\
    Combine.SumDocument (Z.of_nat k + 1) dir_name (Combine.path_str p)
      (Combine.st_size (Combine.target p)) (len raw)
      ∈ Combine.generate_summary_report text_files output_file total t2 /\
    contains (Combine.file_text out)
      (nl ++ rule "=" 80 ++ nl
       ++ lit "DOCUMENT " ++ format_int (Z.of_nat k + 1) ++ lit ": "
       ++ dir_name ++ nl
       ++ rule "=" 80 ++ nl
       ++ lit "Source File: " ++ Combine.path_str p ++ nl
       ++ lit "Characters: " ++ format_commas (len (strip raw)) ++ nl
       ++ rule "=" 80 ++ nl ++ nl
       ++ strip raw ++ nl ++ nl) = true /\
    contains
      (Combine.summary_text
         (Combine.generate_summary_report text_files output_file total t2))
      (pad_left 2 32%N (format_int (Z.of_nat k + 1)) ++ lit ". " ++ dir_name
       ++ nl
       ++ lit "    File: " ++ Combine.path_str p ++ nl
       ++ lit "    Size: " ++ format_commas (Combine.st_size (Combine.target p))
       ++ lit " bytes" ++ nl
       ++ lit "    Characters: " ++ format_commas (len raw) ++ nl ++ nl)
    = true /\
    1 <= len (strip raw) <= len raw /\
    (len (strip raw) = len raw <-> strip raw = raw) /\
    strip (strip raw) = strip raw.
Proof.
  intros Hk Hread Hstrip _.
  assert (text_files <> []) as Hne by (intros ->; done).
  rewrite (combine_output _ _ _ Hne).
  set (total := foldr Z.add 0 (Combine.doc_chars <$> enumerate 1 text_files)).
  pose proof (loop_middle _ _ _ Hk) as Hmid.
  assert (Combine.doc_chunks (Z.of_nat k + 1, (dir_name, p))
          = [Combine.Separator (Z.of_nat k + 1) dir_name (Combine.path_str p)
               (len (strip raw));
             Combine.Content (strip raw); Combine.Blank]) as Hdoc.
  { unfold Combine.doc_chunks, Combine.combine_one. simpl. rewrite Hread.
    by destruct (strip raw). }
  exists ([Combine.Header t0 (len text_files)]
            ++ (enumerate 1 text_files ≫= Combine.doc_chunks)
            ++ [Combine.Footer (len text_files) total t1]), total,
         (enumerate 1 (take k text_files) ≫= Combine.doc_chunks),
         (enumerate (Z.of_nat k + 2) (drop (S k) text_files)
            ≫= Combine.doc_chunks).
  split; [reflexivity|].
  split; [rewrite Hmid, Hdoc, <- !app_assoc; reflexivity|].
  split.
  { unfold Combine.generate_summary_report. apply elem_of_app. right.
    apply list_elem_of_fmap. exists (Z.of_nat k + 1, (dir_name, p)). split.
    + unfold Combine.summary_one. simpl. by rewrite Hread.
    + apply elem_of_enumerate. exists k. split; [lia|done]. }
  split.
  { apply (doc_text_in_file _ _ _ _ _ _ _ _ Hk).
    rewrite (section_text _ _ _ _ Hread Hstrip). apply contains_self. }
  split.
  { apply (summary_entry_in_report _ _ _ _ _ _ _ _ Hk).
    rewrite (summary_entry_text _ _ _ _ Hread). apply contains_self. }
  pose proof (strip_shorter raw) as [Hle Hlt].
  split.
  { split; [|done]. unfold len. destruct (strip raw); [done|simpl; lia]. }
  split; [|apply strip_idempotent].
  split; [|by intros ->].
  intros Heq. destruct (decide (strip raw = raw)) as [|Hn]; [done|].
  specialize (Hlt Hn). lia.
Qed.

Lemma document_section_witness :
  exists out total pre post,
    Combine.combine_text_files Samples.mixed_text_files Combine.sample_time
      Combine.sample_time
      = {| Combine.outfile := Some out; Combine.ret := Combine.RetTuple true total |} /\
    out = [Combine.Header Combine.sample_time (len Samples.mixed_text_files)]
          ++ pre
          ++ [Combine.Separator (Z.of_nat 1 + 1) (lit "b_doc")
                (Combine.path_str Samples.b_doc_path)
                (len (strip (lit "  beta text" ++ nl)));
              Combine.Content (strip (lit "  beta text" ++ nl));
              Combine.Blank]
          ++ post
          ++ [Combine.Footer (len Samples.mixed_text_files) total
                Combine.sample_time] /\
    Combine.SumDocument (Z.of_nat 1 + 1) (lit "b_doc")
      (Combine.path_str Samples.b_doc_path)
      (Combine.st_size (Combine.target Samples.b_doc_path))
      (len (lit "  beta text" ++ nl))
      ∈ Combine.generate_summary_report Samples.mixed_text_files
          Combine.output_file total Combine.sample_time /\
    contains (Combine.file_text out)
      (nl ++ rule "=" 80 ++ nl
       ++ lit "DOCUMENT " ++ format_int (Z.of_nat 1 + 1) ++ lit ": "
       ++ lit "b_doc" ++ nl
       ++ rule "=" 80 ++ nl
       ++ lit "Source File: " ++ Combine.path_str Samples.b_doc_path ++ nl
       ++ lit "Characters: "
       ++ format_commas (len (strip (lit "  beta text" ++ nl))) ++ nl
       ++ rule "=" 80 ++ nl ++ nl
       ++ strip (lit "  beta text" ++ nl) ++ nl ++ nl) = true /\
    contains
      (Combine.summary_text
         (Combine.generate_summary_report Samples.mixed_text_files
            Combine.output_file total Combine.sample_time))
      (pad_left 2 32%N (format_int (Z.of_nat 1 + 1)) ++ lit ". " ++ lit "b_doc"
       ++ nl
       ++ lit "    File: " ++ Combine.path_str Samples.b_doc_path ++ nl
       ++ lit "    Size: "
       ++ format_commas (Combine.st_size (Combine.target Samples.b_doc_path))
       ++ lit " bytes" ++ nl
       ++ lit "    Characters: " ++ format_commas (len (lit "  beta text" ++ nl))
       ++ nl ++ nl)
    = true /\
    1 <= len (strip (lit "  beta text" ++ nl)) <= len (lit "  beta text" ++ nl) /\
    (len (strip (lit "  beta text" ++ nl)) = len (lit "  beta text" ++ nl)
     <-> strip (lit "  beta text" ++ nl) = lit "  beta text" ++ nl) /\
    strip (strip (lit "  beta text" ++ nl)) = strip (lit "  beta text" ++ nl).
Proof.
  apply (document_section Samples.mixed_text_files 1 (lit "b_doc")
           Samples.b_doc_path (lit "  beta text" ++ nl)
           Combine.sample_time Combine.sample_time Combine.sample_time
           Combine.output_file).
  - by vm_compute.
  - reflexivity.
  - by vm_compute.
  - apply (bool_decide_unpack _). by vm_compute.
Defined.

(** X15. The documents found are exactly the entries of the base directory
    that are directories holding the combined text file, each with the path
    of that file inside it; files and directories without the text file are
    left out. *)
Theorem found_documents (base : str) (iterdir : list Combine.dirent)
    (dir_name : str) (p : Combine.path) :
  (dir_name, p) ∈ Combine.find_extracted_text_files base iterdir <->
  exists item f,
    item ∈ iterdir /\
    Combine.is_dir item = true /\
    Combine.text_file item = Some f /\
    dir_name = Combine.name item /\
    p = {| Combine.path_str := base ++ lit "/" ++ Combine.name item
                               ++ lit "/complete_extracted_text.txt";
           Combine.target := f |}.
Proof.
  unfold Combine.find_extracted_text_files.
  rewrite sort_by_perm, scan_omap, list_elem_of_omap. split.
  - intros (item & Hin & Hs). exists item.
    unfold Combine.scan_item in Hs.
    destruct (Combine.is_dir item); [|done].
    destruct (Combine.text_file item) as [f|]; [|done].
    injection Hs as <- <-. by exists f.
  - intros (item & f & Hin & Hd & Hf & -> & ->). exists item. split; [done|].
    unfold Combine.scan_item. by rewrite Hd, Hf.
Qed.

(** ** The OCR extraction of one document *)


Lemma extract_text_nonempty (self_client : option Ocr.client) (b : Ocr.bytes) :
  Ocr.extract_text_from_image self_client b <> [].
Proof.
  unfold Ocr.extract_text_from_image.
  destruct self_client as [c|]; [|done].
  destruct (Ocr.text_detection c b) as [r|e]; [|done].
  destruct (Ocr.error_message r) as [|m ms]; [|done].
  by destruct (Ocr.text_annotations r) as [|[|x xs] ?].
Qed.



Section PageLoopStates.
Variables (c : Ocr.client) (output_dir : str) (detailed : bool).

Local Abbreviation encodes page b :=
  (Ocr.image_to_bytes page (lit "JPEG") 85 = Ok b).
Local Abbreviation text_of b := (Ocr.recorded (Some c) detailed b).
Local Abbreviation words_of b := ((Ocr.page_result (Some c) detailed b).2).

(** The state of the loop after the pages of bytes [bs], numbered from
    [start]. *)
Local Abbreviation after st start bs :=
  {| Ocr.all_text :=
       Ocr.all_text st
       ++ ((fun ib : Z * Ocr.bytes =>
              Ocr.page_header ib.1 ++ text_of ib.2 ++ nl ++ nl)
             <$> enumerate start bs);
     Ocr.total_words :=
       Ocr.total_words st + foldr Z.add 0 ((fun b => words_of b) <$> bs%list);
     Ocr.api_calls := Ocr.api_calls st + len bs%list;
     Ocr.files :=
       Ocr.files st
       ++ ((fun ib : Z * Ocr.bytes => (Ocr.page_file output_dir ib.1, text_of ib.2))
             <$> enumerate start bs) |}.









End PageLoopStates.




(** With the empty output directory [os.makedirs] raises before any page is
    converted, and nothing is written. *)
Example empty_output_dir_raises :
  Ocr.process_pdf (Some Ocr.working_client) (Ok [Ocr.sample_image]) [] false
  = {| Ocr.returned :=
         Raise (Error (lit "[Errno 2] No such file or directory: ''"));
       Ocr.written := []; Ocr.summary := None |}.
Proof. reflexivity. Qed.







(** ** From the OCR extraction to the consolidation *)







(** ** From the consolidation to the training data *)





(** ** The batch mode and the command line of ocr_google_vision.py *)

Lemma batch_loop (ocr_client : option Ocr.client) (output_base_dir : str)
    (detailed : bool) (l : list (Z * OcrCli.pdf_file)) (st : OcrCli.batch_state) :
  foldl (fun st ipdf =>
           {| OcrCli.docs :=
                OcrCli.docs st
                ++ [OcrCli.process_one ocr_client output_base_dir detailed
                      ipdf.2];
              OcrCli.total_api_calls := OcrCli.total_api_calls st |})
        st l
  = {| OcrCli.docs :=
         OcrCli.docs st
         ++ (OcrCli.process_one ocr_client output_base_dir detailed <$> l.*2);
       OcrCli.total_api_calls := OcrCli.total_api_calls st |}.
Proof.
  revert st. induction l as [|ipdf l IH]; intros st.
  - destruct st. simpl. by rewrite app_nil_r.
  - cbn [foldl]. rewrite IH. cbn [OcrCli.docs OcrCli.total_api_calls].
    by rewrite fmap_cons, fmap_cons, <- app_assoc.
Qed.

Lemma test_connection_true (self_client : option Ocr.client)
    (test_call : result Ocr.text_response) :
  OcrCli.test_connection self_client test_call = true <->
  exists c r, self_client = Some c /\ test_call = Ok r /\
              Ocr.error_message r = [].
Proof.
  unfold OcrCli.test_connection. split.
  - destruct self_client as [c|]; [|done].
    destruct test_call as [r|e]; [|done].
    destruct (Ocr.error_message r) eqn:E; [|done].
    intros _. by exists c, r.
  - intros (c & r & -> & -> & ->). done.
Qed.

Lemma setup_client_Some (new_client : result Ocr.client) (c : Ocr.client) :
  OcrCli.setup_client new_client = Some c <-> new_client = Ok c.
Proof. destruct new_client; simpl; split; congruence. Qed.

(** X20. The batch mode, when it gets to the loop: the client was built and
    the test call went through; there is one entry per PDF file, in the
    order of the listing, and each is what [process_pdf] gives for that file
    alone, at 300 dpi, in the directory named after the file with spaces
    replaced, so that a document that fails or raises does not change the
    entries of the others; and the total of API calls that the estimated
    cost is computed from is 0 whatever was processed. *)
Theorem batch_entries (pdf_files : list OcrCli.pdf_file)
    (new_client : result Ocr.client) (test_call : result Ocr.text_response)
    (output_base_dir : str) (detailed : bool) (st : OcrCli.batch_state) :
  OcrCli.process_multiple_pdfs pdf_files new_client test_call output_base_dir
    detailed = OcrCli.Processed st ->
  exists c r,
    new_client = Ok c /\ test_call = Ok r /\ Ocr.error_message r = [] /\
    pdf_files <> [] /\
    OcrCli.total_api_calls st = 0 /\
    OcrCli.docs st
    = (fun pdf =>
         let output_dir :=
           os_path_join output_base_dir
             (OcrCli.safe_name (OcrCli.pdf_stem pdf)) in
         let o := Ocr.process_pdf (Some c) (OcrCli.rasterize pdf 300)
                    output_dir detailed in
         {| OcrCli.doc_name := OcrCli.pdf_name pdf;
            OcrCli.doc_output_dir := output_dir;
            OcrCli.doc_status := OcrCli.status_of o;
            OcrCli.doc_files := Ocr.written o |}) <$> pdf_files.
Proof.
  unfold OcrCli.process_multiple_pdfs.
  destruct pdf_files as [|pdf l]; [done|].
  destruct (OcrCli.test_connection (OcrCli.setup_client new_client) test_call)
    eqn:Et; [|done].
  apply test_connection_true in Et as (c & r & Hc & -> & Hr).
  apply setup_client_Some in Hc as ->.
  cbn [negb]. rewrite batch_loop, enumerate_snd. intros [= <-].
  exists c, r. by repeat split.
Qed.

Lemma batch_entries_witness :
  exists c r,
    OcrCli.new_client OcrCli.sample_world = Ok c /\
    OcrCli.test_call OcrCli.sample_world = Ok r /\
    Ocr.error_message r = [] /\
    OcrCli.sample_pdfs <> [] /\
    OcrCli.total_api_calls
      {| OcrCli.docs :=
           OcrCli.process_one (Some Ocr.flaky_client) (lit "out") true
             <$> OcrCli.sample_pdfs;
         OcrCli.total_api_calls := 0 |} = 0 /\
    OcrCli.docs
      {| OcrCli.docs :=
           OcrCli.process_one (Some Ocr.flaky_client) (lit "out") true
             <$> OcrCli.sample_pdfs;
         OcrCli.total_api_calls := 0 |}
    = (fun pdf =>
         let output_dir :=
           os_path_join (lit "out") (OcrCli.safe_name (OcrCli.pdf_stem pdf)) in
         let o := Ocr.process_pdf (Some c) (OcrCli.rasterize pdf 300)
                    output_dir true in
         {| OcrCli.doc_name := OcrCli.pdf_name pdf;
            OcrCli.doc_output_dir := output_dir;
            OcrCli.doc_status := OcrCli.status_of o;
            OcrCli.doc_files := Ocr.written o |}) <$> OcrCli.sample_pdfs.
Proof.
  apply (batch_entries OcrCli.sample_pdfs
           (OcrCli.new_client OcrCli.sample_world)
           (OcrCli.test_call OcrCli.sample_world) (lit "out") true).
  reflexivity.
Defined.

(** The statuses of the sample batch: a document whose conversion fails and
    one whose page cannot be encoded leave the others as they are. *)
Example sample_batch_statuses :
  match OcrCli.main OcrCli.sample_arguments OcrCli.sample_world with
  | OcrCli.BatchRun (OcrCli.Processed st) =>
      (fun d => (OcrCli.doc_output_dir d, OcrCli.doc_status d,
                 length (OcrCli.doc_files d))) <$> OcrCli.docs st
  | _ => []
  end
  = [(lit "out/annual_report", OcrCli.SUCCESS, 3%nat);
     (lit "out/notes", OcrCli.FAILED, 0%nat);
     (lit "out/scan",
      OcrCli.ERROR (Error (lit "cannot write mode P as JPEG")), 1%nat);
     (lit "out/last", OcrCli.SUCCESS, 3%nat)].
Proof. by vm_compute. Qed.

(** X21. The command line writes text files only when [--test] is not
    given, a path is, the client can be built and the test call goes
    through without an error message; then, for one document, only when the
    path exists and, in batch mode, only when the listing is not empty. *)
Theorem files_need_connection (args : OcrCli.arguments) (w : OcrCli.world) :
  OcrCli.files_written (OcrCli.main args w) <> [] ->
  OcrCli.arg_test args = false /\
  (exists p, OcrCli.arg_pdf_path args = Some p /\ p <> []) /\
  (exists c r, OcrCli.new_client w = Ok c /\ OcrCli.test_call w = Ok r /\
               Ocr.error_message r = []) /\
  (if OcrCli.arg_batch args then OcrCli.path_glob_pdf w <> []
   else OcrCli.path_exists w = true).
Proof.
  unfold OcrCli.main.
  destruct (OcrCli.arg_test args); [done|].
  destruct (OcrCli.arg_pdf_path args) as [[|ch p]|]; [done| |done].
  destruct (OcrCli.arg_batch args).
  - unfold OcrCli.process_multiple_pdfs.
    destruct (OcrCli.path_glob_pdf w) as [|pdf l]; [done|].
    destruct (OcrCli.test_connection (OcrCli.setup_client (OcrCli.new_client w))
                (OcrCli.test_call w)) eqn:Et; [|done].
    apply test_connection_true in Et as (c & r & Hc & Hr & Hm).
    apply setup_client_Some in Hc. intros _.
    split; [done|]. split; [by eexists|]. split; [by exists c, r|done].
  - destruct (OcrCli.path_exists w); [|done].
    destruct (OcrCli.test_connection (OcrCli.setup_client (OcrCli.new_client w))
                (OcrCli.test_call w)) eqn:Et; [|done].
    apply test_connection_true in Et as (c & r & Hc & Hr & Hm).
    apply setup_client_Some in Hc. intros _.
    split; [done|]. split; [by eexists|]. split; [by exists c, r|done].
Qed.

Lemma files_need_connection_witness :
  OcrCli.arg_test OcrCli.sample_arguments = false /\
  (exists p, OcrCli.arg_pdf_path OcrCli.sample_arguments = Some p /\ p <> []) /\
  (exists c r, OcrCli.new_client OcrCli.sample_world = Ok c /\
               OcrCli.test_call OcrCli.sample_world = Ok r /\
               Ocr.error_message r = []) /\
  (if OcrCli.arg_batch OcrCli.sample_arguments
   then OcrCli.path_glob_pdf OcrCli.sample_world <> []
   else OcrCli.path_exists OcrCli.sample_world = true).
Proof.
  apply (files_need_connection OcrCli.sample_arguments OcrCli.sample_world).
  by vm_compute.
Defined.

Lemma safe_name_no_space (stem : str) : 32%N ∉ OcrCli.safe_name stem.
Proof.
  unfold OcrCli.safe_name. intros Hin.
  apply list_elem_of_fmap in Hin as (ch & Heq & _).
  destruct (ch =? 32)%N eqn:E; [done|]. by rewrite <- Heq in E.
Qed.

Lemma safe_name_fixed (stem : str) :
  32%N ∉ stem -> OcrCli.safe_name stem = stem.
Proof.
  unfold OcrCli.safe_name. induction stem as [|ch stem IH]; [done|].
  intros Hn. rewrite fmap_cons, IH.
  - destruct (N.eqb_spec ch 32) as [->|_]; [|done].
    exfalso. apply Hn. left.
  - intros Hin. apply Hn. by right.
Qed.

(** X22. The output directory of a document in batch mode has no space in
    its last component, and a stem without spaces is kept. Two files whose
    stems differ only by spaces against underscores get the same output
    directory: a file whose stem has a space shares it with the file named
    by the replaced stem, which is another file. *)
Theorem safe_name_collision (stem : str) (ocr_client : option Ocr.client)
    (output_base_dir : str) (detailed : bool) (pdf1 pdf2 : OcrCli.pdf_file) :
  32%N ∈ stem ->
  OcrCli.pdf_stem pdf1 = stem ->
  OcrCli.pdf_stem pdf2 = OcrCli.safe_name stem ->
  OcrCli.pdf_stem pdf1 <> OcrCli.pdf_stem pdf2 /\
  (32%N ∉ OcrCli.safe_name stem) /\
  len (OcrCli.safe_name stem) = len stem /\
  OcrCli.doc_output_dir
    (OcrCli.process_one ocr_client output_base_dir detailed pdf1)
  = OcrCli.doc_output_dir
      (OcrCli.process_one ocr_client output_base_dir detailed pdf2).
Proof.
  intros Hin H1 H2. pose proof (safe_name_no_space stem) as Hno.
  split; [|split; [done|split]].
  - rewrite H1, H2. intros Heq. rewrite <- Heq in Hno. done.
  - unfold OcrCli.safe_name, len. by rewrite length_fmap.
  - unfold OcrCli.process_one. cbn [OcrCli.doc_output_dir].
    rewrite H1, H2. by rewrite (safe_name_fixed _ Hno).
Qed.

Lemma safe_name_collision_witness :
  OcrCli.pdf_stem (OcrCli.sample_pdf "annual report" [2; 0])
  <> OcrCli.pdf_stem (OcrCli.sample_pdf "annual_report" [1]) /\
  (32%N ∉ OcrCli.safe_name (lit "annual report")) /\
  len (OcrCli.safe_name (lit "annual report")) = len (lit "annual report") /\
  OcrCli.doc_output_dir
    (OcrCli.process_one (Some Ocr.flaky_client) (lit "out") false
       (OcrCli.sample_pdf "annual report" [2; 0]))
  = OcrCli.doc_output_dir
      (OcrCli.process_one (Some Ocr.flaky_client) (lit "out") false
         (OcrCli.sample_pdf "annual_report" [1])).
Proof.
  apply (safe_name_collision (lit "annual report") (Some Ocr.flaky_client)
           (lit "out") false (OcrCli.sample_pdf "annual report" [2; 0])
           (OcrCli.sample_pdf "annual_report" [1])).
  - apply (bool_decide_unpack _). by vm_compute.
  - reflexivity.
  - by vm_compute.
Defined.

Lemma foldl_count {A} (l : list A) (n : Z) :
  foldl (fun n (_ : A) => n + 1) n l = n + len l.
Proof.
  revert n. induction l as [|x l IH]; intros n.
  - unfold len. simpl. lia.
  - cbn [foldl]. rewrite IH. unfold len. simpl length. lia.
Qed.

Lemma foldl_count_nested {A B} (f : Z -> A -> Z) (g : A -> list B)
    (l : list A) (n : Z) :
  (forall n x, f n x = n + len (g x)) ->
  foldl f n l = n + len (l ≫= g).
Proof.
  intros Hf. revert n. induction l as [|x l IH]; intros n.
  - unfold len. simpl. lia.
  - cbn [foldl]. rewrite IH, Hf.
    change ((x :: l) ≫= g) with (g x ++ (l ≫= g)).
    rewrite len_app. lia.
Qed.

(** X23. The word count of the detailed mode is the number of words of the
    annotation, over all its pages, blocks and paragraphs, and is 0 when the
    call fails; with no word the count stays at its initial 0. *)
Theorem detailed_word_count (self_client : option Ocr.client)
    (image_bytes : Ocr.bytes) :
  match Ocr.get_detailed_text_info self_client image_bytes with
  | Some info =>
      exists c r d,
        self_client = Some c /\
        Ocr.document_text_detection c image_bytes = Ok r /\
        Ocr.doc_error_message r = [] /\
        Ocr.full_text_annotation r = Some d /\
        Ocr.info_text info = Ocr.doc_text d /\
        Ocr.info_word_count info
        = len (Ocr.doc_pages d ≫= (fun pg => pg ≫= (fun bl => bl ≫= id))) /\
        Ocr.page_result self_client true image_bytes
        = (Ocr.doc_text d, Ocr.info_word_count info)
  | None =>
      Ocr.page_result self_client true image_bytes
      = (lit "Error processing page", 0)
  end.
Proof.
  unfold Ocr.page_result.
  destruct (Ocr.get_detailed_text_info self_client image_bytes) as [info|] eqn:E;
    [|done].
  unfold Ocr.get_detailed_text_info in E.
  destruct self_client as [c|]; [|done].
  destruct (Ocr.document_text_detection c image_bytes) as [r|e] eqn:Er; [|done].
  destruct (Ocr.doc_error_message r) eqn:Em; [|done].
  destruct (Ocr.full_text_annotation r) as [d|] eqn:Ed; [|done].
  injection E as <-. exists c, r, d. do 5 (split; [done|]). split; [|done].
  cbn [Ocr.info_word_count]. unfold Ocr.count_document_words.
  rewrite (foldl_count_nested _ (fun pg : Ocr.page_annotation =>
                                   pg ≫= (fun bl => bl ≫= id))); [done|].
  intros n pg.
  rewrite (foldl_count_nested _ (fun bl : Ocr.block => bl ≫= id)); [done|].
  intros n' bl.
  rewrite (foldl_count_nested _ (fun par : Ocr.paragraph => par)); [done|].
  intros n'' par. apply foldl_count.
Qed.

Lemma count_words_nonneg (in_word : bool) (s : str) : 0 <= count_words in_word s.
Proof.
  revert in_word. induction s as [|ch s IH]; intros in_word; [done|].
  cbn [count_words]. pose proof (IH false). pose proof (IH true).
  destruct (isspace ch), in_word; lia.
Qed.

(** Words before a space and words after it are counted apart. *)
Lemma count_words_space (in_word : bool) (p s : str) (sp : N) :
  isspace sp = true ->
  count_words in_word (p ++ sp :: s)
  = count_words in_word (p ++ [sp]) + count_words false s.
Proof.
  intros Hsp. revert in_word. induction p as [|ch p IH]; intros in_word.
  - cbn [app count_words]. rewrite Hsp. cbn [count_words]. lia.
  - rewrite <- !app_comm_cons. cbn [count_words].
    rewrite (IH false), (IH true). destruct (isspace ch), in_word; lia.
Qed.

(** X24. In standard mode the text recorded for a page on which the API call
    raises (an exception of message [m]) or reports an error is itself
    counted in words: the message prefix adds three words, or two, to the
    words of the document. In detailed mode a page on which the call raises
    or reports an error counts no word. *)
Theorem standard_error_words (c : Ocr.client) (b : Ocr.bytes) (msg : str) :
  (exists m, Ocr.text_detection c b = Raise (Error m) /\
             msg = lit "Error processing image: " ++ m) \/
  (exists r, Ocr.text_detection c b = Ok r /\ Ocr.error_message r <> [] /\
             msg = lit "API Error: " ++ Ocr.error_message r) ->
  Ocr.page_result (Some c) false b = (msg, count_words false msg) /\
  Ocr.recorded (Some c) false b = msg /\
  2 <= count_words false msg /\
  (forall m, Ocr.text_detection c b = Raise (Error m) ->
     count_words false msg = 3 + count_words false m) /\
  (forall r, Ocr.text_detection c b = Ok r ->
     count_words false msg = 2 + count_words false (Ocr.error_message r)) /\
  (forall e, Ocr.document_text_detection c b = Raise e ->
     Ocr.page_result (Some c) true b = (lit "Error processing page", 0)) /\
  (forall r, Ocr.document_text_detection c b = Ok r ->
     Ocr.doc_error_message r <> [] ->
     Ocr.page_result (Some c) true b = (lit "Error processing page", 0)).
Proof.
  assert (forall s, count_words false (lit "Error processing image: " ++ s)
                    = 3 + count_words false s) as H3.
  { intros s.
    change (lit "Error processing image: ")
      with (lit "Error processing image:" ++ [32%N]).
    rewrite <- app_assoc. cbn [app].
    rewrite (count_words_space false _ s 32 eq_refl). f_equal. }
  assert (forall s, count_words false (lit "API Error: " ++ s)
                    = 2 + count_words false s) as H2.
  { intros s.
    change (lit "API Error: ") with (lit "API Error:" ++ [32%N]).
    rewrite <- app_assoc. cbn [app].
    rewrite (count_words_space false _ s 32 eq_refl). f_equal. }
  destruct (detailed_error_text c b) as [Hd1 Hd2].
  intros [(m & He & ->)|(r & Hr & Hm & ->)].
  - pose proof (count_words_nonneg false m).
    assert (Ocr.page_result (Some c) false b
            = (lit "Error processing image: " ++ m,
               count_words false (lit "Error processing image: " ++ m)))
      as Hp.
    { unfold Ocr.page_result, Ocr.extract_text_from_image. by rewrite He. }
    split; [done|]. split; [unfold Ocr.recorded; by rewrite Hp|].
    split; [rewrite H3; lia|]. split; [|split; [|split; [done|done]]].
    + intros m' He'. rewrite He in He'. injection He' as <-. apply H3.
    + intros r Hr. congruence.
  - pose proof (count_words_nonneg false (Ocr.error_message r)).
    assert (Ocr.page_result (Some c) false b
            = (lit "API Error: " ++ Ocr.error_message r,
               count_words false (lit "API Error: " ++ Ocr.error_message r)))
      as Hp.
    { unfold Ocr.page_result, Ocr.extract_text_from_image. rewrite Hr.
      by destruct (Ocr.error_message r). }
    split; [done|]. split; [unfold Ocr.recorded; by rewrite Hp|].
    split; [rewrite H2; lia|]. split; [|split; [|split; [done|done]]].
    + intros m He. congruence.
    + intros r' Hr'. rewrite Hr in Hr'. injection Hr' as <-. apply H2.
Qed.

Lemma standard_error_words_witness :
  Ocr.page_result (Some Ocr.flaky_client) false [0]
  = (lit "Error processing image: deadline exceeded",
     count_words false (lit "Error processing image: deadline exceeded")) /\
  Ocr.recorded (Some Ocr.flaky_client) false [0]
  = lit "Error processing image: deadline exceeded" /\
  2 <= count_words false (lit "Error processing image: deadline exceeded") /\
  (forall m, Ocr.text_detection Ocr.flaky_client [0] = Raise (Error m) ->
     count_words false (lit "Error processing image: deadline exceeded")
     = 3 + count_words false m) /\
  (forall r, Ocr.text_detection Ocr.flaky_client [0] = Ok r ->
     count_words false (lit "Error processing image: deadline exceeded")
     = 2 + count_words false (Ocr.error_message r)) /\
  (forall e, Ocr.document_text_detection Ocr.flaky_client [0] = Raise e ->
     Ocr.page_result (Some Ocr.flaky_client) true [0]
     = (lit "Error processing page", 0)) /\
  (forall r, Ocr.document_text_detection Ocr.flaky_client [0] = Ok r ->
     Ocr.doc_error_message r <> [] ->
     Ocr.page_result (Some Ocr.flaky_client) true [0]
     = (lit "Error processing page", 0)).
Proof.
  apply (standard_error_words Ocr.flaky_client [0]
           (lit "Error processing image: deadline exceeded")).
  left. exists (lit "deadline exceeded"). split; reflexivity.
Defined.

(** The two modes on the page of the sample client whose call raises: five
    words are counted in standard mode, none in detailed mode. *)
Example error_words_by_mode :
  (Ocr.page_result (Some Ocr.flaky_client) false [0]).2 = 5 /\
  (Ocr.page_result (Some Ocr.flaky_client) true [0]).2 = 0.
Proof. by vm_compute. Qed.
